(** * metadataStore.dataapi.raw_commands

    A shallow embedding of [metadataStore/dataapi/raw_commands.py]: the
    record writers, the lookup helpers, the two header mutations and the
    query engine [find], over a model of the document store they talk to.

    Python values are a small universe [value]; a Python [dict] with string
    keys is an association list kept in insertion order; the commands are
    functions in a state-and-exception monad over a [world] made of the
    four collections, the process environment (clock, user), the module's
    own state (defaults evaluated at import, the shared default dicts) and
    the list of filters handed to the store. *)

From Stdlib Require Import List String Ascii ZArith NArith Bool Arith Lia.
From Stdlib Require Import Permutation DecimalString DecimalNat.
Import ListNotations.
Local Open Scope string_scope.
Local Open Scope list_scope.
Set Warnings "-register-all".

(* ================================================================== *)
(** ** Python values *)

(** [VTime] is a [datetime.datetime], as a point on the time line;
    [VOid] an [ObjectId]; [VRegex] a compiled pattern object, which is
    determined by its pattern string and the IGNORECASE flag. *)
Inductive value : Type :=
| VNone
| VBool (b : bool)
| VInt (z : Z)
| VStr (s : string)
| VTime (t : Z)
| VOid (n : N)
| VRegex (pattern : string) (ignorecase : bool)
| VList (l : list value)
| VDict (d : list (string * value)).

Definition dict : Type := list (string * value).

(** The exceptions the module can raise or let through.  [ReError] is
    [re.error]; [Unmodelled] is no Python exception: it ends a run that
    leaves the modelled fragment (see [py_str]). *)
Inductive exn : Type :=
| TypeError (msg : string)
| ValueError (msg : string)
| KeyError (key : string)
| IndexError (msg : string)
| OperationError (msg : string)
| Exception (msg : string)
| UnboundLocalError (name : string)
| ReError (pattern : string)
| Unmodelled (what : string).

(** [isinstance(x, list)], [isinstance(x, dict)],
    [isinstance(x, datetime.datetime)]. *)
Definition is_datetime (v : value) : bool :=
  match v with VTime _ => true | _ => false end.

Definition is_None (v : value) : bool :=
  match v with VNone => true | _ => false end.

(* ------------------------------------------------------------------ *)
(** *** dict operations *)

(** [d.get(k)]: the value bound to [k], if any. *)
Fixpoint dict_get (k : string) (d : dict) : option value :=
  match d with
  | [] => None
  | (k', v) :: rest => if String.eqb k k' then Some v else dict_get k rest
  end.

(** [d[k] = v]: overwrite in place when [k] is bound, else add at the end. *)
Fixpoint dict_set (k : string) (v : value) (d : dict) : dict :=
  match d with
  | [] => [(k, v)]
  | (k', v') :: rest =>
      if String.eqb k k' then (k', v) :: rest else (k', v') :: dict_set k v rest
  end.

(** [d.keys()]. *)
Definition dict_keys (d : dict) : list string := map fst d.

(** [sub in s] for strings: [sub] occurs in [s]. *)
Fixpoint str_in (sub s : string) : bool :=
  String.prefix sub s ||
  match s with
  | EmptyString => false
  | String _ rest => str_in sub rest
  end.

(* ------------------------------------------------------------------ *)
(** *** str() *)

(** [str(i)] for a non-negative [int]: its decimal digits. *)
Definition str_nat (i : nat) : string :=
  NilEmpty.string_of_uint (Nat.to_uint i).

Definition hex_digit (n : N) : ascii :=
  match n with
  | 0%N => "0" | 1%N => "1" | 2%N => "2" | 3%N => "3" | 4%N => "4"
  | 5%N => "5" | 6%N => "6" | 7%N => "7" | 8%N => "8" | 9%N => "9"
  | 10%N => "a" | 11%N => "b" | 12%N => "c" | 13%N => "d" | 14%N => "e"
  | _ => "f"
  end%char.

Fixpoint hex_fixed (width : nat) (n : N) : string :=
  match width with
  | O => EmptyString
  | S w => (hex_fixed w (N.div n 16) ++ String (hex_digit (N.modulo n 16)) EmptyString)%string
  end.

(** [str(x)] where the module applies it: to loop counters and to the
    [_id] of a record.  An [ObjectId] prints as its 24 hexadecimal digits.
    Values whose printed form is not determined by the value alone
    (datetimes need a calendar, pattern objects print an address) and
    containers are left out: [None]. *)
Definition py_str (v : value) : option string :=
  match v with
  | VNone => Some "None"
  | VBool true => Some "True"
  | VBool false => Some "False"
  | VInt z =>
      Some (match z with
            | Zneg p => ("-" ++ str_nat (Pos.to_nat p))%string
            | _ => str_nat (Z.to_nat z)
            end)
  | VStr s => Some s
  | VOid n => Some (hex_fixed 24 n)
  | _ => None
  end.

(* ------------------------------------------------------------------ *)
(** *** Equality and order of stored values *)

(** Equality as the store decides it: same type, same content; embedded
    documents field by field, in order. *)
Fixpoint value_eqb (a b : value) : bool :=
  match a, b with
  | VNone, VNone => true
  | VBool x, VBool y => Bool.eqb x y
  | VInt x, VInt y => Z.eqb x y
  | VStr x, VStr y => String.eqb x y
  | VTime x, VTime y => Z.eqb x y
  | VOid x, VOid y => N.eqb x y
  | VRegex p i, VRegex q j => String.eqb p q && Bool.eqb i j
  | VList l, VList m =>
      (fix go (l m : list value) : bool :=
         match l, m with
         | [], [] => true
         | x :: l', y :: m' => value_eqb x y && go l' m'
         | _, _ => false
         end) l m
  | VDict d, VDict e =>
      (fix go (d e : list (string * value)) : bool :=
         match d, e with
         | [], [] => true
         | (k, x) :: d', (k', y) :: e' => String.eqb k k' && value_eqb x y && go d' e'
         | _, _ => false
         end) d e
  | _, _ => false
  end.

(** The store's comparison order puts the types in brackets (null, numbers,
    strings, documents, arrays, ObjectId, booleans, dates, regular
    expressions) and compares inside a bracket. *)
Definition bson_rank (v : value) : nat :=
  match v with
  | VNone => 1
  | VInt _ => 2
  | VStr _ => 3
  | VDict _ => 4
  | VList _ => 5
  | VOid _ => 7
  | VBool _ => 8
  | VTime _ => 9
  | VRegex _ _ => 11
  end.

(** Inside the brackets of documents, arrays and patterns the order is not
    modelled: two such values compare as equal. *)
Definition bson_compare (a b : value) : comparison :=
  match a, b with
  | VInt x, VInt y => Z.compare x y
  | VStr x, VStr y => String.compare x y
  | VOid x, VOid y => N.compare x y
  | VBool x, VBool y => Bool.compare x y
  | VTime x, VTime y => Z.compare x y
  | _, _ => Nat.compare (bson_rank a) (bson_rank b)
  end.

Definition bson_leb (a b : value) : bool :=
  match bson_compare a b with Gt => false | _ => true end.

Definition bson_ltb (a b : value) : bool :=
  match bson_compare a b with Lt => true | _ => false end.

(* ================================================================== *)
(** ** The regular-expression engine *)

(** [re.compile] and the store's [$regex] belong to the libraries.  The
    development is parametric in them: [re_valid p] says that
    [re.compile(p, ...)] returns a pattern object rather than raising, and
    [re_search p ic s] that the pattern finds a match somewhere in [s]
    ([ic]: ignoring case). *)
Class RegexEngine : Type := {
  re_valid : string -> bool;
  re_search : string -> bool -> string -> bool
}.

(** A small engine to run the model on examples, in the style of Kernighan
    and Pike's matcher: literal characters, [.], postfix [*] and [?], a
    leading [^] and a trailing [$].  Patterns outside this fragment are
    reported as not compiling. *)
Module SmallRegex.

Inductive atom : Type := Any | Chr (c : ascii).
Inductive quant : Type := One | Star | Opt.

Definition to_lower (c : ascii) : ascii :=
  let n := nat_of_ascii c in
  if ((65 <=? n)%nat && (n <=? 90)%nat)%bool then ascii_of_nat (n + 32) else c.

Definition atom_matches (ic : bool) (a : atom) (c : ascii) : bool :=
  match a with
  | Any => true
  | Chr x => if ic then Ascii.eqb (to_lower x) (to_lower c) else Ascii.eqb x c
  end.

Definition unsupported (c : ascii) : bool :=
  existsb (Ascii.eqb c) (list_ascii_of_string "[](){}|+\^$").

(** Items of the pattern, last one first while parsing. *)
Fixpoint parse_items (p : list ascii) (acc : list (atom * quant))
  : option (list (atom * quant) * bool) :=
  match p with
  | [] => Some (rev acc, false)
  | c :: rest =>
      if Ascii.eqb c "$" then
        match rest with [] => Some (rev acc, true) | _ => None end
      else if Ascii.eqb c "*" then
        match acc with
        | (a, One) :: acc' => parse_items rest ((a, Star) :: acc')
        | _ => None
        end
      else if Ascii.eqb c "?" then
        match acc with
        | (a, One) :: acc' => parse_items rest ((a, Opt) :: acc')
        | _ => None
        end
      else if unsupported c then None
      else if Ascii.eqb c "." then parse_items rest ((Any, One) :: acc)
      else parse_items rest ((Chr c, One) :: acc)
  end.

(** (anchored at the start, items, anchored at the end) *)
Definition parse (p : string) : option (bool * list (atom * quant) * bool) :=
  match list_ascii_of_string p with
  | "^"%char :: rest =>
      match parse_items rest [] with
      | Some (items, e) => Some (true, items, e)
      | None => None
      end
  | l =>
      match parse_items l [] with
      | Some (items, e) => Some (false, items, e)
      | None => None
      end
  end.

Fixpoint match_here (ic : bool) (items : list (atom * quant)) (at_end : bool)
  (text : list ascii) : bool :=
  match items with
  | [] => if at_end then match text with [] => true | _ => false end else true
  | (a, One) :: rest =>
      match text with
      | c :: t => atom_matches ic a c && match_here ic rest at_end t
      | [] => false
      end
  | (a, Opt) :: rest =>
      match_here ic rest at_end text ||
      match text with
      | c :: t => atom_matches ic a c && match_here ic rest at_end t
      | [] => false
      end
  | (a, Star) :: rest =>
      (fix star (text : list ascii) : bool :=
         match_here ic rest at_end text ||
         match text with
         | c :: t => atom_matches ic a c && star t
         | [] => false
         end) text
  end.

Fixpoint match_anywhere (ic : bool) (items : list (atom * quant)) (at_end : bool)
  (text : list ascii) : bool :=
  match_here ic items at_end text ||
  match text with
  | [] => false
  | _ :: t => match_anywhere ic items at_end t
  end.

Definition valid (p : string) : bool :=
  match parse p with Some _ => true | None => false end.

Definition search (p : string) (ic : bool) (s : string) : bool :=
  match parse p with
  | Some (true, items, e) => match_here ic items e (list_ascii_of_string s)
  | Some (false, items, e) => match_anywhere ic items e (list_ascii_of_string s)
  | None => false
  end.

Definition engine : RegexEngine := {| re_valid := valid; re_search := search |}.

End SmallRegex.

(* ================================================================== *)
(** ** The world: store, process, module state *)

Inductive collection : Type := Header | EventDescriptor | Event | BeamlineConfig.

(** A collection is the list of its documents in insertion order, which
    is the order in which an unsorted query returns them.  [next_oid] is
    the next identifier the store hands out. *)
Record store : Type := mkStore {
  Header_docs : list dict;
  EventDescriptor_docs : list dict;
  Event_docs : list dict;
  BeamlineConfig_docs : list dict;
  next_oid : N
}.

Definition docs_of (c : collection) (s : store) : list dict :=
  match c with
  | Header => Header_docs s
  | EventDescriptor => EventDescriptor_docs s
  | Event => Event_docs s
  | BeamlineConfig => BeamlineConfig_docs s
  end.

Definition set_docs (c : collection) (l : list dict) (s : store) : store :=
  match c with
  | Header =>
      mkStore l (EventDescriptor_docs s) (Event_docs s) (BeamlineConfig_docs s) (next_oid s)
  | EventDescriptor =>
      mkStore (Header_docs s) l (Event_docs s) (BeamlineConfig_docs s) (next_oid s)
  | Event =>
      mkStore (Header_docs s) (EventDescriptor_docs s) l (BeamlineConfig_docs s) (next_oid s)
  | BeamlineConfig =>
      mkStore (Header_docs s) (EventDescriptor_docs s) (Event_docs s) l (next_oid s)
  end.

(** What the process environment answers: [datetime.datetime.utcnow()]
    and [getpass.getuser()]. *)
Record process : Type := mkProcess {
  utcnow : Z;
  getuser : string
}.

(** The state the module itself holds: the default arguments, which
    Python evaluates once, when the [def] statements run at import, and the
    three dict objects that are the defaults of the query helpers. *)
Record module_state : Type := mkModule {
  save_header_header_owner : string;
  save_header_start_time : Z;
  insert_event_owner : string;
  find_event_event_query_dict : dict;
  find_event_descriptor_event_query_dict : dict;
  find_beamline_config_beamline_cfg_query_dict : dict
}.

(** [queries]: the filters handed to a collection's find, oldest first. *)
Record world : Type := mkWorld {
  db : store;
  proc : process;
  mdl : module_state;
  queries : list (collection * dict)
}.

(** Importing the module in a process. *)
Definition import_module (p : process) : module_state :=
  {| save_header_header_owner := getuser p;
     save_header_start_time := utcnow p;
     insert_event_owner := getuser p;
     find_event_event_query_dict := [];
     find_event_descriptor_event_query_dict := [];
     find_beamline_config_beamline_cfg_query_dict := [] |}.

Definition empty_store : store := mkStore [] [] [] [] 0.

(* ------------------------------------------------------------------ *)
(** *** The monad of commands *)

Inductive result (A : Type) : Type :=
| Ok (a : A)
| Raise (e : exn).
Arguments Ok {A} a.
Arguments Raise {A} e.

(** A command runs in a world and ends with a value or an exception; what
    it did to the world before raising stays done. *)
Definition M (A : Type) : Type := world -> result A * world.

Definition ret {A : Type} (a : A) : M A := fun w => (Ok a, w).

Definition raise {A : Type} (e : exn) : M A := fun w => (Raise e, w).

Definition bind {A B : Type} (c : M A) (k : A -> M B) : M B :=
  fun w =>
    match c w with
    | (Ok a, w') => k a w'
    | (Raise e, w') => (Raise e, w')
    end.

Declare Scope cmd_scope.
Delimit Scope cmd_scope with cmd.
Notation "x <- c ;; k" := (bind c (fun x => k))
  (at level 61, c at next level, right associativity) : cmd_scope.
Notation "' p <- c ;; k" := (bind c (fun x => match x with p => k end))
  (at level 61, p pattern, c at next level, right associativity) : cmd_scope.
Notation "c ;; k" := (bind c (fun _ => k))
  (at level 61, right associativity) : cmd_scope.
Local Open Scope cmd_scope.

Definition get_world : M world := fun w => (Ok w, w).

Definition put_db (s : store) : M unit :=
  fun w => (Ok tt, mkWorld s (proc w) (mdl w) (queries w)).

Definition put_mdl (m : module_state) : M unit :=
  fun w => (Ok tt, mkWorld (db w) (proc w) m (queries w)).

Definition log_query (c : collection) (q : dict) : M unit :=
  fun w => (Ok tt, mkWorld (db w) (proc w) (mdl w) (queries w ++ [(c, q)])).

(** [d[k]] *)
Definition getitem (d : dict) (k : string) : M value :=
  match dict_get k d with
  | Some v => ret v
  | None => raise (KeyError k)
  end.

(** [d[k]] where what follows is a subscript of the result, as in
    [d[k][k2] = v]. *)
Definition getitem_dict (d : dict) (k : string) : M dict :=
  v <- getitem d k;;
  match v with
  | VDict inner => ret inner
  | _ => raise (TypeError "object does not support item assignment")
  end.

(** [d[k1][k2] = v] *)
Definition setitem2 (d : dict) (k1 k2 : string) (v : value) : M dict :=
  inner <- getitem_dict d k1;;
  ret (dict_set k1 (VDict (dict_set k2 v inner)) d).

(** [d[k1][k2][k3] = v] *)
Definition setitem3 (d : dict) (k1 k2 k3 : string) (v : value) : M dict :=
  inner <- getitem_dict d k1;;
  inner' <- setitem2 inner k2 k3 v;;
  ret (dict_set k1 (VDict inner') d).

(** [str(x)] *)
Definition str (v : value) : M string :=
  match py_str v with
  | Some s => ret s
  | None => raise (Unmodelled "str")
  end.

(** [l[i]] on a list and on a cursor. *)
Definition list_getitem (l : list dict) (i : nat) : M dict :=
  match nth_error l i with
  | Some d => ret d
  | None => raise (IndexError "list index out of range")
  end.

Definition cursor_getitem (cursor : list dict) (i : nat) : M dict :=
  match nth_error cursor i with
  | Some d => ret d
  | None => raise (IndexError "no such item for Cursor instance")
  end.

(* ------------------------------------------------------------------ *)
(** *** A sample world *)

(** Three runs saved in a module imported by user arkilic at time 1000;
    the second has a descriptor with two events. *)
Definition run_1 : dict :=
  [("_id", VOid 0); ("owner", VStr "arkilic"); ("start_time", VTime 1000);
   ("end_time", VTime 1000); ("beamline_id", VNone); ("scan_id", VInt 1);
   ("custom", VDict []); ("status", VStr "In Progress")].

Definition run_2 : dict :=
  [("_id", VOid 1); ("owner", VStr "Clark"); ("start_time", VTime 2000);
   ("end_time", VTime 2000); ("beamline_id", VStr "csx"); ("scan_id", VInt 2);
   ("custom", VDict []); ("status", VStr "In Progress")].

Definition run_3 : dict :=
  [("_id", VOid 5); ("owner", VStr "bob"); ("start_time", VTime 1500);
   ("end_time", VTime 1500); ("beamline_id", VNone); ("scan_id", VInt 3);
   ("custom", VDict []); ("status", VStr "In Progress")].

Definition scan_descriptor : dict :=
  [("_id", VOid 2); ("header_id", VOid 1); ("event_type_id", VInt 0);
   ("event_type_name", VStr "scan"); ("type_descriptor", VDict []); ("tag", VNone)].

Definition scan_event (id : N) (seq_no x : Z) : dict :=
  [("_id", VOid id); ("event_descriptor_id", VOid 2); ("header_id", VOid 1);
   ("description", VNone); ("owner", VStr "arkilic"); ("seq_no", VInt seq_no);
   ("data", VDict [("x", VInt x)])].

Definition sample_store : store :=
  mkStore [run_1; run_2; run_3] [scan_descriptor] [scan_event 3 1 5; scan_event 4 2 6] [] 6.

Definition sample_world : world :=
  mkWorld sample_store (mkProcess 3000 "bob")
    (import_module (mkProcess 1000 "arkilic")) [].

(** The same module with one run only. *)
Definition one_run_world : world :=
  mkWorld (mkStore [run_1] [] [] [] 1) (mkProcess 3000 "bob")
    (import_module (mkProcess 1000 "arkilic")) [].

Section Commands.

Context {engine : RegexEngine}.

(* ================================================================== *)
(** ** The store's operations *)

(** A field that a document lacks reads as null. *)
Definition field_value (fv : option value) : value :=
  match fv with
  | Some v => v
  | None => VNone
  end.

Definition is_operator (k : string) : bool :=
  match k with
  | String "$" _ => true
  | _ => false
  end.

(** One operator of a criterion such as [{'$gte': a, '$lt': b}] against
    the field.  The comparisons hold inside one type bracket only.  The
    module builds these four operators; any other one matches nothing. *)
Definition op_holds (op : string) (arg : value) (fv : option value) : bool :=
  let x := field_value fv in
  if String.eqb op "$regex" then
    match arg, fv with
    | VRegex p ic, Some (VStr s) => re_search p ic s
    | _, _ => false
    end
  else if String.eqb op "$in" then
    match arg with
    | VList l => existsb (value_eqb x) l
    | _ => false
    end
  else if String.eqb op "$gte" then
    Nat.eqb (bson_rank x) (bson_rank arg) && bson_leb arg x
  else if String.eqb op "$lt" then
    Nat.eqb (bson_rank x) (bson_rank arg) && bson_ltb x arg
  else false.

(** One entry [field: criterion] of a filter against the field of a
    document: an operator document, a pattern object, or a value to equal. *)
Definition criterion_holds (c : value) (fv : option value) : bool :=
  match c with
  | VDict ((k, a) :: ops) =>
      if is_operator k
      then forallb (fun oa => op_holds (fst oa) (snd oa) fv) ((k, a) :: ops)
      else value_eqb (field_value fv) c
  | VRegex p ic =>
      match fv with
      | Some (VStr s) => re_search p ic s
      | _ => false
      end
  | _ => value_eqb (field_value fv) c
  end.

(** A document matches a filter when every entry of the filter holds. *)
Definition doc_matches (q : dict) (d : dict) : bool :=
  forallb (fun kc => criterion_holds (snd kc) (dict_get (fst kc) d)) q.

(** [collection.find(q)].  The cursor is the list of the matching documents;
    the filter is recorded in [queries]. *)
Definition coll_find (c : collection) (q : dict) : M (list dict) :=
  log_query c q;;
  w <- get_world;;
  ret (filter (doc_matches q) (docs_of c (db w))).

(** [cursor.sort([(field, -1)])]: descending, documents with equal keys
    staying in the order the query returned them. *)
Definition sort_key (field : string) (d : dict) : value :=
  field_value (dict_get field d).

Fixpoint insert_desc (field : string) (x : dict) (l : list dict) : list dict :=
  match l with
  | [] => [x]
  | y :: rest =>
      if bson_leb (sort_key field y) (sort_key field x)
      then x :: y :: rest
      else y :: insert_desc field x rest
  end.

Fixpoint cursor_sort_desc (field : string) (cursor : list dict) : list dict :=
  match cursor with
  | [] => []
  | x :: rest => insert_desc field x (cursor_sort_desc field rest)
  end.

(** [cursor.limit(n)] and [cursor.count()]. *)
Definition cursor_limit (n : nat) (cursor : list dict) : list dict := firstn n cursor.

Definition cursor_count (cursor : list dict) : nat := List.length cursor.

(** The store picks the identifier of a document saved without one. *)
Definition fresh_oid : M value :=
  w <- get_world;;
  let s := db w in
  put_db (mkStore (Header_docs s) (EventDescriptor_docs s) (Event_docs s)
            (BeamlineConfig_docs s) (N.succ (next_oid s)));;
  ret (VOid (next_oid s)).

Definition coll_insert (c : collection) (doc : dict) : M unit :=
  w <- get_world;;
  put_db (set_docs c (docs_of c (db w) ++ [doc]) (db w)).

Fixpoint replace_first (p : dict -> bool) (new : dict) (l : list dict) : list dict :=
  match l with
  | [] => []
  | d :: rest => if p d then new :: rest else d :: replace_first p new rest
  end.

(** [collection.update(q, document, upsert=False)] with a whole document:
    the first document matching [q] is replaced by it; nothing is added
    when none matches. *)
Definition coll_update (c : collection) (q : dict) (document : dict) : M unit :=
  w <- get_world;;
  put_db (set_docs c (replace_first (doc_matches q) document (docs_of c (db w))) (db w)).

(** Saving a document that brings its own [_id]: it replaces the document
    with that [_id] if there is one, and is added otherwise. *)
Definition coll_save (c : collection) (doc : dict) : M unit :=
  w <- get_world;;
  let same_id := doc_matches [("_id", field_value (dict_get "_id" doc))] in
  if existsb same_id (docs_of c (db w))
  then put_db (set_docs c (replace_first same_id doc (docs_of c (db w))) (db w))
  else coll_insert c doc.

(* ------------------------------------------------------------------ *)
(** *** The document classes *)

(** Modelled from the spec: the document classes [Header],
    [EventDescriptor], [Event] and [BeamlineConfig] of
    [metadataStore.database.databaseTables], which is not among the
    sources.  The spec's data model gives their fields (section 3);
    constructing one and calling [save] persists a record with the fields
    given, under an identifier of the store's choice for the first three
    and under the caller's for [BeamlineConfig], and returns the saved
    record.  Field validation is not described and not modelled. *)
Definition Header_save (owner start_time end_time beamline_id scan_id custom status : value)
  : M dict :=
  oid <- fresh_oid;;
  let doc := [("_id", oid); ("owner", owner); ("start_time", start_time);
              ("end_time", end_time); ("beamline_id", beamline_id);
              ("scan_id", scan_id); ("custom", custom); ("status", status)] in
  coll_insert Header doc;;
  ret doc.

Definition EventDescriptor_save (header_id event_type_id event_type_name type_descriptor tag : value)
  : M dict :=
  oid <- fresh_oid;;
  let doc := [("_id", oid); ("header_id", header_id); ("event_type_id", event_type_id);
              ("event_type_name", event_type_name);
              ("type_descriptor", type_descriptor); ("tag", tag)] in
  coll_insert EventDescriptor doc;;
  ret doc.

Definition Event_save (event_descriptor_id header_id description owner seq_no data : value)
  : M dict :=
  oid <- fresh_oid;;
  let doc := [("_id", oid); ("event_descriptor_id", event_descriptor_id);
              ("header_id", header_id); ("description", description);
              ("owner", owner); ("seq_no", seq_no); ("data", data)] in
  coll_insert Event doc;;
  ret doc.

Definition BeamlineConfig_save (_id header_id config_params : value) : M dict :=
  let doc := [("_id", _id); ("header_id", header_id); ("config_params", config_params)] in
  coll_save BeamlineConfig doc;;
  ret doc.

(** Modelled from the spec: [Header.objects(...)], the query set of the
    document class: the records matching the filter; it is true when there
    is at least one. *)
Definition objects (c : collection) (q : dict) : M (list dict) := coll_find c q.

Definition truthy (query_set : list dict) : bool :=
  match query_set with
  | [] => false
  | _ => true
  end.

(** [re.compile(pattern, re.IGNORECASE)] *)
Definition re_compile (pattern : string) (ignorecase : bool) : M value :=
  if re_valid pattern then ret (VRegex pattern ignorecase) else raise (ReError pattern).

(** [datetime.datetime.utcnow()] *)
Definition datetime_utcnow : M value :=
  w <- get_world;;
  ret (VTime (utcnow (proc w))).

Definition default {A : Type} (d : A) (o : option A) : A :=
  match o with
  | Some a => a
  | None => d
  end.

(* ================================================================== *)
(** ** raw_commands.py *)

(** An optional argument is [None] when the caller leaves it out, and the
    default of the [def] line applies.  The [try ... except: log; raise]
    wrappers let the exception through unchanged and are not repeated. *)

Definition save_header (scan_id : value) (header_owner : option string)
  (start_time : option Z) (beamline_id : option string) (status : option string)
  (custom : option dict) : M dict :=
  w <- get_world;;
  let header_owner := default (save_header_header_owner (mdl w)) header_owner in
  let start_time := default (save_header_start_time (mdl w)) start_time in
  let beamline_id := match beamline_id with Some b => VStr b | None => VNone end in
  let status := default "In Progress" status in
  let custom := default [] custom in
  header <- Header_save (VStr header_owner) (VTime start_time) (VTime start_time)
              beamline_id scan_id (VDict custom) (VStr status);;
  ret header.

Definition list_headers : M (list dict) := objects Header [].

Definition get_header_object (id : value) : M (list dict) :=
  header_object <- objects Header [("_id", id)];;
  ret header_object.

Definition get_header_id (scan_id : value) : M value :=
  found <- coll_find Header [("scan_id", scan_id)];;
  let hdr_crsr := cursor_limit 1 found in
  if Nat.eqb (cursor_count hdr_crsr) 0
  then raise (Exception "header_id cannot be retrieved. Please validate scan_id")
  else
    first <- cursor_getitem hdr_crsr 0;;
    result <- getitem first "_id";;
    ret result.

Definition insert_event_descriptor (scan_id event_type_id : value)
  (event_type_name : option string) (type_descriptor : option dict)
  (tag : option string) : M dict :=
  let event_type_name := match event_type_name with Some n => VStr n | None => VNone end in
  let type_descriptor := default [] type_descriptor in
  let tag := match tag with Some t => VStr t | None => VNone end in
  header_id <- get_header_id scan_id;;
  event_descriptor <- EventDescriptor_save header_id event_type_id event_type_name
                        (VDict type_descriptor) tag;;
  ret event_descriptor.

Definition get_event_descriptor_hid_edid (name s_id : value) : M (value * value) :=
  header_id <- get_header_id s_id;;
  found <- coll_find EventDescriptor [("event_type_name", name); ("header_id", header_id)];;
  let result := cursor_limit 1 found in
  res <- cursor_getitem result 0;;
  hid <- getitem res "header_id";;
  edid <- getitem res "_id";;
  ret (hid, edid).

Definition list_event_descriptors : M (list dict) := objects EventDescriptor [].

Definition insert_event (scan_id descriptor_name : value) (description : option string)
  (owner : option string) (seq_no : option Z) (data : option dict) : M dict :=
  w <- get_world;;
  let description := match description with Some s => VStr s | None => VNone end in
  let owner := default (insert_event_owner (mdl w)) owner in
  let seq_no := match seq_no with Some n => VInt n | None => VNone end in
  let data := default [] data in
  ' (header_id, descriptor_id) <- get_event_descriptor_hid_edid descriptor_name scan_id;;
  event <- Event_save descriptor_id header_id description (VStr owner) seq_no (VDict data);;
  ret event.

Definition save_beamline_config (beamline_cfg_id header_id : value)
  (config_params : option dict) : M dict :=
  let config_params := default [] config_params in
  header_object <- get_header_object header_id;;
  if truthy header_object then
    beamline_cfg <- BeamlineConfig_save beamline_cfg_id header_id (VDict config_params);;
    ret beamline_cfg
  else raise (ValueError "Header with given header_id cannot be located").

Definition update_header_end_time (header_id end_time : value) : M unit :=
  result <- coll_find Header [("_id", header_id)];;
  let original_entry := result in
  entry0 <- list_getitem original_entry 0;;
  let entry0 := dict_set "end_time" end_time entry0 in
  coll_update Header [("_id", header_id)] entry0.

Definition update_header_status (header_id status : value) : M unit :=
  result <- coll_find Header [("_id", header_id)];;
  let original_entry := result in
  entry0 <- list_getitem original_entry 0;;
  let entry0 := dict_set "status" status entry0 in
  coll_update Header [("_id", header_id)] entry0.

(** [__validate_time]: [flag] is bound by the first valid entry only. *)
Fixpoint validate_time_loop (time_entry_list : list value) (flag : option bool) : M bool :=
  match time_entry_list with
  | [] =>
      match flag with
      | Some f => ret f
      | None => raise (UnboundLocalError "flag")
      end
  | entry :: rest =>
      if is_datetime entry
      then validate_time_loop rest (Some true)
      else raise (TypeError "Date must be datetime object")
  end.

Definition __validate_time (time_entry_list : list value) : M bool :=
  validate_time_loop time_entry_list None.

Fixpoint decode_hdr_loop (cursor_object : list dict) (headers : dict) : M dict :=
  match cursor_object with
  | [] => ret headers
  | temp_dict :: rest =>
      id <- getitem temp_dict "_id";;
      s <- str id;;
      decode_hdr_loop rest (dict_set ("header_" ++ s)%string (VDict temp_dict) headers)
  end.

Definition __decode_hdr_cursor (cursor_object : list dict) : M dict :=
  decode_hdr_loop cursor_object [].

Fixpoint decode_e_d_loop (cursor_object : list dict) (event_descriptors : dict) : M dict :=
  match cursor_object with
  | [] => ret event_descriptors
  | temp_dict :: rest =>
      id <- getitem temp_dict "_id";;
      s <- str id;;
      decode_e_d_loop rest
        (dict_set ("event_descriptor_" ++ s)%string (VDict temp_dict) event_descriptors)
  end.

Definition __decode_e_d_cursor (cursor_object : list dict) : M dict :=
  decode_e_d_loop cursor_object [].

Fixpoint decode_loop (cursor_object : list dict) (i : nat) (events : dict) : dict :=
  match cursor_object with
  | [] => events
  | temp_dict :: rest =>
      decode_loop rest (S i) (dict_set ("event_" ++ str_nat i)%string (VDict temp_dict) events)
  end.

Definition __decode_cursor (cursor_object : list dict) : dict :=
  decode_loop cursor_object 0 [].

Definition find_header (query_dict : dict) : M (list dict) :=
  coll_find Header query_dict.

(** The three helpers below write into the dict they are given.  The
    caller's dict is [Some d], and the second component of the result is
    that dict after the call; with [None] the dict is the one object the
    [def] line made, held in the module state. *)
Definition find_event (event_descriptor_id : value) (event_query_dict : option dict)
  : M (list dict * dict) :=
  w <- get_world;;
  let m := mdl w in
  let d := default (find_event_event_query_dict m) event_query_dict in
  let d := dict_set "event_descriptor_id" event_descriptor_id d in
  match event_query_dict with
  | Some _ => ret tt
  | None =>
      put_mdl (mkModule (save_header_header_owner m) (save_header_start_time m)
                 (insert_event_owner m) d (find_event_descriptor_event_query_dict m)
                 (find_beamline_config_beamline_cfg_query_dict m))
  end;;
  cursor <- coll_find Event d;;
  ret (cursor, d).

Definition find_event_descriptor (header_id : value) (event_query_dict : option dict)
  : M (list dict * dict) :=
  w <- get_world;;
  let m := mdl w in
  let d := default (find_event_descriptor_event_query_dict m) event_query_dict in
  let d := dict_set "header_id" header_id d in
  match event_query_dict with
  | Some _ => ret tt
  | None =>
      put_mdl (mkModule (save_header_header_owner m) (save_header_start_time m)
                 (insert_event_owner m) (find_event_event_query_dict m) d
                 (find_beamline_config_beamline_cfg_query_dict m))
  end;;
  cursor <- coll_find EventDescriptor d;;
  ret (cursor, d).

Definition find_beamline_config (header_id : value) (beamline_cfg_query_dict : option dict)
  : M (list dict * dict) :=
  w <- get_world;;
  let m := mdl w in
  let d := default (find_beamline_config_beamline_cfg_query_dict m) beamline_cfg_query_dict in
  let d := dict_set "header_id" header_id d in
  match beamline_cfg_query_dict with
  | Some _ => ret tt
  | None =>
      put_mdl (mkModule (save_header_header_owner m) (save_header_start_time m)
                 (insert_event_owner m) (find_event_event_query_dict m)
                 (find_event_descriptor_event_query_dict m) d)
  end;;
  cursor <- coll_find BeamlineConfig d;;
  ret (cursor, d).

(* ------------------------------------------------------------------ *)
(** *** find *)

Definition supported_wildcard : list string := ["*"; "."; "?"; "/"; "^"].

(** [scan_id is 'current']: the argument is the (interned) string that
    the literal names. *)
Definition is_str (v : value) (literal : string) : bool :=
  match v with
  | VStr s => String.eqb s literal
  | _ => false
  end.

(** Lines 304-309: the loop over the wildcards, left by [break] at the
    first one that occurs in [owner]. *)
Fixpoint owner_loop (wildcards : list string) (owner : string) (query_dict : dict) : M dict :=
  match wildcards with
  | [] => ret query_dict
  | entry :: rest =>
      if str_in entry owner then
        pattern <- re_compile owner true;;
        ret (dict_set "owner" (VDict [("$regex", pattern)]) query_dict)
      else owner_loop rest owner (dict_set "owner" (VStr owner) query_dict)
  end.

(** [for time_entry in l: __validate_time([time_entry])] *)
Fixpoint validate_each (l : list value) : M unit :=
  match l with
  | [] => ret tt
  | time_entry :: rest => __validate_time [time_entry];; validate_each rest
  end.

(** Lines 314-325. *)
Definition start_time_criterion (start_time : value) (query_dict : dict) : M dict :=
  if negb (is_None start_time) then
    match start_time with
    | VList l =>
        validate_each l;;
        ret (dict_set "start_time" (VDict [("$in", start_time)]) query_dict)
    | VDict d =>
        a <- getitem d "start";;
        b <- getitem d "end";;
        __validate_time [a; b];;
        ret (dict_set "start_time" (VDict [("$gte", a); ("$lt", b)]) query_dict)
    | _ =>
        ok <- __validate_time [start_time];;
        if ok : bool then
          now <- datetime_utcnow;;
          ret (dict_set "start_time" (VDict [("$gte", start_time); ("$lt", now)]) query_dict)
        else ret query_dict
    end
  else ret query_dict.

(** Lines 326-335. *)
Definition end_time_criterion (end_time : value) (query_dict : dict) : M dict :=
  if negb (is_None end_time) then
    match end_time with
    | VList l =>
        validate_each l;;
        ret (dict_set "end_time" (VDict [("$in", end_time)]) query_dict)
    | VDict d =>
        a <- getitem d "start";;
        b <- getitem d "end";;
        ret (dict_set "end_time" (VDict [("$gte", a); ("$lt", b)]) query_dict)
    | _ =>
        now <- datetime_utcnow;;
        ret (dict_set "end_time" (VDict [("$gte", end_time); ("$lt", now)]) query_dict)
    end
  else ret query_dict.

(** Lines 301-335: the filter of the general mode. *)
Definition general_filter (header_id scan_id : value) (owner : option string)
  (start_time beamline_id end_time : value) : M dict :=
  let query_dict := [] in
  let query_dict :=
    if negb (is_None header_id) then dict_set "_id" header_id query_dict else query_dict in
  query_dict <- match owner with
                | Some owner => owner_loop supported_wildcard owner query_dict
                | None => ret query_dict
                end;;
  let query_dict :=
    if negb (is_None scan_id) then dict_set "scan_id" scan_id query_dict else query_dict in
  let query_dict :=
    if negb (is_None beamline_id) then dict_set "beamline_id" beamline_id query_dict
    else query_dict in
  query_dict <- start_time_criterion start_time query_dict;;
  query_dict <- end_time_criterion end_time query_dict;;
  ret query_dict.

(** The loop of lines 279-286, and again of lines 292-299: [header] is the
    record itself. *)
Fixpoint sentinel_descriptor_loop (data : bool) (event_desc : list dict) (i : nat)
  (header : dict) : M dict :=
  match event_desc with
  | [] => ret header
  | e_d :: rest =>
      let slot := ("event_descriptor_" ++ str_nat i)%string in
      let header := dict_set slot (VDict e_d) header in
      eid <- getitem e_d "_id";;
      ' (events, _) <- find_event eid None;;
      if data then
        header <- setitem2 header slot "events" (VDict (__decode_cursor events));;
        sentinel_descriptor_loop data rest (S i) header
      else sentinel_descriptor_loop data rest (S i) header
  end.

(** The loop of lines 342-349: [header] is the mapping of the records,
    [key] the one being filled. *)
Fixpoint general_descriptor_loop (data : bool) (event_desc : list dict) (i : nat)
  (key : string) (header : dict) : M dict :=
  match event_desc with
  | [] => ret header
  | e_d :: rest =>
      let slot := ("event_descriptor_" ++ str_nat i)%string in
      header <- setitem2 header key slot (VDict e_d);;
      if data then
        eid <- getitem e_d "_id";;
        ' (events, _) <- find_event eid None;;
        header <- setitem3 header key slot "events" (VDict (__decode_cursor events));;
        general_descriptor_loop data rest (S i) key header
      else general_descriptor_loop data rest (S i) key header
  end.

(** The loop of lines 339-349 over the keys. *)
Fixpoint general_header_loop (data : bool) (hdr_keys : list string) (header : dict) : M dict :=
  match hdr_keys with
  | [] => ret header
  | key :: rest =>
      record <- getitem_dict header key;;
      hid <- getitem record "_id";;
      ' (event_desc, _) <- find_event_descriptor hid None;;
      header <- general_descriptor_loop data event_desc 0 key header;;
      general_header_loop data rest header
  end.

Definition find (header_id scan_id : value) (owner : option string)
  (start_time beamline_id end_time : value) (data : bool) : M dict :=
  if is_str scan_id "current" then
    found <- coll_find Header [];;
    let header_cursor := cursor_limit 1 (cursor_sort_desc "end_time" found) in
    header <- cursor_getitem header_cursor 0;;
    hid <- getitem header "_id";;
    ' (event_desc, _) <- find_event_descriptor hid None;;
    sentinel_descriptor_loop data event_desc 0 header
  else if is_str scan_id "last" then
    found <- coll_find Header [];;
    let header_cursor := cursor_limit 5 (cursor_sort_desc "end_time" found) in
    header <- cursor_getitem header_cursor 1;;
    hid <- getitem header "_id";;
    ' (event_desc, _) <- find_event_descriptor hid None;;
    sentinel_descriptor_loop data event_desc 0 header
  else
    query_dict <- general_filter header_id scan_id owner start_time beamline_id end_time;;
    cursor <- find_header query_dict;;
    header <- __decode_hdr_cursor cursor;;
    let hdr_keys := dict_keys header in
    general_header_loop data hdr_keys header.

(* ================================================================== *)
(** ** Vocabulary of the statements *)

(** [_id] of a record. *)
Definition doc_id (d : dict) : value := field_value (dict_get "_id" d).

(** A record that the store gave its identifier: an [ObjectId] below the
    next one to be handed out. *)
Definition oid_doc (n : N) (d : dict) : bool :=
  match dict_get "_id" d with
  | Some (VOid k) => N.ltb k n
  | _ => false
  end.

Definition has_id (d : dict) : bool :=
  match dict_get "_id" d with
  | Some _ => true
  | None => false
  end.

(** The stores the commands produce: headers, descriptors and events carry
    identifiers the store handed out, beamline configurations the
    caller's. *)
Definition store_ok (s : store) : bool :=
  forallb (oid_doc (next_oid s)) (Header_docs s) &&
  forallb (oid_doc (next_oid s)) (EventDescriptor_docs s) &&
  forallb (oid_doc (next_oid s)) (Event_docs s) &&
  forallb has_id (BeamlineConfig_docs s).

(** The default dict of a query helper holds nothing, or the one key the
    helper writes. *)
Definition only_key (k : string) (d : dict) : bool :=
  match d with
  | [] => true
  | [(k', _)] => String.eqb k' k
  | _ => false
  end.

Definition module_ok (m : module_state) : bool :=
  only_key "event_descriptor_id" (find_event_event_query_dict m) &&
  only_key "header_id" (find_event_descriptor_event_query_dict m) &&
  only_key "header_id" (find_beamline_config_beamline_cfg_query_dict m).

(** What a command that only reads leaves as it was. *)
Definition frame (w w' : world) : Prop :=
  db w' = db w /\ proc w' = proc w /\
  save_header_header_owner (mdl w') = save_header_header_owner (mdl w) /\
  save_header_start_time (mdl w') = save_header_start_time (mdl w) /\
  insert_event_owner (mdl w') = insert_event_owner (mdl w) /\
  find_beamline_config_beamline_cfg_query_dict (mdl w') =
    find_beamline_config_beamline_cfg_query_dict (mdl w) /\
  module_ok (mdl w') = true /\
  exists l, queries w' = queries w ++ l.

(** The descriptors of a header and the events of a descriptor, in the
    order the store returns them. *)
Definition descriptors_of (s : store) (hid : value) : list dict :=
  filter (doc_matches [("header_id", hid)]) (EventDescriptor_docs s).

Definition events_of (s : store) (eid : value) : list dict :=
  filter (doc_matches [("event_descriptor_id", eid)]) (Event_docs s).

(** A descriptor as the loops attach it: with its events when [data]. *)
Definition with_events (s : store) (data : bool) (e_d : dict) : dict :=
  if data
  then dict_set "events" (VDict (__decode_cursor (events_of s (doc_id e_d)))) e_d
  else e_d.

Definition slot (i : nat) : string := ("event_descriptor_" ++ str_nat i)%string.

(** A record after the loop over its descriptors, counted from [i]. *)
Fixpoint attach (s : store) (data : bool) (event_desc : list dict) (i : nat)
  (record : dict) : dict :=
  match event_desc with
  | [] => record
  | e_d :: rest =>
      attach s data rest (S i) (dict_set (slot i) (VDict (with_events s data e_d)) record)
  end.

Definition attached (s : store) (data : bool) (h : dict) : dict :=
  attach s data (descriptors_of s (doc_id h)) 0 h.

(** The key of a header in the mapping the general mode returns. *)
Definition header_key (h : dict) : string :=
  ("header_" ++ match py_str (doc_id h) with Some s => s | None => "" end)%string.

(** [owner] has one of the wildcard characters. *)
Definition has_wildcard (owner : string) : bool :=
  existsb (fun entry => str_in entry owner) supported_wildcard.

(** The order of two records by a field, as the sort sees it. *)
Definition field_le (field : string) (a b : dict) : Prop :=
  bson_leb (sort_key field a) (sort_key field b) = true.

(** Every record after the head of a sorted cursor is below the head. *)
Fixpoint descending (field : string) (l : list dict) : Prop :=
  match l with
  | [] => True
  | x :: rest => Forall (fun y => field_le field y x) rest /\ descending field rest
  end.

(** The mapping [__decode_hdr_cursor] builds from a cursor. *)
Fixpoint decoded_headers (cursor : list dict) (headers : dict) : dict :=
  match cursor with
  | [] => headers
  | h :: rest => decoded_headers rest (dict_set (header_key h) (VDict h) headers)
  end.

(** A mapping of records with [f] applied to each record. *)
Definition map_records (f : dict -> dict) (header : dict) : dict :=
  map (fun kv => (fst kv, match snd kv with VDict r => VDict (f r) | v => v end)) header.

(** A command that leaves the world as it was. *)
Definition reads_only {A : Type} (c : M A) : Prop := forall w, snd (c w) = w.

(** A command that at most hands filters to the store. *)
Definition asks_only {A : Type} (c : M A) : Prop :=
  forall w, db (snd (c w)) = db w /\ proc (snd (c w)) = proc w /\ mdl (snd (c w)) = mdl w.

(** A value that a filter compares with the field by equality: no
    operator document, pattern or array, and not null (which a missing
    field matches too). *)
Definition plain (v : value) : bool :=
  match v with
  | VBool _ | VInt _ | VStr _ | VTime _ | VOid _ => true
  | _ => false
  end.

(** [r] is the descriptor [e_d] with its events under the key [events]:
    a mapping in which the event the store returns at position [i] is under
    [event_i]. *)
Definition carries_events (s : store) (e_d r : dict) : Prop :=
  (forall k, k <> "events" -> dict_get k r = dict_get k e_d) /\
  exists events,
    dict_get "events" r = Some (VDict events) /\
    forall i e, nth_error (events_of s (doc_id e_d)) i = Some e ->
                dict_get ("event_" ++ str_nat i)%string events = Some (VDict e).

(** [r] is the header [h] with its descriptors attached: the descriptor
    the store returns at position [j] is under [event_descriptor_j], with
    its events when [data]; the other keys read as in [h]. *)
Definition descriptors_attached (s : store) (data : bool) (h r : dict) : Prop :=
  (forall j e_d,
      nth_error (descriptors_of s (doc_id h)) j = Some e_d ->
      exists r_d,
        dict_get (slot j) r = Some (VDict r_d) /\
        if data then carries_events s e_d r_d else r_d = e_d) /\
  (forall k, (forall j, k <> slot j) -> dict_get k r = dict_get k h).

(** [result] maps the headers of [s] that satisfy [P], and only them,
    each under its key, to the header with its descriptors attached. *)
Definition holds_exactly (s : store) (data : bool) (P : dict -> Prop) (result : dict) : Prop :=
  (forall k v,
      dict_get k result = Some v ->
      exists h r, In h (Header_docs s) /\ P h /\ k = header_key h /\
                  v = VDict r /\ descriptors_attached s data h r) /\
  (forall h, In h (Header_docs s) -> P h ->
             exists v, dict_get (header_key h) result = Some v).

(** The owner criterion in the words of the specification: a
    case-insensitive regular expression compiled from [owner] when it has a
    wildcard character, [owner] itself otherwise; and what it is for a
    header to meet it. *)
Definition expected_owner_criterion (owner : string) : value :=
  if has_wildcard owner then VDict [("$regex", VRegex owner true)] else VStr owner.

Definition owner_matches (owner : string) (h : dict) : Prop :=
  if has_wildcard owner
  then exists s, dict_get "owner" h = Some (VStr s) /\ re_search owner true s = true
  else dict_get "owner" h = Some (VStr owner).

(** Every value the command can return satisfies [P]. *)
Definition returns {A : Type} (P : A -> Prop) (c : M A) : Prop :=
  forall w a, fst (c w) = Ok a -> P a.

(** A time criterion with a value that is no timestamp: the scalar, an
    element of the list, or the [start] or [end] entry of the mapping. *)
Definition malformed (criterion : value) : bool :=
  match criterion with
  | VNone => false
  | VList l => existsb (fun x => negb (is_datetime x)) l
  | VDict d =>
      match dict_get "start" d, dict_get "end" d with
      | Some a, Some b => negb (is_datetime a && is_datetime b)
      | _, _ => false
      end
  | x => negb (is_datetime x)
  end.

(** The fields [save_header] sets. *)
Definition header_fields : list string :=
  ["_id"; "owner"; "start_time"; "end_time"; "beamline_id"; "scan_id"; "custom"; "status"].

(** A command that keeps the worlds well formed: [store_ok] and
    [module_ok] hold after it, whatever its outcome, when they hold
    before. *)
Definition preserves {A : Type} (c : M A) : Prop :=
  forall w,
    store_ok (db w) = true -> module_ok (mdl w) = true ->
    store_ok (db (snd (c w))) = true /\ module_ok (mdl (snd (c w))) = true.

(** A command that writes to no collection and leaves the process and
    the defaults of the writers alone; it may hand filters to the store
    and write into the default dicts of [find_event] and
    [find_event_descriptor]. *)
Definition writes_nothing {A : Type} (c : M A) : Prop :=
  forall w,
    db (snd (c w)) = db w /\ proc (snd (c w)) = proc w /\
    save_header_header_owner (mdl (snd (c w))) = save_header_header_owner (mdl w) /\
    save_header_start_time (mdl (snd (c w))) = save_header_start_time (mdl w) /\
    insert_event_owner (mdl (snd (c w))) = insert_event_owner (mdl w) /\
    find_beamline_config_beamline_cfg_query_dict (mdl (snd (c w))) =
      find_beamline_config_beamline_cfg_query_dict (mdl w).

(** An exact-match argument of [find]: left out, or a plain value. *)
Definition plain_or_None (v : value) : bool := is_None v || plain v.

(** A header meets an exact-match argument when the argument is left out
    or the field holds it. *)
Definition meets (field : string) (v : value) (h : dict) : Prop :=
  is_None v = true \/ dict_get field h = Some v.

(** The key of the event at position [i] in [__decode_cursor]. *)
Definition event_key (i : nat) : string := ("event_" ++ str_nat i)%string.

(* ================================================================== *)
(** ** Facts about dicts and strings *)

Lemma dict_get_set_same (k : string) (v : value) (d : dict) :
  dict_get k (dict_set k v d) = Some v.
Proof.
  induction d as [|[k' v'] d IH]; simpl.
  - now rewrite String.eqb_refl.
  - destruct (String.eqb k k') eqn:E; simpl; rewrite E; auto.
Qed.

Lemma dict_get_set_other (k k' : string) (v : value) (d : dict) :
  k <> k' -> dict_get k (dict_set k' v d) = dict_get k d.
Proof.
  intros Hne. induction d as [|[k0 v0] d IH]; simpl.
  - destruct (String.eqb_spec k k'); [contradiction | reflexivity].
  - destruct (String.eqb_spec k' k0) as [->|Hk]; simpl.
    + destruct (String.eqb_spec k k0); [contradiction | reflexivity].
    + destruct (String.eqb k k0); auto.
Qed.

Lemma dict_set_set (k : string) (v1 v2 : value) (d : dict) :
  dict_set k v2 (dict_set k v1 d) = dict_set k v2 d.
Proof.
  induction d as [|[k' v'] d IH]; simpl.
  - now rewrite String.eqb_refl.
  - destruct (String.eqb k k') eqn:E; simpl; rewrite E; [reflexivity | now rewrite IH].
Qed.

Lemma dict_set_only_key (k : string) (v : value) (d : dict) :
  only_key k d = true -> dict_set k v d = [(k, v)].
Proof.
  destruct d as [|[k' v'] [|x d]]; simpl; try discriminate; auto.
  intros H. apply String.eqb_eq in H. subst k'. now rewrite String.eqb_refl.
Qed.

Lemma only_key_singleton (k : string) (v : value) : only_key k [(k, v)] = true.
Proof. simpl. apply String.eqb_refl. Qed.

Lemma dict_get_In (k : string) (v : value) (d : dict) :
  dict_get k d = Some v -> In (k, v) d.
Proof.
  induction d as [|[k' v'] d IH]; simpl; [discriminate|].
  destruct (String.eqb_spec k k') as [->|Hne]; intros H.
  - injection H as ->. now left.
  - right. auto.
Qed.

Lemma dict_get_None_keys (k : string) (d : dict) :
  dict_get k d = None <-> ~ In k (dict_keys d).
Proof.
  unfold dict_keys. induction d as [|[k' v'] d IH]; simpl.
  - tauto.
  - destruct (String.eqb_spec k k') as [->|Hne].
    + split; [discriminate | intros H; exfalso; apply H; now left].
    + rewrite IH. split; intros H; [intros [E|E]; [congruence | contradiction] | tauto].
Qed.

Lemma dict_keys_set (k : string) (v : value) (d : dict) :
  dict_keys (dict_set k v d) =
  match dict_get k d with
  | Some _ => dict_keys d
  | None => dict_keys d ++ [k]
  end.
Proof.
  unfold dict_keys. induction d as [|[k' v'] d IH]; simpl; [reflexivity|].
  destruct (String.eqb k k') eqn:E; simpl; [reflexivity|].
  rewrite IH. now destruct (dict_get k d).
Qed.

Lemma dict_keys_set_NoDup (k : string) (v : value) (d : dict) :
  NoDup (dict_keys d) -> NoDup (dict_keys (dict_set k v d)).
Proof.
  intros H. rewrite dict_keys_set. destruct (dict_get k d) eqn:E; [assumption|].
  apply dict_get_None_keys in E.
  apply NoDup_rev in H. rewrite <- (rev_involutive (dict_keys d ++ [k])).
  apply NoDup_rev. rewrite rev_app_distr. simpl. constructor; [|assumption].
  now rewrite <- in_rev.
Qed.

Lemma str_nat_inj (i j : nat) : str_nat i = str_nat j -> i = j.
Proof.
  unfold str_nat. intros H.
  apply DecimalNat.Unsigned.to_uint_inj.
  assert (Some (Nat.to_uint i) = Some (Nat.to_uint j)) as E.
  { rewrite <- (NilEmpty.usu (Nat.to_uint i)), <- (NilEmpty.usu (Nat.to_uint j)).
    now rewrite H. }
  now injection E.
Qed.

Lemma slot_inj (i j : nat) : slot i = slot j -> i = j.
Proof.
  unfold slot. simpl. intros H. apply str_nat_inj. congruence.
Qed.

(* ================================================================== *)
(** ** The store's order and its sort *)

Lemma string_compare_le_trans (a b c : string) :
  String.compare a b <> Gt -> String.compare b c <> Gt -> String.compare a c <> Gt.
Proof.
  revert b c. induction a as [|x a IH]; intros [|y b] [|z c]; simpl; try congruence.
  unfold Ascii.compare.
  destruct (N.compare_spec (N_of_ascii x) (N_of_ascii y)) as [Exy|Lxy|Gxy];
    destruct (N.compare_spec (N_of_ascii y) (N_of_ascii z)) as [Eyz|Lyz|Gyz];
    destruct (N.compare_spec (N_of_ascii x) (N_of_ascii z)) as [Exz|Lxz|Gxz];
    try congruence; try lia.
  apply IH.
Qed.

Lemma bson_leb_trans (a b c : value) :
  bson_leb a b = true -> bson_leb b c = true -> bson_leb a c = true.
Proof.
  unfold bson_leb, bson_compare.
  destruct a, b, c; simpl; intros H1 H2; try discriminate; try reflexivity.
  - destruct b, b0, b1; simpl in *; try reflexivity; discriminate.
  - destruct (Z.compare_spec z z0); try discriminate;
      destruct (Z.compare_spec z0 z1); try discriminate;
      destruct (Z.compare_spec z z1); try reflexivity; lia.
  - destruct (String.compare s s1) eqn:E; try reflexivity.
    exfalso. apply (string_compare_le_trans s s0 s1); auto.
    + intros E1. now rewrite E1 in H1.
    + intros E2. now rewrite E2 in H2.
  - destruct (Z.compare_spec t t0); try discriminate;
      destruct (Z.compare_spec t0 t1); try discriminate;
      destruct (Z.compare_spec t t1); try reflexivity; lia.
  - destruct (N.compare_spec n n0); try discriminate;
      destruct (N.compare_spec n0 n1); try discriminate;
      destruct (N.compare_spec n n1); try reflexivity; lia.
Qed.

Lemma bson_leb_total (a b : value) :
  bson_leb a b = false -> bson_leb b a = true.
Proof.
  unfold bson_leb, bson_compare.
  destruct a, b; simpl; intros H; try discriminate; try reflexivity.
  - destruct b, b0; simpl in *; try reflexivity; discriminate.
  - rewrite Z.compare_antisym. destruct (Z.compare z z0); simpl in *; congruence.
  - rewrite String.compare_antisym. destruct (String.compare s s0); simpl in *; congruence.
  - rewrite Z.compare_antisym. destruct (Z.compare t t0); simpl in *; congruence.
  - rewrite N.compare_antisym. destruct (N.compare n n0); simpl in *; congruence.
Qed.

Lemma bson_leb_time (t t' : Z) : bson_leb (VTime t) (VTime t') = true <-> (t <= t')%Z.
Proof.
  unfold bson_leb, bson_compare.
  destruct (Z.compare_spec t t'); split; intros; try lia; try reflexivity; discriminate.
Qed.

Lemma bson_ltb_time (t t' : Z) : bson_ltb (VTime t) (VTime t') = true <-> (t < t')%Z.
Proof.
  unfold bson_ltb, bson_compare.
  destruct (Z.compare_spec t t'); split; intros; try lia; try reflexivity; discriminate.
Qed.

Lemma insert_desc_perm (field : string) (x : dict) (l : list dict) :
  Permutation (x :: l) (insert_desc field x l).
Proof.
  induction l as [|y l IH]; simpl; [apply Permutation_refl|].
  destruct (bson_leb (sort_key field y) (sort_key field x)).
  - apply Permutation_refl.
  - eapply perm_trans; [apply perm_swap | apply perm_skip, IH].
Qed.

Lemma cursor_sort_desc_perm (field : string) (l : list dict) :
  Permutation l (cursor_sort_desc field l).
Proof.
  induction l as [|x l IH]; simpl; [constructor|].
  eapply perm_trans; [apply perm_skip, IH | apply insert_desc_perm].
Qed.

Lemma insert_desc_descending (field : string) (x : dict) (l : list dict) :
  descending field l -> descending field (insert_desc field x l).
Proof.
  induction l as [|y l IH]; simpl; intros H.
  - split; [constructor | exact I].
  - destruct H as [Hy Hl].
    destruct (bson_leb (sort_key field y) (sort_key field x)) eqn:E; simpl.
    + repeat split; auto. constructor; [exact E|].
      eapply Forall_impl; [|exact Hy]. intros z Hz. unfold field_le in *.
      eapply bson_leb_trans; eauto.
    + split; [|auto].
      eapply Permutation_Forall; [apply insert_desc_perm|].
      constructor; [|exact Hy]. unfold field_le. now apply bson_leb_total.
Qed.

Lemma cursor_sort_desc_descending (field : string) (l : list dict) :
  descending field (cursor_sort_desc field l).
Proof.
  induction l as [|x l IH]; simpl; [exact I | now apply insert_desc_descending].
Qed.

(* ================================================================== *)
(** ** Running commands *)

Lemma bind_ok {A B : Type} (c : M A) (k : A -> M B) (w w1 : world) (a : A) :
  c w = (Ok a, w1) -> bind c k w = k a w1.
Proof. unfold bind. now intros ->. Qed.

Lemma bind_raise {A B : Type} (c : M A) (k : A -> M B) (w w1 : world) (e : exn) :
  c w = (Raise e, w1) -> bind c k w = (Raise e, w1).
Proof. unfold bind. now intros ->. Qed.

Lemma frame_refl (w : world) : module_ok (mdl w) = true -> frame w w.
Proof.
  intros H. unfold frame. repeat split; auto. exists []. now rewrite app_nil_r.
Qed.

Lemma frame_trans (w1 w2 w3 : world) : frame w1 w2 -> frame w2 w3 -> frame w1 w3.
Proof.
  unfold frame.
  intros (A1 & A2 & A3 & A4 & A5 & A6 & A7 & l1 & A8) (B1 & B2 & B3 & B4 & B5 & B6 & B7 & l2 & B8).
  repeat split; try congruence.
  exists (l1 ++ l2). rewrite B8, A8. now rewrite app_assoc.
Qed.

Lemma frame_db (w w' : world) : frame w w' -> db w' = db w.
Proof. now intros (H & _). Qed.

Lemma frame_module_ok (w w' : world) : frame w w' -> module_ok (mdl w') = true.
Proof. now intros (_ & _ & _ & _ & _ & _ & H & _). Qed.

Lemma frame_queries (w w' : world) (x : collection * dict) :
  frame w w' -> In x (queries w) -> In x (queries w').
Proof.
  intros (_ & _ & _ & _ & _ & _ & _ & l & H) Hin. rewrite H. apply in_or_app. now left.
Qed.

Lemma module_ok_inv (m : module_state) :
  module_ok m = true ->
  only_key "event_descriptor_id" (find_event_event_query_dict m) = true /\
  only_key "header_id" (find_event_descriptor_event_query_dict m) = true /\
  only_key "header_id" (find_beamline_config_beamline_cfg_query_dict m) = true.
Proof.
  unfold module_ok. intros H.
  apply andb_prop in H as [H H3]. apply andb_prop in H as [H1 H2]. auto.
Qed.

Lemma coll_find_run (c : collection) (q : dict) (w : world) :
  coll_find c q w =
  (Ok (filter (doc_matches q) (docs_of c (db w))),
   mkWorld (db w) (proc w) (mdl w) (queries w ++ [(c, q)])).
Proof. reflexivity. Qed.

Lemma coll_find_frame (c : collection) (q : dict) (w : world) :
  module_ok (mdl w) = true ->
  frame w (mkWorld (db w) (proc w) (mdl w) (queries w ++ [(c, q)])).
Proof.
  intros H. unfold frame; simpl. repeat split; auto. now exists [(c, q)].
Qed.

Lemma find_event_run (eid : value) (w : world) :
  module_ok (mdl w) = true ->
  exists w',
    find_event eid None w = (Ok (events_of (db w) eid, [("event_descriptor_id", eid)]), w')
    /\ frame w w'.
Proof.
  intros H. destruct (module_ok_inv _ H) as (H1 & H2 & H3).
  unfold find_event, bind, get_world, put_mdl, coll_find, log_query, ret, default. simpl.
  rewrite (dict_set_only_key _ _ _ H1).
  eexists; split; [reflexivity|].
  unfold frame, module_ok; simpl. rewrite H2, H3.
  repeat split; auto. now eexists.
Qed.

Lemma find_event_descriptor_run (hid : value) (w : world) :
  module_ok (mdl w) = true ->
  exists w',
    find_event_descriptor hid None w = (Ok (descriptors_of (db w) hid, [("header_id", hid)]), w')
    /\ frame w w'.
Proof.
  intros H. destruct (module_ok_inv _ H) as (H1 & H2 & H3).
  unfold find_event_descriptor, bind, get_world, put_mdl, coll_find, log_query, ret, default.
  simpl. rewrite (dict_set_only_key _ _ _ H2).
  eexists; split; [reflexivity|].
  unfold frame, module_ok; simpl. rewrite H1, H3.
  repeat split; auto. now eexists.
Qed.

Lemma has_id_doc_id (d : dict) : has_id d = true -> dict_get "_id" d = Some (doc_id d).
Proof.
  unfold has_id, doc_id. destruct (dict_get "_id" d); [reflexivity | discriminate].
Qed.

Lemma oid_doc_has_id (n : N) (d : dict) : oid_doc n d = true -> has_id d = true.
Proof.
  unfold oid_doc, has_id. destruct (dict_get "_id" d); [reflexivity | discriminate].
Qed.

Lemma getitem_run (d : dict) (k : string) (v : value) (w : world) :
  dict_get k d = Some v -> getitem d k w = (Ok v, w).
Proof. unfold getitem. now intros ->. Qed.

Lemma getitem_dict_run (d inner : dict) (k : string) (w : world) :
  dict_get k d = Some (VDict inner) -> getitem_dict d k w = (Ok inner, w).
Proof.
  intros H. unfold getitem_dict. now rewrite (bind_ok _ _ _ _ _ (getitem_run _ _ _ w H)).
Qed.

Lemma setitem2_run (d inner : dict) (k1 k2 : string) (v : value) (w : world) :
  dict_get k1 d = Some (VDict inner) ->
  setitem2 d k1 k2 v w = (Ok (dict_set k1 (VDict (dict_set k2 v inner)) d), w).
Proof.
  intros H. unfold setitem2. now rewrite (bind_ok _ _ _ _ _ (getitem_dict_run _ _ _ w H)).
Qed.

Lemma setitem3_run (d inner inner2 : dict) (k1 k2 k3 : string) (v : value) (w : world) :
  dict_get k1 d = Some (VDict inner) ->
  dict_get k2 inner = Some (VDict inner2) ->
  setitem3 d k1 k2 k3 v w =
  (Ok (dict_set k1 (VDict (dict_set k2 (VDict (dict_set k3 v inner2)) inner)) d), w).
Proof.
  intros H1 H2. unfold setitem3.
  rewrite (bind_ok _ _ _ _ _ (getitem_dict_run _ _ _ w H1)).
  now rewrite (bind_ok _ _ _ _ _ (setitem2_run _ _ _ _ _ w H2)).
Qed.

(** The loop of the sentinel modes attaches every descriptor it is given. *)
Lemma sentinel_descriptor_loop_run (data : bool) (event_desc : list dict) :
  forall (i : nat) (header : dict) (w : world),
    forallb has_id event_desc = true ->
    module_ok (mdl w) = true ->
    exists w',
      sentinel_descriptor_loop data event_desc i header w =
        (Ok (attach (db w) data event_desc i header), w')
      /\ frame w w'.
Proof.
  induction event_desc as [|e_d rest IH]; intros i header w Hids Hm.
  - exists w. split; [reflexivity | now apply frame_refl].
  - simpl in Hids. apply andb_prop in Hids as [Hid Hids].
    cbn [sentinel_descriptor_loop attach].
    rewrite (bind_ok _ _ _ _ _ (getitem_run _ _ _ w (has_id_doc_id _ Hid))).
    destruct (find_event_run (doc_id e_d) w Hm) as (w1 & Hrun & Hf1).
    rewrite (bind_ok _ _ _ _ _ Hrun).
    destruct (IH (S i) (dict_set (slot i) (VDict (with_events (db w) data e_d)) header) w1
                Hids (frame_module_ok _ _ Hf1)) as (w2 & Hloop & Hf2).
    rewrite (frame_db _ _ Hf1) in Hloop.
    exists w2. split; [|eapply frame_trans; eauto].
    unfold with_events in *. destruct data.
    + erewrite bind_ok; [exact Hloop|].
      rewrite (setitem2_run _ e_d); [|apply dict_get_set_same].
      now rewrite dict_set_set.
    + exact Hloop.
Qed.

(* ================================================================== *)
(** ** What the loops build *)

Lemma attach_get_other (s : store) (data : bool) (k : string) (event_desc : list dict) :
  forall (i : nat) (record : dict),
    (forall j, k <> slot j) ->
    dict_get k (attach s data event_desc i record) = dict_get k record.
Proof.
  induction event_desc as [|e_d rest IH]; intros i record Hk; simpl; [reflexivity|].
  rewrite IH by assumption. now apply dict_get_set_other.
Qed.

Lemma attach_get_before (s : store) (data : bool) (event_desc : list dict) :
  forall (i j : nat) (record : dict),
    j < i ->
    dict_get (slot j) (attach s data event_desc i record) = dict_get (slot j) record.
Proof.
  induction event_desc as [|e_d rest IH]; intros i j record Hlt; simpl; [reflexivity|].
  rewrite IH by lia. apply dict_get_set_other.
  intros E. apply slot_inj in E. lia.
Qed.

Lemma attach_get_slot (s : store) (data : bool) (event_desc : list dict) :
  forall (i j : nat) (record e_d : dict),
    nth_error event_desc j = Some e_d ->
    dict_get (slot (i + j)) (attach s data event_desc i record) =
      Some (VDict (with_events s data e_d)).
Proof.
  induction event_desc as [|x rest IH]; intros i j record e_d Hnth.
  - destruct j; discriminate.
  - destruct j as [|j]; simpl in *.
    + injection Hnth as ->. rewrite Nat.add_0_r.
      rewrite attach_get_before by lia. apply dict_get_set_same.
    + replace (i + S j) with (S i + j) by lia. now apply IH.
Qed.

Lemma decode_loop_get_before (cursor : list dict) :
  forall (i j : nat) (events : dict),
    j < i ->
    dict_get ("event_" ++ str_nat j)%string (decode_loop cursor i events) =
      dict_get ("event_" ++ str_nat j)%string events.
Proof.
  induction cursor as [|x rest IH]; intros i j events Hlt; cbn [decode_loop]; [reflexivity|].
  rewrite IH by lia. apply dict_get_set_other.
  simpl. intros E. injection E as E. apply str_nat_inj in E. lia.
Qed.

Lemma decode_loop_get (cursor : list dict) :
  forall (i j : nat) (events e : dict),
    nth_error cursor j = Some e ->
    dict_get ("event_" ++ str_nat (i + j))%string (decode_loop cursor i events) =
      Some (VDict e).
Proof.
  induction cursor as [|x rest IH]; intros i j events e Hnth.
  - destruct j; discriminate.
  - destruct j as [|j]; cbn [nth_error decode_loop] in *.
    + injection Hnth as ->. rewrite Nat.add_0_r.
      rewrite decode_loop_get_before by lia. apply dict_get_set_same.
    + replace (i + S j) with (S i + j) by lia. now apply IH.
Qed.

(** [__decode_cursor] keys the events [event_0], [event_1], ... in the
    order of the cursor. *)
Lemma decode_cursor_get (cursor : list dict) (j : nat) (e : dict) :
  nth_error cursor j = Some e ->
  dict_get ("event_" ++ str_nat j)%string (__decode_cursor cursor) = Some (VDict e).
Proof. intros H. apply (decode_loop_get cursor 0 j [] e H). Qed.

Lemma dict_set_get_same (k : string) (v : value) (d : dict) :
  dict_get k d = Some v -> dict_set k v d = d.
Proof.
  induction d as [|[k' v'] d IH]; simpl; [discriminate|].
  destruct (String.eqb_spec k k') as [->|Hne]; intros H.
  - now injection H as ->.
  - now rewrite IH.
Qed.

Lemma general_descriptor_loop_run (data : bool) (key : string) (event_desc : list dict) :
  forall (i : nat) (header record : dict) (w : world),
    dict_get key header = Some (VDict record) ->
    forallb has_id event_desc = true ->
    module_ok (mdl w) = true ->
    exists w',
      general_descriptor_loop data event_desc i key header w =
        (Ok (dict_set key (VDict (attach (db w) data event_desc i record)) header), w')
      /\ frame w w'.
Proof.
  induction event_desc as [|e_d rest IH]; intros i header record w Hget Hids Hm.
  - exists w. split; [|now apply frame_refl].
    simpl. now rewrite (dict_set_get_same _ _ _ Hget).
  - simpl in Hids. apply andb_prop in Hids as [Hid Hids].
    cbn [general_descriptor_loop attach].
    rewrite (bind_ok _ _ _ _ _ (setitem2_run _ _ _ _ _ w Hget)).
    fold (slot i).
    set (record1 := dict_set (slot i) (VDict e_d) record).
    set (header1 := dict_set key (VDict record1) header).
    assert (dict_get key header1 = Some (VDict record1)) as Hget1
      by apply dict_get_set_same.
    destruct data.
    + rewrite (bind_ok _ _ _ _ _ (getitem_run _ _ _ w (has_id_doc_id _ Hid))).
      destruct (find_event_run (doc_id e_d) w Hm) as (w1 & Hrun & Hf1).
      rewrite (bind_ok _ _ _ _ _ Hrun).
      erewrite bind_ok;
        [|apply (setitem3_run _ record1 e_d); [exact Hget1 | apply dict_get_set_same]].
      set (e_d' := dict_set "events" _ e_d).
      set (record2 := dict_set (slot i) (VDict e_d') record1).
      set (header2 := dict_set key (VDict record2) header1).
      destruct (IH (S i) header2 record2 w1) as (w2 & Hloop & Hf2);
        [apply dict_get_set_same | assumption | eapply frame_module_ok; eauto |].
      exists w2. split; [|eapply frame_trans; eauto].
      rewrite Hloop, (frame_db _ _ Hf1).
      unfold header2, header1, record2, record1, with_events, e_d'.
      now rewrite !dict_set_set.
    + destruct (IH (S i) header1 record1 w) as (w2 & Hloop & Hf2); auto.
      exists w2. split; [|assumption].
      rewrite Hloop. unfold header1, record1, with_events.
      now rewrite !dict_set_set.
Qed.

Lemma dict_get_app_notin (k : string) (pre d : dict) :
  ~ In k (dict_keys pre) -> dict_get k (pre ++ d) = dict_get k d.
Proof.
  unfold dict_keys. induction pre as [|[k' v'] pre IH]; simpl; intros H; [reflexivity|].
  destruct (String.eqb_spec k k') as [->|Hne]; [exfalso; apply H; now left | apply IH; tauto].
Qed.

Lemma dict_set_app_notin (k : string) (v : value) (pre d : dict) :
  ~ In k (dict_keys pre) -> dict_set k v (pre ++ d) = pre ++ dict_set k v d.
Proof.
  unfold dict_keys. induction pre as [|[k' v'] pre IH]; simpl; intros H; [reflexivity|].
  destruct (String.eqb_spec k k') as [->|Hne]; [exfalso; apply H; now left|].
  rewrite IH; tauto.
Qed.

Lemma dict_set_In (k k' : string) (v v' : value) (d : dict) :
  In (k, v) (dict_set k' v' d) -> (k = k' /\ v = v') \/ In (k, v) d.
Proof.
  induction d as [|[k0 v0] d IH]; simpl.
  - intros [E|[]]. left. now inversion E.
  - destruct (String.eqb_spec k' k0) as [->|Hne]; simpl.
    + intros [E|H]; [left; now inversion E | right; now right].
    + intros [E|H]; [right; now left | destruct (IH H); auto].
Qed.

Lemma dict_get_Some_keys (k : string) (d : dict) :
  In k (dict_keys d) -> exists v, dict_get k d = Some v.
Proof.
  intros H. destruct (dict_get k d) eqn:E; [eauto|].
  apply dict_get_None_keys in E. contradiction.
Qed.

Lemma dict_get_map_records (f : dict -> dict) (k : string) (d : dict) :
  dict_get k (map_records f d) =
  match dict_get k d with
  | Some (VDict r) => Some (VDict (f r))
  | other => other
  end.
Proof.
  unfold map_records. induction d as [|[k' v'] d IH]; simpl; [reflexivity|].
  destruct (String.eqb k k'); [now destruct v' | exact IH].
Qed.

Lemma store_ok_inv (s : store) :
  store_ok s = true ->
  forallb (oid_doc (next_oid s)) (Header_docs s) = true /\
  forallb (oid_doc (next_oid s)) (EventDescriptor_docs s) = true /\
  forallb (oid_doc (next_oid s)) (Event_docs s) = true /\
  forallb has_id (BeamlineConfig_docs s) = true.
Proof.
  unfold store_ok. intros H.
  apply andb_prop in H as [H H4]. apply andb_prop in H as [H H3].
  apply andb_prop in H as [H1 H2]. auto.
Qed.

Lemma forallb_filter {A : Type} (p q : A -> bool) (l : list A) :
  forallb p l = true -> forallb p (filter q l) = true.
Proof.
  rewrite !forallb_forall. intros H x Hx. apply filter_In in Hx. apply H, Hx.
Qed.

Lemma forallb_has_id (n : N) (l : list dict) :
  forallb (oid_doc n) l = true -> forallb has_id l = true.
Proof.
  rewrite !forallb_forall. intros H x Hx. eapply oid_doc_has_id. eauto.
Qed.

Lemma store_ok_descriptors (s : store) (hid : value) :
  store_ok s = true -> forallb has_id (descriptors_of s hid) = true.
Proof.
  intros H. destruct (store_ok_inv _ H) as (_ & H2 & _).
  apply forallb_filter. eapply forallb_has_id; eauto.
Qed.

(** The loop over the keys applies the descriptor loop to every record of
    the mapping. *)
Lemma general_header_loop_run (data : bool) (suf : dict) :
  forall (pre : dict) (w : world),
    NoDup (dict_keys (pre ++ suf)) ->
    Forall (fun kv => exists r, snd kv = VDict r /\ has_id r = true) suf ->
    store_ok (db w) = true ->
    module_ok (mdl w) = true ->
    exists w',
      general_header_loop data (dict_keys suf) (pre ++ suf) w =
        (Ok (pre ++ map_records (attached (db w) data) suf), w')
      /\ frame w w'.
Proof.
  induction suf as [|[k v] suf IH]; intros pre w Hnd Hall Hs Hm.
  - exists w. split; [reflexivity | now apply frame_refl].
  - inversion Hall as [|x l (r & Hv & Hid) Hall']; subst. simpl in Hv. subst v.
    assert (~ In k (dict_keys pre)) as Hk.
    { unfold dict_keys in *. rewrite map_app in Hnd. simpl in Hnd.
      apply NoDup_remove_2 in Hnd. intros H. apply Hnd. apply in_or_app. now left. }
    assert (dict_get k (pre ++ (k, VDict r) :: suf) = Some (VDict r)) as Hget.
    { rewrite dict_get_app_notin by assumption. simpl. now rewrite String.eqb_refl. }
    cbn [dict_keys map fst general_header_loop].
    rewrite (bind_ok _ _ _ _ _ (getitem_dict_run _ _ _ w Hget)).
    rewrite (bind_ok _ _ _ _ _ (getitem_run _ _ _ w (has_id_doc_id _ Hid))).
    destruct (find_event_descriptor_run (doc_id r) w Hm) as (w1 & Hrun & Hf1).
    rewrite (bind_ok _ _ _ _ _ Hrun).
    destruct (general_descriptor_loop_run data k (descriptors_of (db w) (doc_id r)) 0
                (pre ++ (k, VDict r) :: suf) r w1 Hget
                (store_ok_descriptors _ _ Hs) (frame_module_ok _ _ Hf1))
      as (w2 & Hloop & Hf2).
    rewrite (bind_ok _ _ _ _ _ Hloop).
    rewrite (frame_db _ _ Hf1).
    rewrite dict_set_app_notin by assumption. simpl. rewrite String.eqb_refl.
    fold (attached (db w) data r).
    assert (frame w w2) as Hf by (eapply frame_trans; eauto).
    destruct (IH (pre ++ [(k, VDict (attached (db w) data r))]) w2) as (w3 & Hrest & Hf3).
    + rewrite <- app_assoc. simpl.
      unfold dict_keys in *. rewrite map_app in *. exact Hnd.
    + assumption.
    + now rewrite (frame_db _ _ Hf).
    + eapply frame_module_ok; eauto.
    + exists w3. split; [|eapply frame_trans; eauto].
      rewrite <- app_assoc in Hrest. simpl in Hrest.
      fold (dict_keys suf). rewrite Hrest, (frame_db _ _ Hf). now rewrite <- app_assoc.
Qed.

Lemma oid_doc_key (n : N) (h : dict) :
  oid_doc n h = true ->
  exists k, dict_get "_id" h = Some (VOid k) /\ (k < n)%N /\
            header_key h = ("header_" ++ hex_fixed 24 k)%string.
Proof.
  unfold oid_doc, header_key, doc_id.
  destruct (dict_get "_id" h) as [[]|]; try discriminate.
  intros H. apply N.ltb_lt in H. eauto.
Qed.

Lemma decode_hdr_loop_run (n : N) (cursor : list dict) :
  forall (headers : dict) (w : world),
    forallb (oid_doc n) cursor = true ->
    decode_hdr_loop cursor headers w = (Ok (decoded_headers cursor headers), w).
Proof.
  induction cursor as [|h rest IH]; intros headers w Hall; [reflexivity|].
  simpl in Hall. apply andb_prop in Hall as [Hh Hall].
  destruct (oid_doc_key _ _ Hh) as (k & Hid & _ & Hkey).
  cbn [decode_hdr_loop decoded_headers].
  rewrite (bind_ok _ _ _ _ _ (getitem_run _ _ _ w Hid)).
  unfold str at 1. cbn [py_str]. unfold bind at 1. cbn [ret].
  rewrite Hkey. now apply IH.
Qed.

Lemma decoded_headers_NoDup (cursor : list dict) :
  forall headers, NoDup (dict_keys headers) -> NoDup (dict_keys (decoded_headers cursor headers)).
Proof.
  induction cursor as [|h rest IH]; intros headers H; simpl; [assumption|].
  apply IH. now apply dict_keys_set_NoDup.
Qed.

Lemma decoded_headers_In (cursor : list dict) :
  forall (headers : dict) (k : string) (v : value),
    In (k, v) (decoded_headers cursor headers) ->
    In (k, v) headers \/ exists h, In h cursor /\ k = header_key h /\ v = VDict h.
Proof.
  induction cursor as [|h rest IH]; intros headers k v H; simpl in *; [now left|].
  destruct (IH _ _ _ H) as [Hin|(h' & Hh' & E)].
  - destruct (dict_set_In _ _ _ _ _ Hin) as [[-> ->]|Hin']; [right; exists h; auto | now left].
  - right. exists h'. tauto.
Qed.

Lemma decoded_headers_keys (cursor : list dict) :
  forall (headers : dict) (k : string),
    In k (dict_keys headers) \/ (exists h, In h cursor /\ k = header_key h) ->
    In k (dict_keys (decoded_headers cursor headers)).
Proof.
  induction cursor as [|h rest IH]; intros headers k H; simpl.
  - destruct H as [H|(h & [] & _)]. exact H.
  - apply IH. destruct H as [H|(h' & [->|Hin] & ->)].
    + left. rewrite dict_keys_set. destruct (dict_get (header_key h) headers); auto.
      apply in_or_app. now left.
    + left. rewrite dict_keys_set.
      destruct (dict_get (header_key h') headers) eqn:E.
      * apply dict_get_In in E. unfold dict_keys. apply in_map_iff. now exists (header_key h', v).
      * apply in_or_app. right. now left.
    + right. eauto.
Qed.

(* ================================================================== *)
(** ** The general mode of find *)

Lemma reads_only_ret {A : Type} (a : A) : reads_only (ret a).
Proof. now intros w. Qed.

Lemma reads_only_raise {A : Type} (e : exn) : reads_only (@raise A e).
Proof. now intros w. Qed.

Lemma reads_only_bind {A B : Type} (c : M A) (k : A -> M B) :
  reads_only c -> (forall a, reads_only (k a)) -> reads_only (bind c k).
Proof.
  intros Hc Hk w. unfold bind. specialize (Hc w).
  destruct (c w) as [[a|e] w1]; simpl in *; subst; [apply Hk | reflexivity].
Qed.

Lemma reads_only_getitem (d : dict) (k : string) : reads_only (getitem d k).
Proof. unfold getitem. destruct (dict_get k d); [apply reads_only_ret | apply reads_only_raise]. Qed.

Lemma reads_only_validate_time_loop (l : list value) :
  forall flag, reads_only (validate_time_loop l flag).
Proof.
  induction l as [|x l IH]; intros flag; simpl.
  - destruct flag; [apply reads_only_ret | apply reads_only_raise].
  - destruct (is_datetime x); [apply IH | apply reads_only_raise].
Qed.

Lemma reads_only_validate_each (l : list value) : reads_only (validate_each l).
Proof.
  induction l as [|x l IH]; simpl; [apply reads_only_ret|].
  apply reads_only_bind; [apply reads_only_validate_time_loop | now intros].
Qed.

Lemma reads_only_owner_loop (owner : string) (wildcards : list string) :
  forall q, reads_only (owner_loop wildcards owner q).
Proof.
  induction wildcards as [|x l IH]; intros q; simpl; [apply reads_only_ret|].
  destruct (str_in x owner); [|apply IH].
  apply reads_only_bind; [|intros; apply reads_only_ret].
  unfold re_compile. destruct (re_valid owner); [apply reads_only_ret | apply reads_only_raise].
Qed.

Lemma reads_only_utcnow : reads_only datetime_utcnow.
Proof. now intros w. Qed.

Lemma reads_only_start_time_criterion (start_time : value) (q : dict) :
  reads_only (start_time_criterion start_time q).
Proof.
  unfold start_time_criterion, __validate_time.
  destruct start_time; simpl;
    repeat first
      [ apply reads_only_ret | apply reads_only_raise | apply reads_only_getitem
      | apply reads_only_utcnow | apply reads_only_validate_each
      | apply reads_only_bind; [|intros]
      | match goal with |- reads_only (if ?b then _ else _) => destruct b end ].
Qed.

Lemma reads_only_end_time_criterion (end_time : value) (q : dict) :
  reads_only (end_time_criterion end_time q).
Proof.
  unfold end_time_criterion.
  destruct end_time; simpl;
    repeat first
      [ apply reads_only_ret | apply reads_only_raise | apply reads_only_getitem
      | apply reads_only_utcnow | apply reads_only_validate_each
      | apply reads_only_bind; [|intros] ].
Qed.

(** Assembling the filter asks the store nothing. *)
Lemma reads_only_general_filter (hid sid : value) (o : option string) (st bid et : value) :
  reads_only (general_filter hid sid o st bid et).
Proof.
  unfold general_filter.
  apply reads_only_bind.
  - destruct o; [apply reads_only_owner_loop | apply reads_only_ret].
  - intros q. apply reads_only_bind; [apply reads_only_start_time_criterion|].
    intros q1. apply reads_only_bind; [apply reads_only_end_time_criterion|].
    intros q2. apply reads_only_ret.
Qed.

Lemma reads_only_run {A : Type} (c : M A) (w : world) (r : result A) :
  reads_only c -> fst (c w) = r -> c w = (r, w).
Proof.
  intros H E. specialize (H w). destruct (c w); simpl in *. congruence.
Qed.

(** In the general mode [find] hands the assembled filter to the Header
    collection and returns the mapping of the matching records, each with
    its descriptors attached. *)
Lemma find_general_run (hid sid : value) (o : option string) (st bid et : value)
  (data : bool) (w : world) (q : dict) :
  is_str sid "current" = false ->
  is_str sid "last" = false ->
  store_ok (db w) = true ->
  module_ok (mdl w) = true ->
  fst (general_filter hid sid o st bid et w) = Ok q ->
  exists w',
    find hid sid o st bid et data w =
      (Ok (map_records (attached (db w) data)
             (decoded_headers (filter (doc_matches q) (Header_docs (db w))) [])), w')
    /\ frame w w' /\ In (Header, q) (queries w').
Proof.
  intros Hc Hl Hs Hm Hq.
  unfold find. rewrite Hc, Hl.
  rewrite (bind_ok _ _ _ _ _ (reads_only_run _ _ _ (reads_only_general_filter _ _ _ _ _ _) Hq)).
  unfold find_header. rewrite (bind_ok _ _ _ _ _ (coll_find_run Header q w)).
  set (w1 := mkWorld (db w) (proc w) (mdl w) (queries w ++ [(Header, q)])).
  assert (frame w w1) as Hf1 by now apply coll_find_frame.
  cbn [docs_of].
  set (cursor := filter (doc_matches q) (Header_docs (db w))).
  destruct (store_ok_inv _ Hs) as (Hh & _).
  assert (forallb (oid_doc (next_oid (db w))) cursor = true) as Hcur
    by now apply forallb_filter.
  unfold __decode_hdr_cursor.
  rewrite (bind_ok _ _ _ _ _ (decode_hdr_loop_run _ _ [] w1 Hcur)).
  destruct (general_header_loop_run data (decoded_headers cursor []) [] w1)
    as (w2 & Hrun & Hf2); auto.
  - simpl. apply decoded_headers_NoDup. constructor.
  - apply Forall_forall. intros [k v] Hin.
    destruct (decoded_headers_In _ _ _ _ Hin) as [[]|(h & Hh' & -> & ->)].
    exists h. split; [reflexivity|].
    eapply oid_doc_has_id. rewrite forallb_forall in Hcur. eauto.
  - simpl in Hrun. exists w2. split; [exact Hrun|]. split.
    + eapply frame_trans; eauto.
    + eapply frame_queries; [exact Hf2|]. unfold w1; simpl. apply in_or_app. right. now left.
Qed.

(** The mapping holds the matching headers and only them, each under its
    key. *)
Lemma general_result_sound (s : store) (data : bool) (q : dict) (k : string) (v : value) :
  dict_get k (map_records (attached s data)
                (decoded_headers (filter (doc_matches q) (Header_docs s)) [])) = Some v ->
  exists h, In h (Header_docs s) /\ doc_matches q h = true /\
            k = header_key h /\ v = VDict (attached s data h).
Proof.
  rewrite dict_get_map_records.
  destruct (dict_get k _) as [v0|] eqn:E; [|discriminate].
  apply dict_get_In in E.
  destruct (decoded_headers_In _ _ _ _ E) as [[]|(h & Hin & -> & ->)].
  intros H. injection H as <-. apply filter_In in Hin. exists h. tauto.
Qed.

Lemma general_result_complete (s : store) (data : bool) (q : dict) (h : dict) :
  In h (Header_docs s) -> doc_matches q h = true ->
  exists v, dict_get (header_key h)
              (map_records (attached s data)
                 (decoded_headers (filter (doc_matches q) (Header_docs s)) [])) = Some v.
Proof.
  intros Hin Hm. rewrite dict_get_map_records.
  destruct (dict_get_Some_keys (header_key h)
              (decoded_headers (filter (doc_matches q) (Header_docs s)) [])) as (v & ->).
  - apply decoded_headers_keys. right. exists h. split; [|reflexivity].
    apply filter_In. auto.
  - destruct v; eauto.
Qed.

(* ================================================================== *)
(** ** The query helpers and the defaults of the module *)

Lemma asks_only_ret {A : Type} (a : A) : asks_only (ret a).
Proof. now intros w. Qed.

Lemma asks_only_raise {A : Type} (e : exn) : asks_only (@raise A e).
Proof. now intros w. Qed.

Lemma asks_only_bind {A B : Type} (c : M A) (k : A -> M B) :
  asks_only c -> (forall a, asks_only (k a)) -> asks_only (bind c k).
Proof.
  intros Hc Hk w. unfold bind. specialize (Hc w).
  destruct (c w) as [[a|e] w1]; simpl in *; [|exact Hc].
  destruct Hc as (H1 & H2 & H3). specialize (Hk a w1).
  destruct Hk as (K1 & K2 & K3). repeat split; congruence.
Qed.

Lemma asks_only_coll_find (c : collection) (q : dict) : asks_only (coll_find c q).
Proof. now intros w. Qed.

Lemma asks_only_getitem (d : dict) (k : string) : asks_only (getitem d k).
Proof. unfold getitem. destruct (dict_get k d); [apply asks_only_ret | apply asks_only_raise]. Qed.

Lemma asks_only_cursor_getitem (c : list dict) (i : nat) : asks_only (cursor_getitem c i).
Proof.
  unfold cursor_getitem. destruct (nth_error c i); [apply asks_only_ret | apply asks_only_raise].
Qed.

Lemma asks_only_get_header_id (scan_id : value) : asks_only (get_header_id scan_id).
Proof.
  unfold get_header_id.
  apply asks_only_bind; [apply asks_only_coll_find|]. intros found.
  destruct (Nat.eqb _ 0); [apply asks_only_raise|].
  apply asks_only_bind; [apply asks_only_cursor_getitem|]. intros first.
  apply asks_only_bind; [apply asks_only_getitem|]. intros. apply asks_only_ret.
Qed.

Lemma asks_only_get_event_descriptor_hid_edid (name s_id : value) :
  asks_only (get_event_descriptor_hid_edid name s_id).
Proof.
  unfold get_event_descriptor_hid_edid.
  apply asks_only_bind; [apply asks_only_get_header_id|]. intros hid.
  apply asks_only_bind; [apply asks_only_coll_find|]. intros found.
  apply asks_only_bind; [apply asks_only_cursor_getitem|]. intros res.
  apply asks_only_bind; [apply asks_only_getitem|]. intros.
  apply asks_only_bind; [apply asks_only_getitem|]. intros. apply asks_only_ret.
Qed.

Lemma asks_only_get_header_object (id : value) : asks_only (get_header_object id).
Proof.
  unfold get_header_object, objects.
  apply asks_only_bind; [apply asks_only_coll_find|]. intros. apply asks_only_ret.
Qed.

(** C9: [find_event], [find_event_descriptor] and [find_beamline_config]
    write their key into the dict they are given: the caller's dict holds
    the key after the call, and when the argument is left out it is the
    one dict of the module that is written, so that the next call of the
    same function starts from what this call left in it. *)
Theorem query_helpers_write_into_their_dict (id : value) (w : world) :
  (forall d, exists cursor w',
      find_event id (Some d) w = (Ok (cursor, dict_set "event_descriptor_id" id d), w')
      /\ dict_get "event_descriptor_id" (dict_set "event_descriptor_id" id d) = Some id
      /\ mdl w' = mdl w) /\
  (forall d, exists cursor w',
      find_event_descriptor id (Some d) w = (Ok (cursor, dict_set "header_id" id d), w')
      /\ dict_get "header_id" (dict_set "header_id" id d) = Some id
      /\ mdl w' = mdl w) /\
  (forall d, exists cursor w',
      find_beamline_config id (Some d) w = (Ok (cursor, dict_set "header_id" id d), w')
      /\ dict_get "header_id" (dict_set "header_id" id d) = Some id
      /\ mdl w' = mdl w) /\
  (exists cursor w',
      let d := dict_set "event_descriptor_id" id (find_event_event_query_dict (mdl w)) in
      find_event id None w = (Ok (cursor, d), w')
      /\ find_event_event_query_dict (mdl w') = d
      /\ dict_get "event_descriptor_id" (find_event_event_query_dict (mdl w')) = Some id
      /\ In (Event, d) (queries w')) /\
  (exists cursor w',
      let d := dict_set "header_id" id (find_event_descriptor_event_query_dict (mdl w)) in
      find_event_descriptor id None w = (Ok (cursor, d), w')
      /\ find_event_descriptor_event_query_dict (mdl w') = d
      /\ dict_get "header_id" (find_event_descriptor_event_query_dict (mdl w')) = Some id
      /\ In (EventDescriptor, d) (queries w')) /\
  (exists cursor w',
      let d := dict_set "header_id" id (find_beamline_config_beamline_cfg_query_dict (mdl w)) in
      find_beamline_config id None w = (Ok (cursor, d), w')
      /\ find_beamline_config_beamline_cfg_query_dict (mdl w') = d
      /\ dict_get "header_id" (find_beamline_config_beamline_cfg_query_dict (mdl w')) = Some id
      /\ In (BeamlineConfig, d) (queries w')).
Proof.
  unfold find_event, find_event_descriptor, find_beamline_config, bind, get_world,
    put_mdl, coll_find, log_query, ret, default.
  split; [|split; [|split; [|split; [|split]]]].
  1-3: intros d; do 2 eexists; split; [reflexivity|];
       split; [apply dict_get_set_same | reflexivity].
  all: do 2 eexists; cbv zeta; split; [reflexivity|];
       split; [reflexivity|]; split; [apply dict_get_set_same|];
       cbn [queries]; apply in_or_app; right; now left.
Qed.

(** C10: the defaults of [save_header] and [insert_event] are the values
    their [def] lines computed when the module was imported in process
    state [p].  Whatever the clock and the user are when the call is made
    ([now]), a header saved without [start_time] gets the time of the
    import as start and as end time, and a header or an event saved
    without owner gets the user of the import. *)
Theorem defaults_are_those_of_import (p now : process) (s : store)
  (d1 d2 d3 : dict) (qs : list (collection * dict)) :
  let m := import_module p in
  let w := mkWorld s now
             (mkModule (save_header_header_owner m) (save_header_start_time m)
                (insert_event_owner m) d1 d2 d3) qs in
  (forall scan_id beamline_id status custom,
      exists header w',
        save_header scan_id None None beamline_id status custom w = (Ok header, w')
        /\ dict_get "start_time" header = Some (VTime (utcnow p))
        /\ dict_get "end_time" header = Some (VTime (utcnow p))
        /\ dict_get "owner" header = Some (VStr (getuser p))
        /\ Header_docs (db w') = Header_docs s ++ [header]) /\
  (forall scan_id descriptor_name description seq_no data hid edid w1,
      get_event_descriptor_hid_edid descriptor_name scan_id w = (Ok (hid, edid), w1) ->
      exists event w',
        insert_event scan_id descriptor_name description None seq_no data w = (Ok event, w')
        /\ dict_get "owner" event = Some (VStr (getuser p))
        /\ Event_docs (db w') = Event_docs s ++ [event]).
Proof.
  cbv zeta. split.
  - intros. unfold save_header, Header_save, fresh_oid, coll_insert, bind, get_world,
      put_db, ret, default. cbn.
    do 2 eexists. repeat split; reflexivity.
  - intros scan_id descriptor_name description seq_no data hid edid w1 Hlookup.
    unfold insert_event. unfold bind at 1. cbn [get_world].
    rewrite (bind_ok _ _ _ _ _ Hlookup).
    destruct (asks_only_get_event_descriptor_hid_edid descriptor_name scan_id
                (mkWorld s now
                   (mkModule (getuser p) (utcnow p) (getuser p) d1 d2 d3) qs))
      as (Hdb & _ & _).
    cbn [import_module save_header_header_owner save_header_start_time insert_event_owner]
      in Hlookup.
    rewrite Hlookup in Hdb. cbn [snd db] in Hdb.
    unfold Event_save, fresh_oid, coll_insert, bind, get_world, put_db, ret, default. cbn.
    do 2 eexists. repeat split; try reflexivity.
    now rewrite Hdb.
Qed.

(* ================================================================== *)
(** ** Filters by equality, and the writers that depend on them *)

Lemma value_eqb_plain (x v : value) : plain v = true -> value_eqb x v = true -> x = v.
Proof.
  destruct v; try discriminate; intros _; destruct x; simpl; try discriminate; intros H.
  - apply Bool.eqb_prop in H. congruence.
  - apply Z.eqb_eq in H. congruence.
  - apply String.eqb_eq in H. congruence.
  - apply Z.eqb_eq in H. congruence.
  - apply N.eqb_eq in H. congruence.
Qed.

Lemma value_eqb_plain_refl (v : value) : plain v = true -> value_eqb v v = true.
Proof.
  destruct v; try discriminate; intros _; simpl.
  - now destruct b.
  - apply Z.eqb_refl.
  - apply String.eqb_refl.
  - apply Z.eqb_refl.
  - apply N.eqb_refl.
Qed.

Lemma criterion_plain (v : value) (fv : option value) :
  plain v = true -> (criterion_holds v fv = true <-> fv = Some v).
Proof.
  intros Hp. assert (criterion_holds v fv = value_eqb (field_value fv) v) as ->
    by (destruct v; try discriminate; reflexivity).
  split.
  - intros H. apply (value_eqb_plain _ _ Hp) in H. destruct fv; simpl in H; subst.
    + reflexivity.
    + discriminate.
  - intros ->. now apply value_eqb_plain_refl.
Qed.

Lemma doc_matches_field (k : string) (v : value) (h : dict) :
  plain v = true -> (doc_matches [(k, v)] h = true <-> dict_get k h = Some v).
Proof.
  intros Hp. unfold doc_matches. simpl. rewrite andb_true_r. now apply criterion_plain.
Qed.

Lemma doc_matches_field_false (k : string) (v : value) (h : dict) :
  plain v = true -> dict_get k h <> Some v -> doc_matches [(k, v)] h = false.
Proof.
  intros Hp Hne. destruct (doc_matches [(k, v)] h) eqn:E; [|reflexivity].
  apply doc_matches_field in E; [contradiction | assumption].
Qed.

Lemma filter_none {A : Type} (p : A -> bool) (l : list A) :
  (forall x, In x l -> p x = false) -> filter p l = [].
Proof.
  induction l as [|x l IH]; intros H; simpl; [reflexivity|].
  rewrite (H x) by now left. apply IH. intros y Hy. apply H. now right.
Qed.

Lemma replace_first_app (p : dict -> bool) (new x : dict) (pre post : list dict) :
  (forall h, In h pre -> p h = false) -> p x = true ->
  replace_first p new (pre ++ x :: post) = pre ++ new :: post.
Proof.
  intros Hpre Hx. induction pre as [|y pre IH]; simpl.
  - now rewrite Hx.
  - rewrite (Hpre y) by now left. rewrite IH; [reflexivity|].
    intros h Hh. apply Hpre. now right.
Qed.

(** C6: when no header has the given [header_id], [save_beamline_config]
    raises the ValueError that the header cannot be located and writes
    nothing: the four collections are as before the call. *)
Theorem save_beamline_config_without_header (beamline_cfg_id header_id : value)
  (config_params : option dict) (w : world) :
  plain header_id = true ->
  (forall h, In h (Header_docs (db w)) -> dict_get "_id" h <> Some header_id) ->
  exists w',
    save_beamline_config beamline_cfg_id header_id config_params w =
      (Raise (ValueError "Header with given header_id cannot be located"), w')
    /\ db w' = db w
    /\ BeamlineConfig_docs (db w') = BeamlineConfig_docs (db w)
    /\ Header_docs (db w') = Header_docs (db w)
    /\ EventDescriptor_docs (db w') = EventDescriptor_docs (db w)
    /\ Event_docs (db w') = Event_docs (db w).
Proof.
  intros Hp Hnone.
  unfold save_beamline_config, get_header_object, objects.
  rewrite (bind_ok _ _ _ _ _
             (bind_ok _ _ _ _ _ (coll_find_run Header [("_id", header_id)] w))).
  cbn [docs_of]. rewrite filter_none.
  - cbn. eexists. repeat split; reflexivity.
  - intros h Hh. apply doc_matches_field_false; auto.
Qed.

(** C8: for a header [H] of the store, [update_header_end_time] puts the
    record [H] with [end_time] overwritten in the place of [H], and
    [update_header_status] the record [H] with [status] overwritten; every
    other field of [H] reads as before, every other header and every other
    collection is as before. *)
Theorem header_updates_overwrite_one_field (header_id end_time status : value) (H : dict)
  (pre post : list dict) (w : world) :
  plain header_id = true ->
  Header_docs (db w) = pre ++ H :: post ->
  dict_get "_id" H = Some header_id ->
  (forall h, In h pre -> dict_get "_id" h <> Some header_id) ->
  (exists w',
      update_header_end_time header_id end_time w = (Ok tt, w')
      /\ Header_docs (db w') = pre ++ dict_set "end_time" end_time H :: post
      /\ EventDescriptor_docs (db w') = EventDescriptor_docs (db w)
      /\ Event_docs (db w') = Event_docs (db w)
      /\ BeamlineConfig_docs (db w') = BeamlineConfig_docs (db w)) /\
  dict_get "end_time" (dict_set "end_time" end_time H) = Some end_time /\
  (forall k, k <> "end_time" -> dict_get k (dict_set "end_time" end_time H) = dict_get k H) /\
  (exists w',
      update_header_status header_id status w = (Ok tt, w')
      /\ Header_docs (db w') = pre ++ dict_set "status" status H :: post
      /\ EventDescriptor_docs (db w') = EventDescriptor_docs (db w)
      /\ Event_docs (db w') = Event_docs (db w)
      /\ BeamlineConfig_docs (db w') = BeamlineConfig_docs (db w)) /\
  dict_get "status" (dict_set "status" status H) = Some status /\
  (forall k, k <> "status" -> dict_get k (dict_set "status" status H) = dict_get k H).
Proof.
  intros Hp Hdocs Hid Hpre.
  assert (forall h, In h pre -> doc_matches [("_id", header_id)] h = false) as Hpre'
    by (intros h Hh; apply doc_matches_field_false; auto).
  assert (doc_matches [("_id", header_id)] H = true) as HH
    by now apply doc_matches_field.
  assert (forall field v,
             exists w',
               bind (coll_find Header [("_id", header_id)])
                 (fun result =>
                    bind (list_getitem result 0)
                      (fun entry0 =>
                         coll_update Header [("_id", header_id)] (dict_set field v entry0))) w
               = (Ok tt, w')
               /\ Header_docs (db w') = pre ++ dict_set field v H :: post
               /\ EventDescriptor_docs (db w') = EventDescriptor_docs (db w)
               /\ Event_docs (db w') = Event_docs (db w)
               /\ BeamlineConfig_docs (db w') = BeamlineConfig_docs (db w)) as Hrun.
  { intros field v.
    rewrite (bind_ok _ _ _ _ _ (coll_find_run Header [("_id", header_id)] w)).
    cbn [docs_of]. rewrite Hdocs, filter_app, (filter_none _ pre Hpre'). cbn [filter app].
    rewrite HH. unfold list_getitem. cbn [nth_error].
    unfold bind, ret, coll_update, get_world, put_db. cbn.
    rewrite Hdocs, (replace_first_app _ _ _ _ _ Hpre' HH).
    eexists. repeat split; reflexivity. }
  split; [apply (Hrun "end_time" end_time)|].
  split; [apply dict_get_set_same|].
  split; [intros k Hk; now apply dict_get_set_other|].
  split; [apply (Hrun "status" status)|].
  split; [apply dict_get_set_same|].
  intros k Hk; now apply dict_get_set_other.
Qed.

(* ================================================================== *)
(** ** What find returns *)

Lemma with_events_carries (s : store) (e_d : dict) :
  carries_events s e_d (with_events s true e_d).
Proof.
  unfold carries_events, with_events. split.
  - intros k Hk. now apply dict_get_set_other.
  - eexists. split; [apply dict_get_set_same|].
    intros i e Hnth. now apply decode_cursor_get.
Qed.

Lemma attached_descriptors (s : store) (data : bool) (h : dict) :
  descriptors_attached s data h (attached s data h).
Proof.
  unfold descriptors_attached, attached. split.
  - intros j e_d Hnth. exists (with_events s data e_d). split.
    + apply (attach_get_slot s data _ 0 j h e_d Hnth).
    + destruct data; [apply with_events_carries | reflexivity].
  - intros k Hk. now apply attach_get_other.
Qed.

Lemma general_result_exact (s : store) (data : bool) (q : dict) (P : dict -> Prop) :
  (forall h, In h (Header_docs s) -> (doc_matches q h = true <-> P h)) ->
  holds_exactly s data P
    (map_records (attached s data)
       (decoded_headers (filter (doc_matches q) (Header_docs s)) [])).
Proof.
  intros HP. split.
  - intros k v Hget.
    destruct (general_result_sound _ _ _ _ _ Hget) as (h & Hin & Hm & -> & ->).
    exists h, (attached s data h). repeat split; auto.
    + now apply HP.
    + apply attached_descriptors.
    + apply attached_descriptors.
  - intros h Hin Hh. apply general_result_complete; [assumption|]. now apply HP.
Qed.

Lemma range_matches (field : string) (T1 T2 : Z) (h : dict) :
  doc_matches [(field, VDict [("$gte", VTime T1); ("$lt", VTime T2)])] h = true <->
  exists t, dict_get field h = Some (VTime t) /\ (T1 <= t < T2)%Z.
Proof.
  unfold doc_matches. cbn [forallb fst snd criterion_holds is_operator].
  unfold op_holds. cbn [String.eqb Ascii.eqb Bool.eqb andb].
  rewrite !andb_true_r.
  destruct (dict_get field h) as [x|]; cbn [field_value].
  - destruct x; cbn [bson_rank Nat.eqb andb];
      try (split; [discriminate | intros (t & Ht & _); discriminate]).
    rewrite andb_true_iff, bson_leb_time, bson_ltb_time.
    split.
    + intros [H1 H2]. exists t. split; [reflexivity | lia].
    + intros (t' & Ht & H). injection Ht as <-. lia.
  - cbn. split; [discriminate | intros (t & Ht & _); discriminate].
Qed.

Lemma regex_matches (field pattern : string) (ic : bool) (h : dict) :
  doc_matches [(field, VDict [("$regex", VRegex pattern ic)])] h = true <->
  exists s, dict_get field h = Some (VStr s) /\ re_search pattern ic s = true.
Proof.
  unfold doc_matches. cbn [forallb fst snd criterion_holds is_operator].
  unfold op_holds. cbn [String.eqb Ascii.eqb Bool.eqb andb].
  destruct (dict_get field h) as [x|];
    [destruct x|]; cbn [andb];
    try (split; [discriminate | intros (? & ? & _); discriminate]).
  rewrite !andb_true_r. split.
  - intros H. eauto.
  - intros (s' & Hs & H). now injection Hs as <-.
Qed.

Lemma general_filter_start_range (d : dict) (a b : value) (w : world) :
  dict_get "start" d = Some a -> dict_get "end" d = Some b ->
  is_datetime a = true -> is_datetime b = true ->
  general_filter VNone VNone None (VDict d) VNone VNone w =
    (Ok [("start_time", VDict [("$gte", a); ("$lt", b)])], w).
Proof.
  intros Ha Hb Da Db.
  unfold general_filter, start_time_criterion, end_time_criterion, __validate_time,
    bind, getitem, ret.
  cbn. rewrite Ha, Hb. cbn. now rewrite Da, Db.
Qed.

Lemma general_filter_end_range (d : dict) (a b : value) (w : world) :
  dict_get "start" d = Some a -> dict_get "end" d = Some b ->
  general_filter VNone VNone None VNone VNone (VDict d) w =
    (Ok [("end_time", VDict [("$gte", a); ("$lt", b)])], w).
Proof.
  intros Ha Hb.
  unfold general_filter, start_time_criterion, end_time_criterion, bind, getitem, ret.
  cbn. now rewrite Ha, Hb.
Qed.

(** C3: with a mapping whose [start] and [end] are the timestamps [T1] and
    [T2], [find(start_time=mapping)] returns the headers whose start_time
    is a timestamp [t] with [T1 <= t < T2], and only them, each with its
    descriptors attached; [find(end_time=mapping)] does the same on
    end_time. *)
Theorem find_time_range_is_half_open (T1 T2 : Z) (d : dict) (data : bool) (w : world) :
  store_ok (db w) = true ->
  module_ok (mdl w) = true ->
  dict_get "start" d = Some (VTime T1) ->
  dict_get "end" d = Some (VTime T2) ->
  (exists result w',
      find VNone VNone None (VDict d) VNone VNone data w = (Ok result, w')
      /\ db w' = db w
      /\ holds_exactly (db w) data
           (fun h => exists t, dict_get "start_time" h = Some (VTime t) /\ (T1 <= t < T2)%Z)
           result) /\
  (exists result w',
      find VNone VNone None VNone VNone (VDict d) data w = (Ok result, w')
      /\ db w' = db w
      /\ holds_exactly (db w) data
           (fun h => exists t, dict_get "end_time" h = Some (VTime t) /\ (T1 <= t < T2)%Z)
           result).
Proof.
  intros Hs Hm Hstart Hend. split.
  - destruct (find_general_run VNone VNone None (VDict d) VNone VNone data w
                [("start_time", VDict [("$gte", VTime T1); ("$lt", VTime T2)])])
      as (w' & Hrun & Hf & _); auto.
    { now rewrite (general_filter_start_range d (VTime T1) (VTime T2)). }
    do 2 eexists. split; [exact Hrun|]. split; [now apply frame_db|].
    apply general_result_exact. intros h _. apply range_matches.
  - destruct (find_general_run VNone VNone None VNone VNone (VDict d) data w
                [("end_time", VDict [("$gte", VTime T1); ("$lt", VTime T2)])])
      as (w' & Hrun & Hf & _); auto.
    { now rewrite (general_filter_end_range d (VTime T1) (VTime T2)). }
    do 2 eexists. split; [exact Hrun|]. split; [now apply frame_db|].
    apply general_result_exact. intros h _. apply range_matches.
Qed.

(* ------------------------------------------------------------------ *)
(** *** The owner criterion *)

Lemma returns_ret {A : Type} (P : A -> Prop) (a : A) : P a -> returns P (ret a).
Proof. intros H w a' E. simpl in E. now injection E as <-. Qed.

Lemma returns_raise {A : Type} (P : A -> Prop) (e : exn) : returns P (raise e).
Proof. intros w a E. discriminate. Qed.

Lemma returns_bind {A B : Type} (P : B -> Prop) (c : M A) (k : A -> M B) :
  (forall a, returns P (k a)) -> returns P (bind c k).
Proof.
  intros Hk w b. unfold bind. destruct (c w) as [[a|e] w1]; [apply Hk | discriminate].
Qed.

Lemma bind_fst_ok {A B : Type} (c : M A) (k : A -> M B) (w : world) (b : B) :
  fst (bind c k w) = Ok b -> exists a w1, c w = (Ok a, w1) /\ fst (k a w1) = Ok b.
Proof.
  unfold bind. destruct (c w) as [[a|e] w1]; [eauto | discriminate].
Qed.

Lemma start_time_criterion_keeps (k : string) (st : value) (q : dict) :
  k <> "start_time" ->
  returns (fun q1 => dict_get k q1 = dict_get k q) (start_time_criterion st q).
Proof.
  intros Hk. unfold start_time_criterion.
  destruct st; cbn [negb is_None];
    repeat first
      [ apply returns_ret; first [reflexivity | now apply dict_get_set_other]
      | apply returns_bind; intros
      | match goal with |- returns _ (if ?b then _ else _) => destruct b end ].
Qed.

Lemma end_time_criterion_keeps (k : string) (et : value) (q : dict) :
  k <> "end_time" ->
  returns (fun q1 => dict_get k q1 = dict_get k q) (end_time_criterion et q).
Proof.
  intros Hk. unfold end_time_criterion.
  destruct et; cbn [negb is_None];
    repeat first
      [ apply returns_ret; first [reflexivity | now apply dict_get_set_other]
      | apply returns_bind; intros ].
Qed.

(** The loop over the wildcards in closed form. *)
Lemma owner_loop_run (o : string) (wildcards : list string) :
  forall (entry : string) (q : dict) (w : world),
    owner_loop (entry :: wildcards) o q w =
    if existsb (fun e => str_in e o) (entry :: wildcards) then
      if re_valid o
      then (Ok (dict_set "owner" (VDict [("$regex", VRegex o true)]) q), w)
      else (Raise (ReError o), w)
    else (Ok (dict_set "owner" (VStr o) q), w).
Proof.
  induction wildcards as [|y l IH]; intros entry q w.
  - cbn [owner_loop existsb]. unfold re_compile.
    destruct (str_in entry o); cbn [orb]; [|reflexivity].
    now destruct (re_valid o).
  - cbn [existsb]. change (owner_loop (entry :: y :: l) o q w)
      with ((if str_in entry o
             then bind (re_compile o true)
                    (fun pattern => ret (dict_set "owner" (VDict [("$regex", pattern)]) q))
             else owner_loop (y :: l) o (dict_set "owner" (VStr o) q)) w).
    destruct (str_in entry o); cbn [orb].
    + unfold re_compile. now destruct (re_valid o).
    + rewrite IH. cbn [existsb]. now rewrite !dict_set_set.
Qed.

Lemma general_filter_owner (hid sid : value) (o : string) (st bid et : value)
  (w : world) (q : dict) :
  fst (general_filter hid sid (Some o) st bid et w) = Ok q ->
  dict_get "owner" q = Some (expected_owner_criterion o).
Proof.
  unfold general_filter. intros H.
  apply bind_fst_ok in H as (q0 & w0 & Hown & H).
  apply bind_fst_ok in H as (q1 & w1 & Hst & H).
  apply bind_fst_ok in H as (q2 & w2 & Het & H).
  simpl in H. injection H as <-.
  rewrite (end_time_criterion_keeps "owner" et q1 ltac:(discriminate) w1 q2)
    by now rewrite Het.
  rewrite (start_time_criterion_keeps "owner" st _ ltac:(discriminate) w0 q1)
    by now rewrite Hst.
  assert (dict_get "owner" q0 = Some (expected_owner_criterion o)) as Hq0.
  { unfold supported_wildcard in Hown. rewrite owner_loop_run in Hown.
    unfold expected_owner_criterion, has_wildcard, supported_wildcard.
    destruct (existsb _ _).
    - destruct (re_valid o); [|discriminate]. injection Hown as <- _.
      apply dict_get_set_same.
    - injection Hown as <- _. apply dict_get_set_same. }
  destruct (negb (is_None bid)), (negb (is_None sid));
    rewrite ?dict_get_set_other by discriminate; exact Hq0.
Qed.

Lemma doc_matches_get (q h : dict) (k : string) (c : value) :
  dict_get k q = Some c -> doc_matches q h = true -> doc_matches [(k, c)] h = true.
Proof.
  intros Hget Hm. apply dict_get_In in Hget.
  unfold doc_matches in *. rewrite forallb_forall in Hm.
  specialize (Hm _ Hget). cbn [forallb fst snd] in *. now rewrite Hm.
Qed.

Lemma owner_criterion_matches (o : string) (h : dict) :
  doc_matches [("owner", expected_owner_criterion o)] h = true <-> owner_matches o h.
Proof.
  unfold expected_owner_criterion, owner_matches. destruct (has_wildcard o).
  - apply regex_matches.
  - now apply doc_matches_field.
Qed.

Lemma general_filter_owner_only (o : string) (w : world) :
  (has_wildcard o = true -> re_valid o = true) ->
  general_filter VNone VNone (Some o) VNone VNone VNone w =
    (Ok [("owner", expected_owner_criterion o)], w).
Proof.
  intros Hv.
  unfold general_filter, start_time_criterion, end_time_criterion. cbn [negb is_None].
  unfold supported_wildcard. unfold bind at 1. rewrite owner_loop_run.
  unfold expected_owner_criterion, has_wildcard, supported_wildcard in *.
  destruct (existsb _ _); [rewrite Hv by reflexivity|]; reflexivity.
Qed.

(** C2: in the general mode the filter that [find] assembles for a
    non-null [owner] holds, under [owner], a case-insensitive regular
    expression compiled from [owner] when [owner] has one of the characters
    [* . ? / ^], and [owner] itself otherwise; so every header the filter
    lets through meets the owner criterion.  Called with the owner alone,
    [find] returns the headers that meet it and only them: those whose
    owner is exactly [owner], or, with a wildcard, those whose owner the
    pattern matches ignoring case. *)
Theorem find_owner_exact_or_regex (o : string) (data : bool) (w : world) :
  store_ok (db w) = true ->
  module_ok (mdl w) = true ->
  (has_wildcard o = true -> re_valid o = true) ->
  (forall hid sid st bid et q,
      fst (general_filter hid sid (Some o) st bid et w) = Ok q ->
      dict_get "owner" q = Some (expected_owner_criterion o) /\
      forall h, doc_matches q h = true -> owner_matches o h) /\
  (exists result w',
      find VNone VNone (Some o) VNone VNone VNone data w = (Ok result, w')
      /\ db w' = db w
      /\ In (Header, [("owner", expected_owner_criterion o)]) (queries w')
      /\ holds_exactly (db w) data (owner_matches o) result).
Proof.
  intros Hs Hm Hv. split.
  - intros hid sid st bid et q Hq.
    pose proof (general_filter_owner _ _ _ _ _ _ _ _ Hq) as Hown.
    split; [exact Hown|].
    intros h Hh. apply owner_criterion_matches. eapply doc_matches_get; eauto.
  - destruct (find_general_run VNone VNone (Some o) VNone VNone VNone data w
                [("owner", expected_owner_criterion o)])
      as (w' & Hrun & Hf & Hq); auto.
    { now rewrite general_filter_owner_only. }
    do 2 eexists. split; [exact Hrun|]. split; [now apply frame_db|].
    split; [exact Hq|].
    apply general_result_exact. intros h _. apply owner_criterion_matches.
Qed.

(* ------------------------------------------------------------------ *)
(** *** Time criteria that are no timestamps *)

Lemma validate_each_malformed (l : list value) (w : world) :
  existsb (fun x => negb (is_datetime x)) l = true ->
  validate_each l w = (Raise (TypeError "Date must be datetime object"), w).
Proof.
  induction l as [|x l IH]; [discriminate|].
  cbn [existsb validate_each]. unfold __validate_time, bind. cbn [validate_time_loop].
  destruct (is_datetime x); cbn [negb orb]; [|reflexivity].
  intros H. cbn. now apply IH.
Qed.

(** The start_time criterion is validated in its three shapes. *)
Lemma start_time_criterion_malformed (st : value) (q : dict) (w : world) :
  malformed st = true ->
  start_time_criterion st q w = (Raise (TypeError "Date must be datetime object"), w).
Proof.
  unfold start_time_criterion, __validate_time.
  destruct st; cbn [malformed is_datetime negb is_None]; try discriminate;
    try (intros _; reflexivity).
  - intros H. unfold bind. now rewrite validate_each_malformed.
  - unfold bind, getitem.
    destruct (dict_get "start" d) as [a|]; [|discriminate].
    destruct (dict_get "end" d) as [b|]; [|discriminate].
    cbn. destruct (is_datetime a); [|reflexivity].
    destruct (is_datetime b); [discriminate | reflexivity].
Qed.

(** The end_time criterion is validated when it is a list. *)
Lemma end_time_criterion_list_malformed (l : list value) (q : dict) (w : world) :
  malformed (VList l) = true ->
  end_time_criterion (VList l) q w = (Raise (TypeError "Date must be datetime object"), w).
Proof.
  unfold end_time_criterion. cbn [malformed negb is_None].
  intros H. unfold bind. now rewrite validate_each_malformed.
Qed.

(** An exception while the filter is assembled ends [find] before any
    filter is handed to the store. *)
Lemma find_filter_error (hid sid : value) (o : option string) (st bid et : value)
  (data : bool) (w : world) (e : exn) :
  is_str sid "current" = false ->
  is_str sid "last" = false ->
  fst (general_filter hid sid o st bid et w) = Raise e ->
  find hid sid o st bid et data w = (Raise e, w).
Proof.
  intros Hc Hl He. unfold find. rewrite Hc, Hl.
  now rewrite (bind_raise _ _ _ _ _
                 (reads_only_run _ _ _ (reads_only_general_filter _ _ _ _ _ _) He)).
Qed.

Lemma find_malformed_start_time (hid sid : value) (st bid et : value)
  (data : bool) (w : world) :
  is_str sid "current" = false ->
  is_str sid "last" = false ->
  malformed st = true ->
  find hid sid None st bid et data w =
    (Raise (TypeError "Date must be datetime object"), w).
Proof.
  intros Hc Hl Hbad. apply find_filter_error; auto.
  unfold general_filter. unfold bind at 1. cbn [ret].
  unfold bind at 1. now rewrite start_time_criterion_malformed.
Qed.

Lemma find_malformed_end_time_list (hid sid : value) (bid : value) (l : list value)
  (data : bool) (w : world) :
  is_str sid "current" = false ->
  is_str sid "last" = false ->
  malformed (VList l) = true ->
  find hid sid None VNone bid (VList l) data w =
    (Raise (TypeError "Date must be datetime object"), w).
Proof.
  intros Hc Hl Hbad. apply find_filter_error; auto.
  unfold general_filter. unfold bind at 1. cbn [ret].
  unfold bind at 1. cbn [start_time_criterion negb is_None ret].
  unfold bind at 1. now rewrite end_time_criterion_list_malformed.
Qed.

(** C1, where the code departs from it: an end_time criterion that is a
    mapping or a scalar is not validated.  With [start] and [end] entries
    [a] and [b] that are no timestamps, and with a scalar [x] that is no
    timestamp, [find] raises nothing: it hands the filter built from
    these values to the Header collection and returns. *)
Theorem find_end_time_not_validated (a b x : value) (d : dict) (data : bool) (w : world) :
  store_ok (db w) = true ->
  module_ok (mdl w) = true ->
  dict_get "start" d = Some a ->
  dict_get "end" d = Some b ->
  malformed (VDict d) = true ->
  plain x = true ->
  malformed x = true ->
  (exists result w',
      find VNone VNone None VNone VNone (VDict d) data w = (Ok result, w')
      /\ In (Header, [("end_time", VDict [("$gte", a); ("$lt", b)])]) (queries w')) /\
  (exists result w',
      find VNone VNone None VNone VNone x data w = (Ok result, w')
      /\ In (Header, [("end_time", VDict [("$gte", x); ("$lt", VTime (utcnow (proc w)))])])
           (queries w')).
Proof.
  intros Hs Hm Ha Hb _ Hx _. split.
  - destruct (find_general_run VNone VNone None VNone VNone (VDict d) data w
                [("end_time", VDict [("$gte", a); ("$lt", b)])])
      as (w' & Hrun & _ & Hq); auto.
    { now rewrite (general_filter_end_range d a b). }
    eauto.
  - destruct (find_general_run VNone VNone None VNone VNone x data w
                [("end_time", VDict [("$gte", x); ("$lt", VTime (utcnow (proc w)))])])
      as (w' & Hrun & _ & Hq); auto.
    { destruct x; try discriminate; reflexivity. }
    eauto.
Qed.

(* ------------------------------------------------------------------ *)
(** *** Saving a header and finding it again *)

Lemma oid_doc_succ (n : N) (d : dict) : oid_doc n d = true -> oid_doc (N.succ n) d = true.
Proof.
  unfold oid_doc. destruct (dict_get "_id" d) as [[]|]; try discriminate.
  rewrite !N.ltb_lt. lia.
Qed.

Lemma forallb_oid_doc_succ (n : N) (l : list dict) :
  forallb (oid_doc n) l = true -> forallb (oid_doc (N.succ n)) l = true.
Proof.
  rewrite !forallb_forall. intros H d Hd. apply oid_doc_succ. auto.
Qed.

Lemma oid_doc_not_next (n : N) (d : dict) :
  oid_doc n d = true -> dict_get "_id" d <> Some (VOid n).
Proof.
  unfold oid_doc. intros H E. rewrite E in H. apply N.ltb_lt in H. lia.
Qed.

Lemma field_not_slot (f : string) : In f header_fields -> forall j, f <> slot j.
Proof.
  unfold header_fields, slot. intros H j E.
  repeat (destruct H as [<-|H]; [discriminate E|]). destruct H.
Qed.

(** C7: a header saved by [save_header] and looked up by its identifier
    comes back as the one record of the result, with every field set at
    creation as it was set, and with end_time equal to start_time. *)
Theorem save_header_find_round_trip (scan_id : value) (header_owner : option string)
  (start_time : option Z) (beamline_id status : option string) (custom : option dict)
  (data : bool) (w : world) :
  store_ok (db w) = true ->
  module_ok (mdl w) = true ->
  exists header w1 key r w2,
    save_header scan_id header_owner start_time beamline_id status custom w = (Ok header, w1)
    /\ find (doc_id header) VNone None VNone VNone VNone data w1 = (Ok [(key, VDict r)], w2)
    /\ (forall f, In f header_fields -> dict_get f r = dict_get f header)
    /\ dict_get "owner" r =
         Some (VStr (default (save_header_header_owner (mdl w)) header_owner))
    /\ dict_get "start_time" r =
         Some (VTime (default (save_header_start_time (mdl w)) start_time))
    /\ dict_get "end_time" r = dict_get "start_time" r
    /\ dict_get "beamline_id" r =
         Some (match beamline_id with Some b => VStr b | None => VNone end)
    /\ dict_get "scan_id" r = Some scan_id
    /\ dict_get "custom" r = Some (VDict (default [] custom))
    /\ dict_get "status" r = Some (VStr (default "In Progress" status)).
Proof.
  intros Hs Hm.
  destruct (store_ok_inv _ Hs) as (H1 & H2 & H3 & H4).
  set (n := next_oid (db w)) in *.
  set (header :=
         [("_id", VOid n);
          ("owner", VStr (default (save_header_header_owner (mdl w)) header_owner));
          ("start_time", VTime (default (save_header_start_time (mdl w)) start_time));
          ("end_time", VTime (default (save_header_start_time (mdl w)) start_time));
          ("beamline_id", match beamline_id with Some b => VStr b | None => VNone end);
          ("scan_id", scan_id); ("custom", VDict (default [] custom));
          ("status", VStr (default "In Progress" status))]).
  set (w1 := mkWorld
               (mkStore (Header_docs (db w) ++ [header]) (EventDescriptor_docs (db w))
                  (Event_docs (db w)) (BeamlineConfig_docs (db w)) (N.succ n))
               (proc w) (mdl w) (queries w)).
  assert (save_header scan_id header_owner start_time beamline_id status custom w
          = (Ok header, w1)) as Hsave by reflexivity.
  assert (store_ok (db w1) = true) as Hs1.
  { unfold store_ok, w1. cbn [db Header_docs EventDescriptor_docs Event_docs
                                BeamlineConfig_docs next_oid].
    rewrite forallb_app, (forallb_oid_doc_succ _ _ H1), (forallb_oid_doc_succ _ _ H2),
      (forallb_oid_doc_succ _ _ H3), H4.
    cbn. unfold oid_doc. cbn. now rewrite (proj2 (N.ltb_lt n (N.succ n))) by lia. }
  destruct (find_general_run (VOid n) VNone None VNone VNone VNone data w1 [("_id", VOid n)])
    as (w2 & Hrun & Hf & _); auto.
  assert (filter (doc_matches [("_id", VOid n)]) (Header_docs (db w1)) = [header]) as Hfil.
  { unfold w1. cbn [db Header_docs]. rewrite filter_app, filter_none.
    - cbn [filter app]. now rewrite (proj2 (doc_matches_field "_id" (VOid n) header eq_refl)).
    - intros h Hh. apply doc_matches_field_false; [reflexivity|].
      apply oid_doc_not_next. rewrite forallb_forall in H1. auto. }
  rewrite Hfil in Hrun. cbn [decoded_headers map_records map fst snd] in Hrun.
  assert (forall f, In f header_fields ->
                    dict_get f (attached (db w1) data header) = dict_get f header) as Hfields.
  { intros f Hin. apply attached_descriptors. now apply field_not_slot. }
  exists header, w1, (header_key header), (attached (db w1) data header), w2.
  split; [exact Hsave|]. split; [exact Hrun|]. split; [exact Hfields|].
  unfold header_fields in Hfields.
  rewrite !Hfields by (simpl; tauto).
  repeat split; reflexivity.
Qed.

(* ------------------------------------------------------------------ *)
(** *** The sentinel modes *)

Lemma filter_all (l : list dict) : filter (doc_matches []) l = l.
Proof. induction l as [|x l IH]; simpl; [reflexivity | now rewrite IH]. Qed.

Lemma sorted_first (field : string) (l : list dict) :
  0 < List.length l ->
  exists h rest,
    cursor_sort_desc field l = h :: rest /\
    Permutation l (h :: rest) /\
    Forall (fun h' => field_le field h' h) rest.
Proof.
  intros Hlen.
  pose proof (cursor_sort_desc_perm field l) as Hp.
  pose proof (cursor_sort_desc_descending field l) as Hd.
  destruct (cursor_sort_desc field l) as [|h rest].
  - apply Permutation_length in Hp. simpl in Hp. lia.
  - exists h, rest. simpl in Hd. tauto.
Qed.

Lemma sorted_second (field : string) (l : list dict) :
  2 <= List.length l ->
  exists h0 h1 rest,
    cursor_sort_desc field l = h0 :: h1 :: rest /\
    Permutation l (h0 :: h1 :: rest) /\
    field_le field h1 h0 /\
    Forall (fun h' => field_le field h' h1) rest.
Proof.
  intros Hlen.
  pose proof (cursor_sort_desc_perm field l) as Hp.
  pose proof (cursor_sort_desc_descending field l) as Hd.
  destruct (cursor_sort_desc field l) as [|h0 [|h1 rest]].
  - apply Permutation_length in Hp. simpl in Hp. lia.
  - apply Permutation_length in Hp. simpl in Hp. lia.
  - exists h0, h1, rest. simpl in Hd. destruct Hd as (H0 & H1 & _).
    inversion H0; subst. tauto.
Qed.

Lemma sorted_short (field : string) (l : list dict) :
  List.length l < 2 -> nth_error (cursor_limit 5 (cursor_sort_desc field l)) 1 = None.
Proof.
  intros Hlen.
  pose proof (cursor_sort_desc_perm field l) as Hp. apply Permutation_length in Hp.
  destruct (cursor_sort_desc field l) as [|h0 [|h1 rest]]; simpl in *; [reflexivity..|lia].
Qed.

(** What both sentinel modes do with the header they picked. *)
Lemma sentinel_tail_run (data : bool) (header : dict) (w : world) :
  store_ok (db w) = true ->
  module_ok (mdl w) = true ->
  has_id header = true ->
  exists w',
    (hid <- getitem header "_id";;
     ' (event_desc, _) <- find_event_descriptor hid None;;
     sentinel_descriptor_loop data event_desc 0 header) w =
      (Ok (attached (db w) data header), w')
    /\ frame w w'.
Proof.
  intros Hs Hm Hid.
  rewrite (bind_ok _ _ _ _ _ (getitem_run _ _ _ w (has_id_doc_id _ Hid))).
  destruct (find_event_descriptor_run (doc_id header) w Hm) as (w1 & Hrun & Hf1).
  rewrite (bind_ok _ _ _ _ _ Hrun).
  destruct (sentinel_descriptor_loop_run data (descriptors_of (db w) (doc_id header)) 0
              header w1 (store_ok_descriptors _ _ Hs) (frame_module_ok _ _ Hf1))
    as (w2 & Hloop & Hf2).
  rewrite (frame_db _ _ Hf1) in Hloop.
  exists w2. split; [exact Hloop | eapply frame_trans; eauto].
Qed.

Lemma header_has_id (w : world) (h : dict) :
  store_ok (db w) = true -> In h (Header_docs (db w)) -> has_id h = true.
Proof.
  intros Hs Hin. destruct (store_ok_inv _ Hs) as (H1 & _).
  rewrite forallb_forall in H1. eapply oid_doc_has_id. eauto.
Qed.

Lemma field_le_time (field : string) (h h' : dict) (t t' : Z) :
  dict_get field h = Some (VTime t) -> dict_get field h' = Some (VTime t') ->
  field_le field h' h -> (t' <= t)%Z.
Proof.
  unfold field_le, sort_key. intros -> ->. cbn [field_value]. apply bson_leb_time.
Qed.

(** C4: in a store with at least one header, [find(scan_id="current")]
    returns the header that comes first when the headers are sorted by
    end_time, descending: no header has a later end_time.  It comes with
    each of its descriptors under [event_descriptor_0],
    [event_descriptor_1], ... in the order the store returns them, and with
    [data] each descriptor carries its events under [events], keyed
    [event_0], [event_1], ... in the order the store returns them. *)
Theorem find_current_is_latest_header (hid : value) (o : option string)
  (st bid et : value) (data : bool) (w : world) :
  store_ok (db w) = true ->
  module_ok (mdl w) = true ->
  0 < List.length (Header_docs (db w)) ->
  exists h rest result w',
    nth_error (cursor_limit 1 (cursor_sort_desc "end_time" (Header_docs (db w)))) 0 = Some h
    /\ Permutation (Header_docs (db w)) (h :: rest)
    /\ Forall (fun h' => field_le "end_time" h' h) rest
    /\ (forall h' t t',
           In h' (Header_docs (db w)) ->
           dict_get "end_time" h = Some (VTime t) ->
           dict_get "end_time" h' = Some (VTime t') -> (t' <= t)%Z)
    /\ find hid (VStr "current") o st bid et data w = (Ok result, w')
    /\ db w' = db w
    /\ descriptors_attached (db w) data h result.
Proof.
  intros Hs Hm Hlen.
  destruct (sorted_first "end_time" _ Hlen) as (h & rest & Hsort & Hperm & Hmax).
  assert (In h (Header_docs (db w))) as Hin
    by (eapply Permutation_in; [apply Permutation_sym, Hperm | now left]).
  set (w1 := mkWorld (db w) (proc w) (mdl w) (queries w ++ [(Header, [])])).
  destruct (sentinel_tail_run data h w1 Hs Hm (header_has_id _ _ Hs Hin))
    as (w2 & Hrun & Hf2).
  exists h, rest, (attached (db w) data h), w2.
  split; [now rewrite Hsort|]. split; [exact Hperm|]. split; [exact Hmax|].
  split.
  { intros h' t t' Hin' Ht Ht'.
    apply (Permutation_in _ Hperm) in Hin'. destruct Hin' as [<-|Hin'].
    - rewrite Ht in Ht'. injection Ht' as <-. lia.
    - rewrite Forall_forall in Hmax. eapply field_le_time; eauto. }
  split; [|split; [exact (frame_db _ _ Hf2) | apply attached_descriptors]].
  unfold find. cbn [is_str String.eqb Ascii.eqb Bool.eqb].
  rewrite (bind_ok _ _ _ _ _ (coll_find_run Header [] w)).
  cbn [docs_of]. rewrite filter_all, Hsort.
  unfold cursor_limit, cursor_getitem at 1. cbn [firstn nth_error].
  unfold bind at 1. cbn [ret]. exact Hrun.
Qed.

(** C5: in a store with at least two headers, [find(scan_id="last")]
    returns the entry at index 1 of the five first headers sorted by
    end_time, descending: the header below the latest one and above every
    other, with its descriptors attached (and their events with [data]).
    With fewer than two headers the call raises an IndexError and returns
    no header. *)
Theorem find_last_is_second_latest_header (hid : value) (o : option string)
  (st bid et : value) (data : bool) (w : world) :
  store_ok (db w) = true ->
  module_ok (mdl w) = true ->
  (2 <= List.length (Header_docs (db w)) ->
   exists h0 h1 rest result w',
     nth_error (cursor_limit 5 (cursor_sort_desc "end_time" (Header_docs (db w)))) 1 = Some h1
     /\ Permutation (Header_docs (db w)) (h0 :: h1 :: rest)
     /\ field_le "end_time" h1 h0
     /\ Forall (fun h' => field_le "end_time" h' h1) rest
     /\ find hid (VStr "last") o st bid et data w = (Ok result, w')
     /\ db w' = db w
     /\ descriptors_attached (db w) data h1 result) /\
  (List.length (Header_docs (db w)) < 2 ->
   exists w',
     find hid (VStr "last") o st bid et data w =
       (Raise (IndexError "no such item for Cursor instance"), w')
     /\ db w' = db w).
Proof.
  intros Hs Hm. split.
  - intros Hlen.
    destruct (sorted_second "end_time" _ Hlen) as (h0 & h1 & rest & Hsort & Hperm & H10 & Hmax).
    assert (In h1 (Header_docs (db w))) as Hin
      by (eapply Permutation_in; [apply Permutation_sym, Hperm | right; now left]).
    set (w1 := mkWorld (db w) (proc w) (mdl w) (queries w ++ [(Header, [])])).
    destruct (sentinel_tail_run data h1 w1 Hs Hm (header_has_id _ _ Hs Hin))
      as (w2 & Hrun & Hf2).
    exists h0, h1, rest, (attached (db w) data h1), w2.
    split; [now rewrite Hsort|]. split; [exact Hperm|]. split; [exact H10|].
    split; [exact Hmax|].
    split; [|split; [exact (frame_db _ _ Hf2) | apply attached_descriptors]].
    unfold find. cbn [is_str String.eqb Ascii.eqb Bool.eqb].
    rewrite (bind_ok _ _ _ _ _ (coll_find_run Header [] w)).
    cbn [docs_of]. rewrite filter_all, Hsort.
    unfold cursor_limit, cursor_getitem at 1. cbn [firstn nth_error].
    unfold bind at 1. cbn [ret]. exact Hrun.
  - intros Hlen.
    pose proof (sorted_short "end_time" _ Hlen) as Hnone.
    unfold find. cbn [is_str String.eqb Ascii.eqb Bool.eqb].
    rewrite (bind_ok _ _ _ _ _ (coll_find_run Header [] w)).
    cbn [docs_of]. rewrite filter_all.
    unfold cursor_getitem at 1. rewrite Hnone.
    eexists. split; reflexivity.
Qed.

(* ================================================================== *)
(** ** The well-formed worlds are those the commands produce *)

Lemma import_module_ok (p : process) : module_ok (import_module p) = true.
Proof. reflexivity. Qed.

Lemma empty_store_ok : store_ok empty_store = true.
Proof. reflexivity. Qed.

Lemma preserves_ret {A : Type} (a : A) : preserves (ret a).
Proof. intros w Hs Hm. now split. Qed.

Lemma preserves_raise {A : Type} (e : exn) : preserves (@raise A e).
Proof. intros w Hs Hm. now split. Qed.

Lemma preserves_bind {A B : Type} (c : M A) (k : A -> M B) :
  preserves c -> (forall a, preserves (k a)) -> preserves (bind c k).
Proof.
  intros Hc Hk w Hs Hm. unfold bind. specialize (Hc w Hs Hm).
  destruct (c w) as [[a|e] w1]; simpl in *; [|exact Hc].
  destruct Hc as [Hs1 Hm1]. now apply Hk.
Qed.

Lemma asks_only_preserves {A : Type} (c : M A) : asks_only c -> preserves c.
Proof.
  intros Hc w Hs Hm. destruct (Hc w) as (H1 & _ & H3). now rewrite H1, H3.
Qed.

Lemma frame_preserves {A : Type} (c : M A) (w : world) :
  store_ok (db w) = true -> frame w (snd (c w)) ->
  store_ok (db (snd (c w))) = true /\ module_ok (mdl (snd (c w))) = true.
Proof.
  intros Hs Hf. rewrite (frame_db _ _ Hf). split; [assumption|].
  eapply frame_module_ok; eauto.
Qed.

Lemma store_ok_fresh (s : store) (c : collection) (fields : dict) :
  store_ok s = true ->
  c <> BeamlineConfig ->
  store_ok
    (set_docs c (docs_of c s ++ [("_id", VOid (next_oid s)) :: fields])
       (mkStore (Header_docs s) (EventDescriptor_docs s) (Event_docs s)
          (BeamlineConfig_docs s) (N.succ (next_oid s)))) = true.
Proof.
  intros Hs Hc. destruct (store_ok_inv _ Hs) as (H1 & H2 & H3 & H4).
  apply forallb_oid_doc_succ in H1, H2, H3.
  assert (oid_doc (N.succ (next_oid s)) (("_id", VOid (next_oid s)) :: fields) = true) as Hnew.
  { unfold oid_doc. cbn. apply N.ltb_lt. lia. }
  unfold store_ok.
  destruct c; cbn [set_docs docs_of Header_docs EventDescriptor_docs Event_docs
                     BeamlineConfig_docs next_oid];
    try contradiction;
    rewrite ?forallb_app, ?H1, ?H2, ?H3, ?H4; cbn [forallb]; now rewrite Hnew.
Qed.

Lemma preserves_Header_save (a b c d e f g : value) : preserves (Header_save a b c d e f g).
Proof.
  intros w Hs Hm. split; [|exact Hm].
  apply (store_ok_fresh (db w) Header); [assumption | discriminate].
Qed.

Lemma preserves_EventDescriptor_save (a b c d e : value) :
  preserves (EventDescriptor_save a b c d e).
Proof.
  intros w Hs Hm. split; [|exact Hm].
  apply (store_ok_fresh (db w) EventDescriptor); [assumption | discriminate].
Qed.

Lemma preserves_Event_save (a b c d e f : value) : preserves (Event_save a b c d e f).
Proof.
  intros w Hs Hm. split; [|exact Hm].
  apply (store_ok_fresh (db w) Event); [assumption | discriminate].
Qed.

Lemma forallb_replace_first (p ok : dict -> bool) (new : dict) (l : list dict) :
  forallb ok l = true -> ok new = true -> forallb ok (replace_first p new l) = true.
Proof.
  intros Hl Hnew. induction l as [|x l IH]; simpl in *; [reflexivity|].
  apply andb_prop in Hl as [Hx Hl].
  destruct (p x); simpl; [now rewrite Hnew, Hl | now rewrite Hx, IH].
Qed.

Lemma preserves_BeamlineConfig_save (a b c : value) : preserves (BeamlineConfig_save a b c).
Proof.
  intros w Hs Hm. destruct (store_ok_inv _ Hs) as (H1 & H2 & H3 & H4).
  unfold BeamlineConfig_save, coll_save, coll_insert, bind, get_world, put_db, ret.
  cbn [docs_of]. destruct (existsb _ _); cbn; (split; [|exact Hm]);
    unfold store_ok; cbn [Header_docs EventDescriptor_docs Event_docs
                            BeamlineConfig_docs next_oid];
    rewrite H1, H2, H3; cbn [andb].
  - now apply forallb_replace_first.
  - rewrite forallb_app, H4. reflexivity.
Qed.

Lemma preserves_save_header (scan_id : value) (header_owner : option string)
  (start_time : option Z) (beamline_id status : option string) (custom : option dict) :
  preserves (save_header scan_id header_owner start_time beamline_id status custom).
Proof.
  unfold save_header.
  apply preserves_bind; [now apply asks_only_preserves|]. intros w0.
  apply preserves_bind; [apply preserves_Header_save | intros; apply preserves_ret].
Qed.

Lemma preserves_insert_event_descriptor (scan_id event_type_id : value)
  (event_type_name : option string) (type_descriptor : option dict) (tag : option string) :
  preserves (insert_event_descriptor scan_id event_type_id event_type_name type_descriptor tag).
Proof.
  unfold insert_event_descriptor.
  apply preserves_bind; [apply asks_only_preserves, asks_only_get_header_id|]. intros hid.
  apply preserves_bind; [apply preserves_EventDescriptor_save | intros; apply preserves_ret].
Qed.

Lemma preserves_insert_event (scan_id descriptor_name : value) (description owner : option string)
  (seq_no : option Z) (data : option dict) :
  preserves (insert_event scan_id descriptor_name description owner seq_no data).
Proof.
  unfold insert_event.
  apply preserves_bind; [now apply asks_only_preserves|]. intros w0.
  apply preserves_bind;
    [apply asks_only_preserves, asks_only_get_event_descriptor_hid_edid|].
  intros [hid edid].
  apply preserves_bind; [apply preserves_Event_save | intros; apply preserves_ret].
Qed.

Lemma preserves_save_beamline_config (beamline_cfg_id header_id : value)
  (config_params : option dict) :
  preserves (save_beamline_config beamline_cfg_id header_id config_params).
Proof.
  unfold save_beamline_config.
  apply preserves_bind; [apply asks_only_preserves, asks_only_get_header_object|].
  intros ho. destruct (truthy ho); [|apply preserves_raise].
  apply preserves_bind; [apply preserves_BeamlineConfig_save | intros; apply preserves_ret].
Qed.

Lemma oid_doc_set (n : N) (k : string) (v : value) (d : dict) :
  k <> "_id" -> oid_doc n d = true -> oid_doc n (dict_set k v d) = true.
Proof.
  intros Hk. unfold oid_doc. rewrite dict_get_set_other; [auto|]. congruence.
Qed.

Lemma preserves_update_field (field : string) (header_id v : value) :
  field <> "_id" ->
  preserves
    (result <- coll_find Header [("_id", header_id)];;
     entry0 <- list_getitem result 0;;
     coll_update Header [("_id", header_id)] (dict_set field v entry0)).
Proof.
  intros Hfield w Hs Hm.
  rewrite (bind_ok _ _ _ _ _ (coll_find_run Header [("_id", header_id)] w)).
  cbn [docs_of]. unfold list_getitem.
  destruct (filter _ _) as [|entry0 rest] eqn:E; [now split|].
  cbn [nth_error]. unfold bind, ret, coll_update, get_world, put_db. cbn.
  split; [|exact Hm].
  destruct (store_ok_inv _ Hs) as (H1 & H2 & H3 & H4).
  unfold store_ok. cbn. rewrite H2, H3, H4, !andb_true_r.
  apply forallb_replace_first; [assumption|].
  apply oid_doc_set; [assumption|].
  rewrite forallb_forall in H1. apply H1.
  assert (In entry0 (entry0 :: rest)) as Hin by now left.
  rewrite <- E in Hin. apply filter_In in Hin. tauto.
Qed.

Lemma preserves_update_header_end_time (header_id end_time : value) :
  preserves (update_header_end_time header_id end_time).
Proof. apply (preserves_update_field "end_time"). discriminate. Qed.

Lemma preserves_update_header_status (header_id status : value) :
  preserves (update_header_status header_id status).
Proof. apply (preserves_update_field "status"). discriminate. Qed.

Lemma preserves_sentinel (data : bool) (n i : nat) :
  preserves
    (found <- coll_find Header [];;
     header <- cursor_getitem (cursor_limit n (cursor_sort_desc "end_time" found)) i;;
     hid <- getitem header "_id";;
     ' (event_desc, _) <- find_event_descriptor hid None;;
     sentinel_descriptor_loop data event_desc 0 header).
Proof.
  intros w Hs Hm.
  rewrite (bind_ok _ _ _ _ _ (coll_find_run Header [] w)).
  cbn [docs_of]. rewrite filter_all.
  set (w1 := mkWorld (db w) (proc w) (mdl w) (queries w ++ [(Header, [])])).
  unfold cursor_getitem.
  destruct (nth_error _ i) as [h|] eqn:E;
    [rewrite (bind_ok (ret h) _ w1 w1 h eq_refl)
    |rewrite (bind_raise (raise _) _ w1 w1 _ eq_refl); now split].
  assert (In h (Header_docs (db w))) as Hin.
  { apply nth_error_In in E. unfold cursor_limit in E.
    eapply Permutation_in; [apply Permutation_sym, cursor_sort_desc_perm|].
    rewrite <- (firstn_skipn n). apply in_or_app. left. exact E. }
  destruct (sentinel_tail_run data h w1 Hs Hm (header_has_id _ _ Hs Hin))
    as (w2 & Hrun & Hf).
  rewrite Hrun. cbn [snd]. rewrite (frame_db _ _ Hf). split; [exact Hs|].
  eapply frame_module_ok; eauto.
Qed.

(** [find] keeps the worlds well formed, and writes nothing to the store. *)
Lemma preserves_find (hid sid : value) (o : option string) (st bid et : value) (data : bool) :
  preserves (find hid sid o st bid et data).
Proof.
  destruct (is_str sid "current") eqn:Hc;
    [unfold find; rewrite Hc; apply preserves_sentinel|].
  destruct (is_str sid "last") eqn:Hl;
    [unfold find; rewrite Hc, Hl; apply preserves_sentinel|].
  intros w Hs Hm.
  destruct (fst (general_filter hid sid o st bid et w)) as [q|e] eqn:Hq.
  - destruct (find_general_run hid sid o st bid et data w q Hc Hl Hs Hm Hq)
      as (w' & Hrun & Hf & _).
    rewrite Hrun. cbn [snd].
    rewrite (frame_db _ _ Hf). split; [exact Hs | eapply frame_module_ok; eauto].
  - rewrite (find_filter_error _ _ _ _ _ _ _ _ _ Hc Hl Hq). now split.
Qed.

(* ================================================================== *)
(** ** The lookup helpers and the writers that use them *)

Lemma get_header_id_found_run (scan_id id : value) (H : dict) (pre post : list dict)
  (w : world) :
  plain scan_id = true ->
  Header_docs (db w) = pre ++ H :: post ->
  dict_get "scan_id" H = Some scan_id ->
  (forall h, In h pre -> dict_get "scan_id" h <> Some scan_id) ->
  dict_get "_id" H = Some id ->
  get_header_id scan_id w =
    (Ok id, mkWorld (db w) (proc w) (mdl w) (queries w ++ [(Header, [("scan_id", scan_id)])])).
Proof.
  intros Hp Hdocs Hsid Hpre Hid.
  unfold get_header_id.
  rewrite (bind_ok _ _ _ _ _ (coll_find_run Header [("scan_id", scan_id)] w)).
  cbn [docs_of]. rewrite Hdocs, filter_app, filter_none
    by (intros h Hh; apply doc_matches_field_false; auto).
  cbn [filter app]. rewrite (proj2 (doc_matches_field "scan_id" scan_id H Hp) Hsid).
  cbn [cursor_limit firstn cursor_count List.length Nat.eqb].
  unfold cursor_getitem. cbn [nth_error].
  unfold bind at 1. cbn [ret].
  now rewrite (bind_ok _ _ _ _ _ (getitem_run _ _ _ _ Hid)).
Qed.

Lemma get_header_id_none_run (scan_id : value) (w : world) :
  plain scan_id = true ->
  (forall h, In h (Header_docs (db w)) -> dict_get "scan_id" h <> Some scan_id) ->
  get_header_id scan_id w =
    (Raise (Exception "header_id cannot be retrieved. Please validate scan_id"),
     mkWorld (db w) (proc w) (mdl w) (queries w ++ [(Header, [("scan_id", scan_id)])])).
Proof.
  intros Hp Hnone.
  unfold get_header_id.
  rewrite (bind_ok _ _ _ _ _ (coll_find_run Header [("scan_id", scan_id)] w)).
  cbn [docs_of]. rewrite filter_none
    by (intros h Hh; apply doc_matches_field_false; auto).
  reflexivity.
Qed.

(** X1: [get_header_id] returns the identifier of the first header, in
    store order, whose scan_id is the one asked for, whatever follows it;
    it writes nothing. *)
Theorem get_header_id_first_match (scan_id id : value) (H : dict) (pre post : list dict)
  (w : world) :
  plain scan_id = true ->
  Header_docs (db w) = pre ++ H :: post ->
  dict_get "scan_id" H = Some scan_id ->
  (forall h, In h pre -> dict_get "scan_id" h <> Some scan_id) ->
  dict_get "_id" H = Some id ->
  exists w', get_header_id scan_id w = (Ok id, w') /\ db w' = db w /\ mdl w' = mdl w.
Proof.
  intros Hp Hdocs Hsid Hpre Hid.
  rewrite (get_header_id_found_run _ _ _ _ _ _ Hp Hdocs Hsid Hpre Hid).
  eexists. repeat split; reflexivity.
Qed.

(** X2: without a header of that scan_id, [get_header_id] raises the
    generic Exception asking to validate the scan_id, and so does
    [insert_event_descriptor], which then writes no descriptor. *)
Theorem unknown_scan_id_is_rejected (scan_id event_type_id : value)
  (event_type_name : option string) (type_descriptor : option dict) (tag : option string)
  (w : world) :
  plain scan_id = true ->
  (forall h, In h (Header_docs (db w)) -> dict_get "scan_id" h <> Some scan_id) ->
  (exists w',
      get_header_id scan_id w =
        (Raise (Exception "header_id cannot be retrieved. Please validate scan_id"), w')
      /\ db w' = db w) /\
  (exists w',
      insert_event_descriptor scan_id event_type_id event_type_name type_descriptor tag w =
        (Raise (Exception "header_id cannot be retrieved. Please validate scan_id"), w')
      /\ db w' = db w).
Proof.
  intros Hp Hnone. split.
  - rewrite (get_header_id_none_run _ _ Hp Hnone). eexists. split; reflexivity.
  - unfold insert_event_descriptor.
    rewrite (bind_raise _ _ _ _ _ (get_header_id_none_run _ _ Hp Hnone)).
    eexists. split; reflexivity.
Qed.

Lemma filter_app_last (p : dict -> bool) (l : list dict) (x : dict) :
  p x = true -> filter p (l ++ [x]) = filter p l ++ [x].
Proof. intros H. rewrite filter_app. cbn. now rewrite H. Qed.

(** X3: [insert_event_descriptor] ties the descriptor to the first header
    with the scan_id: the record it returns carries that header's
    identifier, is added after the descriptors there were, and is the last
    one [find_event_descriptor] returns for that header; headers and
    events are untouched. *)
Theorem insert_event_descriptor_links_to_first_header (scan_id event_type_id id : value)
  (event_type_name : option string) (type_descriptor : option dict) (tag : option string)
  (H : dict) (pre post : list dict) (w : world) :
  plain scan_id = true ->
  plain id = true ->
  Header_docs (db w) = pre ++ H :: post ->
  dict_get "scan_id" H = Some scan_id ->
  (forall h, In h pre -> dict_get "scan_id" h <> Some scan_id) ->
  dict_get "_id" H = Some id ->
  exists e_d w',
    insert_event_descriptor scan_id event_type_id event_type_name type_descriptor tag w =
      (Ok e_d, w')
    /\ dict_get "header_id" e_d = Some id
    /\ dict_get "_id" e_d = Some (VOid (next_oid (db w)))
    /\ dict_get "event_type_id" e_d = Some event_type_id
    /\ EventDescriptor_docs (db w') = EventDescriptor_docs (db w) ++ [e_d]
    /\ Header_docs (db w') = Header_docs (db w)
    /\ Event_docs (db w') = Event_docs (db w)
    /\ fst (find_event_descriptor id (Some []) w') =
         Ok (descriptors_of (db w) id ++ [e_d], [("header_id", id)]).
Proof.
  intros Hp Hpid Hdocs Hsid Hpre Hid.
  unfold insert_event_descriptor.
  rewrite (bind_ok _ _ _ _ _ (get_header_id_found_run _ _ _ _ _ _ Hp Hdocs Hsid Hpre Hid)).
  unfold EventDescriptor_save, fresh_oid, coll_insert, bind, get_world, put_db, ret. cbn.
  do 2 eexists. split; [reflexivity|].
  repeat (split; [reflexivity|]).
  unfold find_event_descriptor, bind, get_world, coll_find, log_query, ret, default. cbn.
  unfold descriptors_of. rewrite filter_app_last; [reflexivity|].
  apply doc_matches_field; [assumption | reflexivity].
Qed.

Lemma doc_matches_two (k1 k2 : string) (v1 v2 : value) (d : dict) :
  plain v1 = true -> plain v2 = true ->
  (doc_matches [(k1, v1); (k2, v2)] d = true <->
   dict_get k1 d = Some v1 /\ dict_get k2 d = Some v2).
Proof.
  intros H1 H2. unfold doc_matches. cbn [forallb fst snd].
  rewrite andb_true_r, andb_true_iff.
  now rewrite (criterion_plain v1 _ H1), (criterion_plain v2 _ H2).
Qed.

Lemma get_event_descriptor_hid_edid_found_run (name scan_id hid edid : value)
  (H D : dict) (pre post dpre dpost : list dict) (w : world) :
  plain scan_id = true -> plain name = true -> plain hid = true ->
  Header_docs (db w) = pre ++ H :: post ->
  dict_get "scan_id" H = Some scan_id ->
  (forall h, In h pre -> dict_get "scan_id" h <> Some scan_id) ->
  dict_get "_id" H = Some hid ->
  EventDescriptor_docs (db w) = dpre ++ D :: dpost ->
  dict_get "event_type_name" D = Some name ->
  dict_get "header_id" D = Some hid ->
  (forall d, In d dpre ->
             ~ (dict_get "event_type_name" d = Some name /\ dict_get "header_id" d = Some hid)) ->
  dict_get "_id" D = Some edid ->
  exists w',
    get_event_descriptor_hid_edid name scan_id w = (Ok (hid, edid), w')
    /\ db w' = db w /\ mdl w' = mdl w /\ proc w' = proc w.
Proof.
  intros Hp Hpn Hph Hdocs Hsid Hpre Hid Hdd Hname Hhid Hdpre Hedid.
  unfold get_event_descriptor_hid_edid.
  rewrite (bind_ok _ _ _ _ _ (get_header_id_found_run _ _ _ _ _ _ Hp Hdocs Hsid Hpre Hid)).
  rewrite (bind_ok _ _ _ _ _ (coll_find_run EventDescriptor _ _)).
  cbn [docs_of db]. rewrite Hdd, filter_app, filter_none.
  - cbn [filter app].
    rewrite (proj2 (doc_matches_two _ _ _ _ D Hpn Hph) (conj Hname Hhid)).
    cbn [cursor_limit firstn]. unfold cursor_getitem. cbn [nth_error].
    unfold bind at 1. cbn [ret].
    rewrite (bind_ok _ _ _ _ _ (getitem_run _ _ _ _ Hhid)).
    rewrite (bind_ok _ _ _ _ _ (getitem_run _ _ _ _ Hedid)).
    eexists. repeat split; reflexivity.
  - intros d Hd. destruct (doc_matches _ d) eqn:E; [|reflexivity].
    apply doc_matches_two in E; auto. exfalso. exact (Hdpre d Hd E).
Qed.

(** X4: [insert_event] ties the event to the first descriptor of that name
    under the first header with the scan_id: the record it returns carries
    the identifiers of both, the owner given, is added after the events
    there were, and is the last one [find_event] returns for that
    descriptor; headers and descriptors are untouched. *)
Theorem insert_event_links_to_first_descriptor (name scan_id hid edid : value)
  (description : option string) (owner : string) (seq_no : option Z) (data : option dict)
  (H D : dict) (pre post dpre dpost : list dict) (w : world) :
  plain scan_id = true -> plain name = true -> plain hid = true -> plain edid = true ->
  Header_docs (db w) = pre ++ H :: post ->
  dict_get "scan_id" H = Some scan_id ->
  (forall h, In h pre -> dict_get "scan_id" h <> Some scan_id) ->
  dict_get "_id" H = Some hid ->
  EventDescriptor_docs (db w) = dpre ++ D :: dpost ->
  dict_get "event_type_name" D = Some name ->
  dict_get "header_id" D = Some hid ->
  (forall d, In d dpre ->
             ~ (dict_get "event_type_name" d = Some name /\ dict_get "header_id" d = Some hid)) ->
  dict_get "_id" D = Some edid ->
  exists event w',
    insert_event scan_id name description (Some owner) seq_no data w = (Ok event, w')
    /\ dict_get "event_descriptor_id" event = Some edid
    /\ dict_get "header_id" event = Some hid
    /\ dict_get "owner" event = Some (VStr owner)
    /\ dict_get "data" event = Some (VDict (default [] data))
    /\ Event_docs (db w') = Event_docs (db w) ++ [event]
    /\ Header_docs (db w') = Header_docs (db w)
    /\ EventDescriptor_docs (db w') = EventDescriptor_docs (db w)
    /\ fst (find_event edid (Some []) w') =
         Ok (events_of (db w) edid ++ [event], [("event_descriptor_id", edid)]).
Proof.
  intros Hp Hpn Hph Hpe Hdocs Hsid Hpre Hid Hdd Hname Hhid Hdpre Hedid.
  destruct (get_event_descriptor_hid_edid_found_run name scan_id hid edid H D pre post
              dpre dpost w) as (w1 & Hrun & Hdb & Hmdl & Hproc); auto.
  unfold insert_event. unfold bind at 1. cbn [get_world].
  rewrite (bind_ok _ _ _ _ _ Hrun).
  unfold Event_save, fresh_oid, coll_insert, bind, get_world, put_db, ret. cbn.
  rewrite Hdb.
  do 2 eexists. split; [reflexivity|].
  repeat (split; [reflexivity|]).
  unfold find_event, bind, get_world, coll_find, log_query, ret, default. cbn.
  unfold events_of. rewrite filter_app_last; [reflexivity|].
  apply doc_matches_field; [assumption | reflexivity].
Qed.

(** X5: when the header is there but no descriptor of it has the name,
    the lookup of [insert_event] indexes an empty cursor: the call raises
    an IndexError and writes no event. *)
Theorem insert_event_without_descriptor (name scan_id hid : value)
  (description owner : option string) (seq_no : option Z) (data : option dict)
  (H : dict) (pre post : list dict) (w : world) :
  plain scan_id = true -> plain name = true -> plain hid = true ->
  Header_docs (db w) = pre ++ H :: post ->
  dict_get "scan_id" H = Some scan_id ->
  (forall h, In h pre -> dict_get "scan_id" h <> Some scan_id) ->
  dict_get "_id" H = Some hid ->
  (forall d, In d (EventDescriptor_docs (db w)) ->
             ~ (dict_get "event_type_name" d = Some name /\ dict_get "header_id" d = Some hid)) ->
  exists w',
    insert_event scan_id name description owner seq_no data w =
      (Raise (IndexError "no such item for Cursor instance"), w')
    /\ db w' = db w.
Proof.
  intros Hp Hpn Hph Hdocs Hsid Hpre Hid Hnone.
  assert (exists w',
             get_event_descriptor_hid_edid name scan_id w =
               (Raise (IndexError "no such item for Cursor instance"), w')
             /\ db w' = db w) as (w1 & Hrun & Hdb).
  { unfold get_event_descriptor_hid_edid.
    rewrite (bind_ok _ _ _ _ _ (get_header_id_found_run _ _ _ _ _ _ Hp Hdocs Hsid Hpre Hid)).
    rewrite (bind_ok _ _ _ _ _ (coll_find_run EventDescriptor _ _)).
    cbn [docs_of db]. rewrite filter_none.
    - eexists. split; reflexivity.
    - intros d Hd. destruct (doc_matches _ d) eqn:E; [|reflexivity].
      apply doc_matches_two in E; auto. exfalso. exact (Hnone d Hd E). }
  unfold insert_event. unfold bind at 1. cbn [get_world].
  rewrite (bind_raise _ _ _ _ _ Hrun). eauto.
Qed.

Lemma existsb_none {A : Type} (p : A -> bool) (l : list A) :
  (forall x, In x l -> p x = false) -> existsb p l = false.
Proof.
  induction l as [|x l IH]; intros H; simpl; [reflexivity|].
  rewrite (H x) by now left. apply IH. intros y Hy. apply H. now right.
Qed.

Lemma truthy_filter (p : dict -> bool) (l : list dict) (x : dict) :
  In x l -> p x = true -> truthy (filter p l) = true.
Proof.
  intros Hin Hp. assert (In x (filter p l)) as H by (apply filter_In; auto).
  now destruct (filter p l).
Qed.

(** X6: when a header has the given [header_id] and no configuration has
    the given identifier yet, [save_beamline_config] returns the record
    with the caller's identifier, the header's and the parameters, adds it
    after the configurations there were without drawing an identifier from
    the store, and [find_beamline_config] returns it last for that header;
    the other collections are untouched. *)
Theorem save_beamline_config_with_header (beamline_cfg_id header_id : value)
  (config_params : option dict) (H : dict) (w : world) :
  plain header_id = true ->
  plain beamline_cfg_id = true ->
  In H (Header_docs (db w)) ->
  dict_get "_id" H = Some header_id ->
  (forall c, In c (BeamlineConfig_docs (db w)) -> dict_get "_id" c <> Some beamline_cfg_id) ->
  exists w',
    let beamline_cfg := [("_id", beamline_cfg_id); ("header_id", header_id);
                         ("config_params", VDict (default [] config_params))] in
    save_beamline_config beamline_cfg_id header_id config_params w = (Ok beamline_cfg, w')
    /\ BeamlineConfig_docs (db w') = BeamlineConfig_docs (db w) ++ [beamline_cfg]
    /\ Header_docs (db w') = Header_docs (db w)
    /\ EventDescriptor_docs (db w') = EventDescriptor_docs (db w)
    /\ Event_docs (db w') = Event_docs (db w)
    /\ next_oid (db w') = next_oid (db w)
    /\ fst (find_beamline_config header_id (Some []) w') =
         Ok (filter (doc_matches [("header_id", header_id)]) (BeamlineConfig_docs (db w))
               ++ [beamline_cfg],
             [("header_id", header_id)]).
Proof.
  intros Hp Hpc Hin Hid Hnew.
  unfold save_beamline_config, get_header_object, objects.
  rewrite (bind_ok _ _ _ _ _
             (bind_ok _ _ _ _ _ (coll_find_run Header [("_id", header_id)] w))).
  cbn [docs_of].
  rewrite (truthy_filter _ _ H Hin) by now apply doc_matches_field.
  unfold BeamlineConfig_save, coll_save, bind, get_world. cbn.
  rewrite existsb_none by (intros c Hc; apply doc_matches_field_false; auto).
  unfold coll_insert, bind, get_world, put_db, ret. cbn.
  eexists. split; [reflexivity|].
  repeat (split; [reflexivity|]).
  unfold find_beamline_config, bind, get_world, coll_find, log_query, ret, default. cbn.
  rewrite filter_app_last; [reflexivity|].
  apply doc_matches_field; [assumption | reflexivity].
Qed.

(** X7: on an identifier that no header has, both header updates index
    the empty list of fetched records: they raise an IndexError and write
    nothing. *)
Theorem header_updates_without_header (header_id end_time status : value) (w : world) :
  plain header_id = true ->
  (forall h, In h (Header_docs (db w)) -> dict_get "_id" h <> Some header_id) ->
  (exists w',
      update_header_end_time header_id end_time w =
        (Raise (IndexError "list index out of range"), w')
      /\ db w' = db w) /\
  (exists w',
      update_header_status header_id status w =
        (Raise (IndexError "list index out of range"), w')
      /\ db w' = db w).
Proof.
  intros Hp Hnone.
  assert (filter (doc_matches [("_id", header_id)]) (Header_docs (db w)) = []) as Hfil
    by (apply filter_none; intros h Hh; apply doc_matches_field_false; auto).
  unfold update_header_end_time, update_header_status.
  rewrite !(bind_ok _ _ _ _ _ (coll_find_run Header [("_id", header_id)] w)).
  cbn [docs_of]. rewrite Hfil.
  split; eexists; split; reflexivity.
Qed.

Lemma update_field_run (field : string) (header_id v : value) (H : dict)
  (pre post : list dict) (w : world) :
  plain header_id = true ->
  Header_docs (db w) = pre ++ H :: post ->
  dict_get "_id" H = Some header_id ->
  (forall h, In h pre -> dict_get "_id" h <> Some header_id) ->
  (result <- coll_find Header [("_id", header_id)];;
   entry0 <- list_getitem result 0;;
   coll_update Header [("_id", header_id)] (dict_set field v entry0)) w =
  (Ok tt,
   mkWorld
     (mkStore (pre ++ dict_set field v H :: post) (EventDescriptor_docs (db w))
        (Event_docs (db w)) (BeamlineConfig_docs (db w)) (next_oid (db w)))
     (proc w) (mdl w) (queries w ++ [(Header, [("_id", header_id)])])).
Proof.
  intros Hp Hdocs Hid Hpre.
  assert (forall h, In h pre -> doc_matches [("_id", header_id)] h = false) as Hpre'
    by (intros h Hh; apply doc_matches_field_false; auto).
  assert (doc_matches [("_id", header_id)] H = true) as HH
    by now apply doc_matches_field.
  rewrite (bind_ok _ _ _ _ _ (coll_find_run Header [("_id", header_id)] w)).
  cbn [docs_of]. rewrite Hdocs, filter_app, (filter_none _ pre Hpre'). cbn [filter app].
  rewrite HH. unfold list_getitem. cbn [nth_error].
  unfold bind, ret, coll_update, get_world, put_db. cbn.
  now rewrite Hdocs, (replace_first_app _ _ _ _ _ Hpre' HH).
Qed.

Lemma find_current_run (hid : value) (o : option string) (st bid et : value)
  (data : bool) (h : dict) (rest : list dict) (w : world) :
  store_ok (db w) = true ->
  module_ok (mdl w) = true ->
  cursor_sort_desc "end_time" (Header_docs (db w)) = h :: rest ->
  exists w',
    find hid (VStr "current") o st bid et data w = (Ok (attached (db w) data h), w')
    /\ frame w w'.
Proof.
  intros Hs Hm Hsort.
  assert (In h (Header_docs (db w))) as Hin.
  { eapply Permutation_in; [apply Permutation_sym, (cursor_sort_desc_perm "end_time")|].
    rewrite Hsort. now left. }
  set (w1 := mkWorld (db w) (proc w) (mdl w) (queries w ++ [(Header, [])])).
  destruct (sentinel_tail_run data h w1 Hs Hm (header_has_id _ _ Hs Hin))
    as (w2 & Hrun & Hf2).
  exists w2. split.
  - unfold find. cbn [is_str String.eqb Ascii.eqb Bool.eqb].
    rewrite (bind_ok _ _ _ _ _ (coll_find_run Header [] w)).
    cbn [docs_of]. rewrite filter_all, Hsort.
    unfold cursor_limit, cursor_getitem at 1. cbn [firstn nth_error].
    unfold bind at 1. cbn [ret]. exact Hrun.
  - eapply frame_trans; [|exact Hf2]. now apply coll_find_frame.
Qed.

(** X8: after [update_header_end_time] has given a header an end_time
    later than that of every other header, [find(scan_id="current")]
    returns that header, with the new end_time and its descriptors
    attached. *)
Theorem updated_header_becomes_current (k : N) (t : Z) (H : dict) (pre post : list dict)
  (data : bool) (w : world) :
  store_ok (db w) = true ->
  module_ok (mdl w) = true ->
  Header_docs (db w) = pre ++ H :: post ->
  dict_get "_id" H = Some (VOid k) ->
  (forall h, In h pre -> dict_get "_id" h <> Some (VOid k)) ->
  (forall h, In h (pre ++ post) ->
             exists t', dict_get "end_time" h = Some (VTime t') /\ (t' < t)%Z) ->
  exists w1 result w2,
    update_header_end_time (VOid k) (VTime t) w = (Ok tt, w1)
    /\ find VNone (VStr "current") None VNone VNone VNone data w1 = (Ok result, w2)
    /\ dict_get "_id" result = Some (VOid k)
    /\ dict_get "end_time" result = Some (VTime t)
    /\ descriptors_attached (db w1) data (dict_set "end_time" (VTime t) H) result.
Proof.
  intros Hs Hm Hdocs Hid Hpre Hothers.
  set (H' := dict_set "end_time" (VTime t) H).
  pose proof (update_field_run "end_time" (VOid k) (VTime t) H pre post w eq_refl
                Hdocs Hid Hpre) as Hupd.
  fold H' in Hupd.
  set (w1 := mkWorld _ _ _ _) in Hupd.
  destruct (preserves_update_header_end_time (VOid k) (VTime t) w Hs Hm) as [Hs1 Hm1].
  unfold update_header_end_time in Hs1, Hm1. rewrite Hupd in Hs1, Hm1. cbn [snd] in Hs1, Hm1.
  assert (0 < List.length (Header_docs (db w1))) as Hlen.
  { unfold w1. cbn. rewrite length_app. cbn. lia. }
  destruct (sorted_first "end_time" _ Hlen) as (h & rest & Hsort & Hperm & Hmax).
  destruct (find_current_run VNone None VNone VNone VNone data h rest w1 Hs1 Hm1 Hsort)
    as (w2 & Hrun & _).
  assert (dict_get "end_time" H' = Some (VTime t)) as Hend by apply dict_get_set_same.
  assert (h = H') as ->.
  { assert (In h (Header_docs (db w1))) as Hin
      by (eapply Permutation_in; [apply Permutation_sym, Hperm | now left]).
    assert (In H' (h :: rest)) as Hin'
      by (apply (Permutation_in _ Hperm); unfold w1; cbn; apply in_or_app; right; now left).
    destruct Hin' as [E|Hrest]; [exact E|].
    unfold w1 in Hin. cbn in Hin. apply in_app_or in Hin.
    assert (In h (pre ++ post) \/ h = H') as [Hother|E]
      by (destruct Hin as [Hin|[E|Hin]]; [left|right|left]; auto; apply in_or_app; auto).
    - destruct (Hothers h Hother) as (t' & Ht' & Hlt).
      rewrite Forall_forall in Hmax. specialize (Hmax _ Hrest).
      pose proof (field_le_time "end_time" h H' t' t Ht' Hend Hmax). lia.
    - exact E. }
  exists w1, (attached (db w1) data H'), w2.
  split; [exact Hupd|]. split; [exact Hrun|].
  pose proof (attached_descriptors (db w1) data H') as Hatt.
  split; [|split; [|exact Hatt]].
  - rewrite (proj2 Hatt) by (apply field_not_slot; simpl; tauto).
    unfold H'. rewrite dict_get_set_other by discriminate. exact Hid.
  - rewrite (proj2 Hatt) by (apply field_not_slot; simpl; tauto). exact Hend.
Qed.

(* ================================================================== *)
(** ** The validator and the decoders *)

Lemma validate_time_loop_valid (l : list value) (w : world) :
  forallb is_datetime l = true -> validate_time_loop l (Some true) w = (Ok true, w).
Proof.
  induction l as [|x l IH]; [reflexivity|].
  cbn [forallb validate_time_loop]. destruct (is_datetime x); [exact IH | discriminate].
Qed.

Lemma validate_time_loop_invalid (l : list value) (w : world) :
  forall flag,
    forallb is_datetime l = false ->
    validate_time_loop l flag w = (Raise (TypeError "Date must be datetime object"), w).
Proof.
  induction l as [|x l IH]; intros flag; [discriminate|].
  cbn [forallb validate_time_loop]. destruct (is_datetime x); [apply IH | reflexivity].
Qed.

(** X9: [__validate_time] never returns False: on a list of datetimes it
    returns True, at the first entry that is no datetime it raises the
    TypeError, and on the empty list its [flag] is unbound. *)
Theorem validate_time_true_or_raises (time_entry_list : list value) (w : world) :
  (time_entry_list = [] ->
   __validate_time time_entry_list w = (Raise (UnboundLocalError "flag"), w)) /\
  (time_entry_list <> [] -> forallb is_datetime time_entry_list = true ->
   __validate_time time_entry_list w = (Ok true, w)) /\
  (forallb is_datetime time_entry_list = false ->
   __validate_time time_entry_list w = (Raise (TypeError "Date must be datetime object"), w)) /\
  (forall flag, fst (__validate_time time_entry_list w) = Ok flag -> flag = true).
Proof.
  unfold __validate_time. split; [|split; [|split]].
  - now intros ->.
  - destruct time_entry_list as [|x l]; [congruence|]. intros _.
    cbn [forallb validate_time_loop]. destruct (is_datetime x); [|discriminate].
    apply validate_time_loop_valid.
  - apply validate_time_loop_invalid.
  - intros flag. destruct (forallb is_datetime time_entry_list) eqn:E.
    + destruct time_entry_list as [|x l]; [discriminate|].
      cbn [forallb validate_time_loop] in *. destruct (is_datetime x); [|discriminate].
      rewrite validate_time_loop_valid by assumption. cbn. congruence.
    + rewrite validate_time_loop_invalid by assumption. discriminate.
Qed.

Lemma dict_set_fresh (k : string) (v : value) (d : dict) :
  dict_get k d = None -> dict_set k v d = d ++ [(k, v)].
Proof.
  induction d as [|[k' v'] d IH]; simpl; [reflexivity|].
  destruct (String.eqb k k'); [discriminate|]. intros H. now rewrite IH.
Qed.

Lemma dict_get_app_last (k k' : string) (v : value) (d : dict) :
  dict_get k d = None -> k <> k' -> dict_get k (d ++ [(k', v)]) = None.
Proof.
  intros Hd Hne. induction d as [|[k0 v0] d IH]; simpl in *.
  - destruct (String.eqb_spec k k'); [contradiction | reflexivity].
  - destruct (String.eqb k k0); [discriminate | auto].
Qed.

Lemma event_key_inj (i j : nat) : event_key i = event_key j -> i = j.
Proof.
  unfold event_key. simpl. intros H. apply str_nat_inj. congruence.
Qed.

Lemma decode_loop_appends (cursor : list dict) :
  forall (i : nat) (events : dict),
    (forall j, i <= j -> dict_get (event_key j) events = None) ->
    dict_keys (decode_loop cursor i events) =
      dict_keys events ++ map event_key (seq i (List.length cursor)) /\
    map snd (decode_loop cursor i events) = map snd events ++ map VDict cursor.
Proof.
  induction cursor as [|x rest IH]; intros i events Hfresh.
  - cbn. now rewrite !app_nil_r.
  - cbn [decode_loop List.length seq map]. fold (event_key i).
    rewrite (dict_set_fresh _ _ _ (Hfresh i (le_n i))).
    destruct (IH (S i) (events ++ [(event_key i, VDict x)])) as [Hk Hv].
    + intros j Hj. apply dict_get_app_last; [apply Hfresh; lia|].
      intros E. apply event_key_inj in E. lia.
    + rewrite Hk, Hv. unfold dict_keys. rewrite !map_app, <- !app_assoc. now split.
Qed.

(** X10: [__decode_cursor] loses nothing and keeps the order: the keys of
    the mapping are [event_0], [event_1], ... up to the number of records,
    in this order, and the values are the records of the cursor in its
    order. *)
Theorem decode_cursor_keeps_all_in_order (cursor_object : list dict) :
  dict_keys (__decode_cursor cursor_object) =
    map event_key (seq 0 (List.length cursor_object)) /\
  map snd (__decode_cursor cursor_object) = map VDict cursor_object /\
  List.length (__decode_cursor cursor_object) = List.length cursor_object.
Proof.
  destruct (decode_loop_appends cursor_object 0 []) as [Hk Hv]; [reflexivity|].
  fold (__decode_cursor cursor_object) in Hk, Hv. cbn [dict_keys map app] in Hk, Hv.
  split; [exact Hk|]. split; [exact Hv|].
  rewrite <- (length_map snd), Hv. apply length_map.
Qed.

(* ================================================================== *)
(** ** More of the general mode *)

Lemma plain_or_None_plain (v : value) :
  plain_or_None v = true -> is_None v = false -> plain v = true.
Proof. unfold plain_or_None. intros H E. now rewrite E in H. Qed.

Lemma exact_criteria_match (hid sid bid : value) (h : dict) :
  plain_or_None hid = true -> plain_or_None sid = true -> plain_or_None bid = true ->
  let q0 := if negb (is_None hid) then dict_set "_id" hid [] else [] in
  let q1 := if negb (is_None sid) then dict_set "scan_id" sid q0 else q0 in
  let q2 := if negb (is_None bid) then dict_set "beamline_id" bid q1 else q1 in
  doc_matches q2 h = true <->
  meets "_id" hid h /\ meets "scan_id" sid h /\ meets "beamline_id" bid h.
Proof.
  intros H1 H2 H3. cbv zeta. unfold meets.
  pose proof (plain_or_None_plain _ H1) as P1.
  pose proof (plain_or_None_plain _ H2) as P2.
  pose proof (plain_or_None_plain _ H3) as P3.
  destruct (is_None hid), (is_None sid), (is_None bid);
    cbn [negb dict_set String.eqb Ascii.eqb Bool.eqb];
    unfold doc_matches; cbn [forallb fst snd];
    rewrite ?andb_true_iff, ?criterion_plain by auto;
    intuition discriminate.
Qed.

(** X11: the exact-match arguments of [find] intersect: called with any of
    [header_id], [scan_id] and [beamline_id], it returns the headers that
    hold every value given, and only them; with none of them, every
    header. *)
Theorem find_exact_criteria_intersect (hid sid bid : value) (data : bool) (w : world) :
  store_ok (db w) = true ->
  module_ok (mdl w) = true ->
  plain_or_None hid = true -> plain_or_None sid = true -> plain_or_None bid = true ->
  is_str sid "current" = false ->
  is_str sid "last" = false ->
  exists result w',
    find hid sid None VNone bid VNone data w = (Ok result, w')
    /\ db w' = db w
    /\ holds_exactly (db w) data
         (fun h => meets "_id" hid h /\ meets "scan_id" sid h /\ meets "beamline_id" bid h)
         result.
Proof.
  intros Hs Hm H1 H2 H3 Hc Hl.
  destruct (find_general_run hid sid None VNone bid VNone data w
              (let q0 := if negb (is_None hid) then dict_set "_id" hid [] else [] in
               let q1 := if negb (is_None sid) then dict_set "scan_id" sid q0 else q0 in
               if negb (is_None bid) then dict_set "beamline_id" bid q1 else q1))
    as (w' & Hrun & Hf & _); auto.
  do 2 eexists. split; [exact Hrun|]. split; [now apply frame_db|].
  apply general_result_exact. intros h _. now apply exact_criteria_match.
Qed.

Lemma validate_each_valid (l : list value) (w : world) :
  forallb is_datetime l = true -> validate_each l w = (Ok tt, w).
Proof.
  induction l as [|x l IH]; [reflexivity|].
  cbn [forallb validate_each]. unfold __validate_time, bind. cbn [validate_time_loop].
  destruct (is_datetime x); [|discriminate]. cbn. exact IH.
Qed.

Lemma in_matches (field : string) (l : list value) (h : dict) :
  forallb is_datetime l = true ->
  (doc_matches [(field, VDict [("$in", VList l)])] h = true <->
   exists t, dict_get field h = Some (VTime t) /\ In (VTime t) l).
Proof.
  intros Hl. unfold doc_matches. cbn [forallb fst snd criterion_holds is_operator].
  unfold op_holds. cbn [String.eqb Ascii.eqb Bool.eqb andb].
  rewrite !andb_true_r, existsb_exists. rewrite forallb_forall in Hl.
  split.
  - intros (v & Hin & Heq). specialize (Hl v Hin).
    destruct v; try discriminate.
    apply value_eqb_plain in Heq; [|reflexivity].
    destruct (dict_get field h); cbn in Heq; [|discriminate].
    subst. eauto.
  - intros (t & -> & Hin). exists (VTime t). split; [exact Hin|].
    cbn. apply Z.eqb_refl.
Qed.

(** X12: with a list of timestamps, [find(start_time=list)] returns the
    headers whose start_time is one of them, and only them, and
    [find(end_time=list)] those whose end_time is one of them. *)
Theorem find_time_list_is_membership (l : list value) (data : bool) (w : world) :
  store_ok (db w) = true ->
  module_ok (mdl w) = true ->
  forallb is_datetime l = true ->
  (exists result w',
      find VNone VNone None (VList l) VNone VNone data w = (Ok result, w')
      /\ db w' = db w
      /\ holds_exactly (db w) data
           (fun h => exists t, dict_get "start_time" h = Some (VTime t) /\ In (VTime t) l)
           result) /\
  (exists result w',
      find VNone VNone None VNone VNone (VList l) data w = (Ok result, w')
      /\ db w' = db w
      /\ holds_exactly (db w) data
           (fun h => exists t, dict_get "end_time" h = Some (VTime t) /\ In (VTime t) l)
           result).
Proof.
  intros Hs Hm Hl. split.
  - destruct (find_general_run VNone VNone None (VList l) VNone VNone data w
                [("start_time", VDict [("$in", VList l)])])
      as (w' & Hrun & Hf & _); auto.
    { unfold general_filter, start_time_criterion, end_time_criterion, bind. cbn.
      now rewrite validate_each_valid. }
    do 2 eexists. split; [exact Hrun|]. split; [now apply frame_db|].
    apply general_result_exact. intros h _. now apply in_matches.
  - destruct (find_general_run VNone VNone None VNone VNone (VList l) data w
                [("end_time", VDict [("$in", VList l)])])
      as (w' & Hrun & Hf & _); auto.
    { unfold general_filter, start_time_criterion, end_time_criterion, bind. cbn.
      now rewrite validate_each_valid. }
    do 2 eexists. split; [exact Hrun|]. split; [now apply frame_db|].
    apply general_result_exact. intros h _. now apply in_matches.
Qed.

(** X13: with a single timestamp [T], [find(start_time=T)] returns the
    headers whose start_time is at or after [T] and before the clock of
    the call, and only them, and [find(end_time=T)] does the same on
    end_time: the upper bound moves with the time of the call. *)
Theorem find_time_scalar_is_since (T : Z) (data : bool) (w : world) :
  store_ok (db w) = true ->
  module_ok (mdl w) = true ->
  (exists result w',
      find VNone VNone None (VTime T) VNone VNone data w = (Ok result, w')
      /\ db w' = db w
      /\ holds_exactly (db w) data
           (fun h => exists t, dict_get "start_time" h = Some (VTime t) /\
                               (T <= t < utcnow (proc w))%Z)
           result) /\
  (exists result w',
      find VNone VNone None VNone VNone (VTime T) data w = (Ok result, w')
      /\ db w' = db w
      /\ holds_exactly (db w) data
           (fun h => exists t, dict_get "end_time" h = Some (VTime t) /\
                               (T <= t < utcnow (proc w))%Z)
           result).
Proof.
  intros Hs Hm. split.
  - destruct (find_general_run VNone VNone None (VTime T) VNone VNone data w
                [("start_time", VDict [("$gte", VTime T); ("$lt", VTime (utcnow (proc w)))])])
      as (w' & Hrun & Hf & _); auto.
    do 2 eexists. split; [exact Hrun|]. split; [now apply frame_db|].
    apply general_result_exact. intros h _. apply range_matches.
  - destruct (find_general_run VNone VNone None VNone VNone (VTime T) data w
                [("end_time", VDict [("$gte", VTime T); ("$lt", VTime (utcnow (proc w)))])])
      as (w' & Hrun & Hf & _); auto.
    do 2 eexists. split; [exact Hrun|]. split; [now apply frame_db|].
    apply general_result_exact. intros h _. apply range_matches.
Qed.

(** X14: a time mapping without a [start] or without an [end] entry makes
    [find] raise the KeyError of the missing key, for start_time and for
    end_time alike, before any filter is handed to the store. *)
Theorem find_time_mapping_missing_key (hid sid bid : value) (d : dict) (data : bool)
  (w : world) :
  is_str sid "current" = false ->
  is_str sid "last" = false ->
  (dict_get "start" d = None ->
   forall et, find hid sid None (VDict d) bid et data w = (Raise (KeyError "start"), w)) /\
  (forall a, dict_get "start" d = Some a -> dict_get "end" d = None ->
   forall et, find hid sid None (VDict d) bid et data w = (Raise (KeyError "end"), w)) /\
  (dict_get "start" d = None ->
   find hid sid None VNone bid (VDict d) data w = (Raise (KeyError "start"), w)) /\
  (forall a, dict_get "start" d = Some a -> dict_get "end" d = None ->
   find hid sid None VNone bid (VDict d) data w = (Raise (KeyError "end"), w)).
Proof.
  intros Hc Hl.
  split; [|split; [|split]]; intros; apply find_filter_error; auto;
    unfold general_filter, start_time_criterion, end_time_criterion, bind, getitem;
    cbn [ret negb is_None];
    repeat match goal with H : dict_get _ d = _ |- _ => rewrite H end; reflexivity.
Qed.

(** X15: with no header in the store, [find(scan_id="current")] indexes
    an empty cursor: it raises an IndexError, whatever the other
    arguments, and writes nothing. *)
Theorem find_current_on_empty_store (hid : value) (o : option string) (st bid et : value)
  (data : bool) (w : world) :
  Header_docs (db w) = [] ->
  exists w',
    find hid (VStr "current") o st bid et data w =
      (Raise (IndexError "no such item for Cursor instance"), w')
    /\ db w' = db w /\ mdl w' = mdl w.
Proof.
  intros Hempty. unfold find. cbn [is_str String.eqb Ascii.eqb Bool.eqb].
  rewrite (bind_ok _ _ _ _ _ (coll_find_run Header [] w)).
  cbn [docs_of]. rewrite Hempty. cbn.
  eexists. repeat split; reflexivity.
Qed.

(* ================================================================== *)
(** ** What find and its helpers leave alone *)

Lemma writes_nothing_ret {A : Type} (a : A) : writes_nothing (ret a).
Proof. intros w. repeat split. Qed.

Lemma writes_nothing_raise {A : Type} (e : exn) : writes_nothing (@raise A e).
Proof. intros w. repeat split. Qed.

Lemma writes_nothing_bind {A B : Type} (c : M A) (k : A -> M B) :
  writes_nothing c -> (forall a, writes_nothing (k a)) -> writes_nothing (bind c k).
Proof.
  intros Hc Hk w. unfold bind. specialize (Hc w).
  destruct (c w) as [[a|e] w1]; cbn [snd] in *; [|exact Hc].
  destruct Hc as (H1 & H2 & H3 & H4 & H5 & H6).
  destruct (Hk a w1) as (K1 & K2 & K3 & K4 & K5 & K6).
  repeat split; congruence.
Qed.

Lemma asks_only_writes_nothing {A : Type} (c : M A) : asks_only c -> writes_nothing c.
Proof.
  intros Hc w. destruct (Hc w) as (H1 & H2 & H3). rewrite H3. repeat split; assumption.
Qed.

Lemma reads_only_writes_nothing {A : Type} (c : M A) : reads_only c -> writes_nothing c.
Proof. intros Hc w. rewrite (Hc w). repeat split. Qed.

Lemma writes_nothing_getitem (d : dict) (k : string) : writes_nothing (getitem d k).
Proof. apply reads_only_writes_nothing, reads_only_getitem. Qed.

Lemma writes_nothing_getitem_dict (d : dict) (k : string) : writes_nothing (getitem_dict d k).
Proof.
  unfold getitem_dict. apply writes_nothing_bind; [apply writes_nothing_getitem|].
  intros []; first [apply writes_nothing_ret | apply writes_nothing_raise].
Qed.

Lemma writes_nothing_setitem2 (d : dict) (k1 k2 : string) (v : value) :
  writes_nothing (setitem2 d k1 k2 v).
Proof.
  unfold setitem2. apply writes_nothing_bind; [apply writes_nothing_getitem_dict|].
  intros. apply writes_nothing_ret.
Qed.

Lemma writes_nothing_setitem3 (d : dict) (k1 k2 k3 : string) (v : value) :
  writes_nothing (setitem3 d k1 k2 k3 v).
Proof.
  unfold setitem3. apply writes_nothing_bind; [apply writes_nothing_getitem_dict|].
  intros. apply writes_nothing_bind; [apply writes_nothing_setitem2|].
  intros. apply writes_nothing_ret.
Qed.

Lemma writes_nothing_find_event (eid : value) (q : option dict) :
  writes_nothing (find_event eid q).
Proof. intros w. destruct q; repeat split. Qed.

Lemma writes_nothing_find_event_descriptor (hid : value) (q : option dict) :
  writes_nothing (find_event_descriptor hid q).
Proof. intros w. destruct q; repeat split. Qed.

Lemma writes_nothing_sentinel_descriptor_loop (data : bool) (event_desc : list dict) :
  forall i header, writes_nothing (sentinel_descriptor_loop data event_desc i header).
Proof.
  induction event_desc as [|e_d rest IH]; intros i header; cbn [sentinel_descriptor_loop].
  - apply writes_nothing_ret.
  - apply writes_nothing_bind; [apply writes_nothing_getitem|]. intros eid.
    apply writes_nothing_bind; [apply writes_nothing_find_event|]. intros [events d].
    destruct data; [|apply IH].
    apply writes_nothing_bind; [apply writes_nothing_setitem2 | intros; apply IH].
Qed.

Lemma writes_nothing_general_descriptor_loop (data : bool) (key : string)
  (event_desc : list dict) :
  forall i header, writes_nothing (general_descriptor_loop data event_desc i key header).
Proof.
  induction event_desc as [|e_d rest IH]; intros i header; cbn [general_descriptor_loop].
  - apply writes_nothing_ret.
  - apply writes_nothing_bind; [apply writes_nothing_setitem2|]. intros header1.
    destruct data; [|apply IH].
    apply writes_nothing_bind; [apply writes_nothing_getitem|]. intros eid.
    apply writes_nothing_bind; [apply writes_nothing_find_event|]. intros [events d].
    apply writes_nothing_bind; [apply writes_nothing_setitem3 | intros; apply IH].
Qed.

Lemma writes_nothing_general_header_loop (data : bool) (hdr_keys : list string) :
  forall header, writes_nothing (general_header_loop data hdr_keys header).
Proof.
  induction hdr_keys as [|key rest IH]; intros header; cbn [general_header_loop].
  - apply writes_nothing_ret.
  - apply writes_nothing_bind; [apply writes_nothing_getitem_dict|]. intros record.
    apply writes_nothing_bind; [apply writes_nothing_getitem|]. intros hid.
    apply writes_nothing_bind; [apply writes_nothing_find_event_descriptor|].
    intros [event_desc d].
    apply writes_nothing_bind; [apply writes_nothing_general_descriptor_loop | intros; apply IH].
Qed.

Lemma writes_nothing_decode_hdr_loop (cursor : list dict) :
  forall headers, writes_nothing (decode_hdr_loop cursor headers).
Proof.
  induction cursor as [|h rest IH]; intros headers; cbn [decode_hdr_loop].
  - apply writes_nothing_ret.
  - apply writes_nothing_bind; [apply writes_nothing_getitem|]. intros id.
    apply writes_nothing_bind; [|intros; apply IH].
    unfold str. destruct (py_str id); [apply writes_nothing_ret | apply writes_nothing_raise].
Qed.

Lemma writes_nothing_sentinel (data : bool) (n i : nat) :
  writes_nothing
    (found <- coll_find Header [];;
     header <- cursor_getitem (cursor_limit n (cursor_sort_desc "end_time" found)) i;;
     hid <- getitem header "_id";;
     ' (event_desc, _) <- find_event_descriptor hid None;;
     sentinel_descriptor_loop data event_desc 0 header).
Proof.
  apply writes_nothing_bind; [apply asks_only_writes_nothing, asks_only_coll_find|].
  intros found.
  apply writes_nothing_bind; [apply asks_only_writes_nothing, asks_only_cursor_getitem|].
  intros header.
  apply writes_nothing_bind; [apply writes_nothing_getitem|]. intros hid.
  apply writes_nothing_bind; [apply writes_nothing_find_event_descriptor|].
  intros [event_desc d]. apply writes_nothing_sentinel_descriptor_loop.
Qed.

(** X16: [find] writes to no collection, in any mode, with any arguments,
    in any world and whether it returns or raises; it leaves the process,
    the defaults of the writers and the default dict of
    [find_beamline_config] as they were. *)
Theorem find_writes_nothing (hid sid : value) (o : option string) (st bid et : value)
  (data : bool) (w : world) :
  let w' := snd (find hid sid o st bid et data w) in
  db w' = db w /\ proc w' = proc w /\
  save_header_header_owner (mdl w') = save_header_header_owner (mdl w) /\
  save_header_start_time (mdl w') = save_header_start_time (mdl w) /\
  insert_event_owner (mdl w') = insert_event_owner (mdl w) /\
  find_beamline_config_beamline_cfg_query_dict (mdl w') =
    find_beamline_config_beamline_cfg_query_dict (mdl w).
Proof.
  cbv zeta. revert w. change (writes_nothing (find hid sid o st bid et data)).
  unfold find.
  destruct (is_str sid "current"); [apply writes_nothing_sentinel|].
  destruct (is_str sid "last"); [apply writes_nothing_sentinel|].
  apply writes_nothing_bind;
    [apply reads_only_writes_nothing, reads_only_general_filter|]. intros q.
  apply writes_nothing_bind; [apply asks_only_writes_nothing, asks_only_coll_find|].
  intros cursor.
  apply writes_nothing_bind; [apply writes_nothing_decode_hdr_loop|]. intros header.
  apply writes_nothing_general_header_loop.
Qed.

Lemma NoDup_keys_In_get (k : string) (c : value) (d : dict) :
  NoDup (dict_keys d) -> In (k, c) d -> dict_get k d = Some c.
Proof.
  unfold dict_keys. induction d as [|[k' v'] d IH]; simpl; intros Hnd Hin; [contradiction|].
  inversion Hnd as [|x l Hnotin Hnd']; subst.
  destruct Hin as [E|Hin].
  - inversion E; subst. now rewrite String.eqb_refl.
  - destruct (String.eqb_spec k k') as [->|Hne]; [|auto].
    exfalso. apply Hnotin. apply in_map_iff. now exists (k', c).
Qed.

Lemma doc_matches_dict_set (k : string) (v : value) (d e : dict) :
  plain v = true ->
  NoDup (dict_keys d) ->
  (doc_matches (dict_set k v d) e = true <->
   dict_get k e = Some v /\
   forall k' c, k' <> k -> dict_get k' d = Some c -> criterion_holds c (dict_get k' e) = true).
Proof.
  intros Hp Hnd. unfold doc_matches. rewrite forallb_forall.
  pose proof (dict_keys_set_NoDup k v d Hnd) as Hnd'.
  split.
  - intros H. split.
    + apply (criterion_plain v _ Hp).
      apply (H (k, v)). apply dict_get_In, dict_get_set_same.
    + intros k' c Hne Hget. apply (H (k', c)).
      apply dict_get_In. now rewrite dict_get_set_other.
  - intros [Hk Hothers] [k' c] Hin. cbn [fst snd].
    apply (NoDup_keys_In_get _ _ _ Hnd') in Hin.
    destruct (String.eqb_spec k' k) as [->|Hne].
    + rewrite dict_get_set_same in Hin. injection Hin as <-.
      now apply (criterion_plain v _ Hp).
    + rewrite dict_get_set_other in Hin by assumption. now apply Hothers.
Qed.

(** X17: the identifier passed to a query helper overrides whatever the
    caller's dict says under the key of the helper: the cursor holds the
    records of the collection that carry this identifier and meet the
    other criteria of the dict, and only them. *)
Theorem query_helper_identifier_overrides (id : value) (d : dict) (w : world) :
  plain id = true ->
  NoDup (dict_keys d) ->
  (exists cursor d' w',
      find_event id (Some d) w = (Ok (cursor, d'), w') /\
      forall e, In e cursor <->
                In e (Event_docs (db w)) /\
                dict_get "event_descriptor_id" e = Some id /\
                forall k c, k <> "event_descriptor_id" -> dict_get k d = Some c ->
                            criterion_holds c (dict_get k e) = true) /\
  (exists cursor d' w',
      find_event_descriptor id (Some d) w = (Ok (cursor, d'), w') /\
      forall e, In e cursor <->
                In e (EventDescriptor_docs (db w)) /\
                dict_get "header_id" e = Some id /\
                forall k c, k <> "header_id" -> dict_get k d = Some c ->
                            criterion_holds c (dict_get k e) = true) /\
  (exists cursor d' w',
      find_beamline_config id (Some d) w = (Ok (cursor, d'), w') /\
      forall e, In e cursor <->
                In e (BeamlineConfig_docs (db w)) /\
                dict_get "header_id" e = Some id /\
                forall k c, k <> "header_id" -> dict_get k d = Some c ->
                            criterion_holds c (dict_get k e) = true).
Proof.
  intros Hp Hnd.
  unfold find_event, find_event_descriptor, find_beamline_config, bind, get_world,
    coll_find, log_query, ret, default.
  cbn [db docs_of].
  split; [|split]; do 3 eexists; (split; [reflexivity|]);
    intros e; rewrite filter_In, (doc_matches_dict_set _ _ _ _ Hp Hnd); tauto.
Qed.

(** X18: the writers, the header updates and [find] keep the worlds well
    formed: after any of them, whatever its outcome, every header,
    descriptor and event still carries an identifier the store handed out,
    every configuration its identifier, and the default dicts of the
    query helpers hold at most their own key. *)
Theorem commands_keep_worlds_well_formed :
  (forall scan_id header_owner start_time beamline_id status custom,
      preserves (save_header scan_id header_owner start_time beamline_id status custom)) /\
  (forall scan_id event_type_id event_type_name type_descriptor tag,
      preserves (insert_event_descriptor scan_id event_type_id event_type_name
                   type_descriptor tag)) /\
  (forall scan_id descriptor_name description owner seq_no data,
      preserves (insert_event scan_id descriptor_name description owner seq_no data)) /\
  (forall beamline_cfg_id header_id config_params,
      preserves (save_beamline_config beamline_cfg_id header_id config_params)) /\
  (forall header_id end_time, preserves (update_header_end_time header_id end_time)) /\
  (forall header_id status, preserves (update_header_status header_id status)) /\
  (forall hid sid o st bid et data, preserves (find hid sid o st bid et data)).
Proof.
  split; [|split; [|split; [|split; [|split; [|split]]]]]; intros.
  - apply preserves_save_header.
  - apply preserves_insert_event_descriptor.
  - apply preserves_insert_event.
  - apply preserves_save_beamline_config.
  - apply preserves_update_header_end_time.
  - apply preserves_update_header_status.
  - apply preserves_find.
Qed.

End Commands.

(* ================================================================== *)
(** ** The commands on the sample world *)

#[local] Existing Instance SmallRegex.engine.

(** The sample store is what the writers build. *)
Example sample_store_built :
  let w0 := mkWorld empty_store (mkProcess 1000 "arkilic")
              (import_module (mkProcess 1000 "arkilic")) [] in
  let w1 := snd (save_header (VInt 1) None None None None None w0) in
  let w2 := snd (save_header (VInt 2) (Some "Clark") (Some 2000%Z) (Some "csx") None None w1) in
  let w3 := snd (insert_event_descriptor (VInt 2) (VInt 0) (Some "scan") None None w2) in
  let w4 := snd (insert_event (VInt 2) (VStr "scan") None None (Some 1%Z)
                   (Some [("x", VInt 5)]) w3) in
  let w5 := snd (insert_event (VInt 2) (VStr "scan") None None (Some 2%Z)
                   (Some [("x", VInt 6)]) w4) in
  let w6 := snd (save_header (VInt 3) (Some "bob") (Some 1500%Z) None None None w5) in
  db w6 = sample_store.
Proof. reflexivity. Qed.

Example find_owner_arkilic :
  fst (find VNone VNone (Some "arkilic") VNone VNone VNone false sample_world) =
  Ok [("header_000000000000000000000000", VDict run_1)].
Proof. reflexivity. Qed.

(** The pattern is searched for, not anchored: [ark*] is found in "Clark". *)
Example find_owner_ark_star :
  fst (find VNone VNone (Some "ark*") VNone VNone VNone false sample_world) =
  Ok [("header_000000000000000000000000", VDict run_1);
      ("header_000000000000000000000001",
       VDict (run_2 ++ [("event_descriptor_0", VDict scan_descriptor)]))].
Proof. reflexivity. Qed.

Example find_owner_bad_pattern :
  find VNone VNone (Some "*") VNone VNone VNone false sample_world =
  (Raise (ReError "*"), sample_world).
Proof. reflexivity. Qed.

Example find_start_time_range :
  fst (find VNone VNone None (VDict [("start", VTime 1000); ("end", VTime 2000)])
         VNone VNone false sample_world) =
  Ok [("header_000000000000000000000000", VDict run_1);
      ("header_000000000000000000000005", VDict run_3)].
Proof. reflexivity. Qed.

Example find_current_with_data :
  fst (find VNone (VStr "current") None VNone VNone VNone true sample_world) =
  Ok (run_2 ++
      [("event_descriptor_0",
        VDict (scan_descriptor ++
               [("events", VDict [("event_0", VDict (scan_event 3 1 5));
                                  ("event_1", VDict (scan_event 4 2 6))])]))]).
Proof. reflexivity. Qed.

Example find_last_example :
  fst (find VNone (VStr "last") None VNone VNone VNone false sample_world) = Ok run_3.
Proof. reflexivity. Qed.

Example find_last_one_run :
  fst (find VNone (VStr "last") None VNone VNone VNone false one_run_world) =
  Raise (IndexError "no such item for Cursor instance").
Proof. reflexivity. Qed.

Example find_start_time_malformed_mapping :
  find VNone VNone None (VDict [("start", VStr "yesterday"); ("end", VTime 2000)])
    VNone VNone false sample_world =
  (Raise (TypeError "Date must be datetime object"), sample_world).
Proof. reflexivity. Qed.

Example find_end_time_malformed_mapping :
  fst (find VNone VNone None VNone VNone
         (VDict [("start", VStr "yesterday"); ("end", VTime 2000)]) false sample_world) =
  Ok [].
Proof. reflexivity. Qed.

(** Called by user bob at time 3000, with the defaults of the import. *)
Example insert_event_default_owner :
  fst (insert_event (VInt 2) (VStr "scan") None None None None sample_world) =
  Ok [("_id", VOid 6); ("event_descriptor_id", VOid 2); ("header_id", VOid 1);
      ("description", VNone); ("owner", VStr "arkilic"); ("seq_no", VNone);
      ("data", VDict [])].
Proof. reflexivity. Qed.

Example save_header_default_start_time :
  fst (save_header (VInt 4) None None None None None sample_world) =
  Ok [("_id", VOid 6); ("owner", VStr "arkilic"); ("start_time", VTime 1000);
      ("end_time", VTime 1000); ("beamline_id", VNone); ("scan_id", VInt 4);
      ("custom", VDict []); ("status", VStr "In Progress")].
Proof. reflexivity. Qed.

(* ================================================================== *)
(** ** The theorems at the sample world *)

Lemma find_end_time_not_validated_witness :
  (exists result w',
      find VNone VNone None VNone VNone
        (VDict [("start", VStr "yesterday"); ("end", VStr "today")]) false sample_world
        = (Ok result, w')
      /\ In (Header, [("end_time", VDict [("$gte", VStr "yesterday"); ("$lt", VStr "today")])])
           (queries w')) /\
  (exists result w',
      find VNone VNone None VNone VNone (VStr "yesterday") false sample_world = (Ok result, w')
      /\ In (Header, [("end_time", VDict [("$gte", VStr "yesterday"); ("$lt", VTime 3000)])])
           (queries w')).
Proof.
  apply (find_end_time_not_validated (VStr "yesterday") (VStr "today") (VStr "yesterday")
           [("start", VStr "yesterday"); ("end", VStr "today")] false sample_world);
    reflexivity.
Defined.

Lemma find_owner_exact_or_regex_witness :
  (forall hid sid st bid et q,
      fst (general_filter hid sid (Some "ark*") st bid et sample_world) = Ok q ->
      dict_get "owner" q = Some (expected_owner_criterion "ark*") /\
      forall h, doc_matches q h = true -> owner_matches "ark*" h) /\
  (exists result w',
      find VNone VNone (Some "ark*") VNone VNone VNone false sample_world = (Ok result, w')
      /\ db w' = db sample_world
      /\ In (Header, [("owner", expected_owner_criterion "ark*")]) (queries w')
      /\ holds_exactly (db sample_world) false (owner_matches "ark*") result).
Proof.
  apply (find_owner_exact_or_regex "ark*" false sample_world); reflexivity.
Defined.

Lemma find_time_range_is_half_open_witness :
  (exists result w',
      find VNone VNone None (VDict [("start", VTime 1000); ("end", VTime 2000)])
        VNone VNone true sample_world = (Ok result, w')
      /\ db w' = db sample_world
      /\ holds_exactly (db sample_world) true
           (fun h => exists t, dict_get "start_time" h = Some (VTime t) /\ (1000 <= t < 2000)%Z)
           result) /\
  (exists result w',
      find VNone VNone None VNone VNone (VDict [("start", VTime 1000); ("end", VTime 2000)])
        true sample_world = (Ok result, w')
      /\ db w' = db sample_world
      /\ holds_exactly (db sample_world) true
           (fun h => exists t, dict_get "end_time" h = Some (VTime t) /\ (1000 <= t < 2000)%Z)
           result).
Proof.
  apply (find_time_range_is_half_open 1000 2000
           [("start", VTime 1000); ("end", VTime 2000)] true sample_world); reflexivity.
Defined.

Lemma find_current_is_latest_header_witness :
  exists h rest result w',
    nth_error (cursor_limit 1 (cursor_sort_desc "end_time" (Header_docs (db sample_world)))) 0
      = Some h
    /\ Permutation (Header_docs (db sample_world)) (h :: rest)
    /\ Forall (fun h' => field_le "end_time" h' h) rest
    /\ (forall h' t t',
           In h' (Header_docs (db sample_world)) ->
           dict_get "end_time" h = Some (VTime t) ->
           dict_get "end_time" h' = Some (VTime t') -> (t' <= t)%Z)
    /\ find VNone (VStr "current") None VNone VNone VNone true sample_world = (Ok result, w')
    /\ db w' = db sample_world
    /\ descriptors_attached (db sample_world) true h result.
Proof.
  apply (find_current_is_latest_header VNone None VNone VNone VNone true sample_world);
    [reflexivity | reflexivity | simpl; lia].
Defined.

Lemma find_last_is_second_latest_header_witness :
  (2 <= List.length (Header_docs (db sample_world)) ->
   exists h0 h1 rest result w',
     nth_error (cursor_limit 5 (cursor_sort_desc "end_time" (Header_docs (db sample_world)))) 1
       = Some h1
     /\ Permutation (Header_docs (db sample_world)) (h0 :: h1 :: rest)
     /\ field_le "end_time" h1 h0
     /\ Forall (fun h' => field_le "end_time" h' h1) rest
     /\ find VNone (VStr "last") None VNone VNone VNone true sample_world = (Ok result, w')
     /\ db w' = db sample_world
     /\ descriptors_attached (db sample_world) true h1 result) /\
  (List.length (Header_docs (db sample_world)) < 2 ->
   exists w',
     find VNone (VStr "last") None VNone VNone VNone true sample_world =
       (Raise (IndexError "no such item for Cursor instance"), w')
     /\ db w' = db sample_world).
Proof.
  apply (find_last_is_second_latest_header VNone None VNone VNone VNone true sample_world);
    reflexivity.
Defined.

Lemma save_beamline_config_without_header_witness :
  exists w',
    save_beamline_config (VInt 7) (VOid 99) None sample_world =
      (Raise (ValueError "Header with given header_id cannot be located"), w')
    /\ db w' = db sample_world
    /\ BeamlineConfig_docs (db w') = BeamlineConfig_docs (db sample_world)
    /\ Header_docs (db w') = Header_docs (db sample_world)
    /\ EventDescriptor_docs (db w') = EventDescriptor_docs (db sample_world)
    /\ Event_docs (db w') = Event_docs (db sample_world).
Proof.
  apply (save_beamline_config_without_header (VInt 7) (VOid 99) None sample_world);
    [reflexivity|].
  simpl. intros h [<-|[<-|[<-|[]]]]; simpl; discriminate.
Defined.

Lemma save_header_find_round_trip_witness :
  exists header w1 key r w2,
    save_header (VInt 4) None (Some 2500%Z) (Some "csx") None (Some [("sample", VStr "Cu")])
      sample_world = (Ok header, w1)
    /\ find (doc_id header) VNone None VNone VNone VNone true w1 = (Ok [(key, VDict r)], w2)
    /\ (forall f, In f header_fields -> dict_get f r = dict_get f header)
    /\ dict_get "owner" r =
         Some (VStr (default (save_header_header_owner (mdl sample_world)) None))
    /\ dict_get "start_time" r =
         Some (VTime (default (save_header_start_time (mdl sample_world)) (Some 2500%Z)))
    /\ dict_get "end_time" r = dict_get "start_time" r
    /\ dict_get "beamline_id" r = Some (VStr "csx")
    /\ dict_get "scan_id" r = Some (VInt 4)
    /\ dict_get "custom" r = Some (VDict (default [] (Some [("sample", VStr "Cu")])))
    /\ dict_get "status" r = Some (VStr (default "In Progress" None)).
Proof.
  apply (save_header_find_round_trip (VInt 4) None (Some 2500%Z) (Some "csx") None
           (Some [("sample", VStr "Cu")]) true sample_world); reflexivity.
Defined.

Lemma header_updates_overwrite_one_field_witness :
  (exists w',
      update_header_end_time (VOid 1) (VTime 2600) sample_world = (Ok tt, w')
      /\ Header_docs (db w') = [run_1] ++ dict_set "end_time" (VTime 2600) run_2 :: [run_3]
      /\ EventDescriptor_docs (db w') = EventDescriptor_docs (db sample_world)
      /\ Event_docs (db w') = Event_docs (db sample_world)
      /\ BeamlineConfig_docs (db w') = BeamlineConfig_docs (db sample_world)) /\
  dict_get "end_time" (dict_set "end_time" (VTime 2600) run_2) = Some (VTime 2600) /\
  (forall k, k <> "end_time" ->
             dict_get k (dict_set "end_time" (VTime 2600) run_2) = dict_get k run_2) /\
  (exists w',
      update_header_status (VOid 1) (VStr "Complete") sample_world = (Ok tt, w')
      /\ Header_docs (db w') = [run_1] ++ dict_set "status" (VStr "Complete") run_2 :: [run_3]
      /\ EventDescriptor_docs (db w') = EventDescriptor_docs (db sample_world)
      /\ Event_docs (db w') = Event_docs (db sample_world)
      /\ BeamlineConfig_docs (db w') = BeamlineConfig_docs (db sample_world)) /\
  dict_get "status" (dict_set "status" (VStr "Complete") run_2) = Some (VStr "Complete") /\
  (forall k, k <> "status" ->
             dict_get k (dict_set "status" (VStr "Complete") run_2) = dict_get k run_2).
Proof.
  apply (header_updates_overwrite_one_field (VOid 1) (VTime 2600) (VStr "Complete") run_2 [run_1] [run_3]
           sample_world); try reflexivity.
  simpl. intros h [<-|[]]; simpl; discriminate.
Defined.

(* ------------------------------------------------------------------ *)
(** *** The lookup helpers, the writers and the other modes of find *)

Lemma get_header_id_first_match_witness :
  exists w', get_header_id (VInt 2) sample_world = (Ok (VOid 1), w')
             /\ db w' = db sample_world /\ mdl w' = mdl sample_world.
Proof.
  apply (get_header_id_first_match (VInt 2) (VOid 1) run_2 [run_1] [run_3] sample_world);
    try reflexivity.
  intros h [<-|[]]; simpl; discriminate.
Defined.

Lemma unknown_scan_id_is_rejected_witness :
  (exists w',
      get_header_id (VInt 9) sample_world =
        (Raise (Exception "header_id cannot be retrieved. Please validate scan_id"), w')
      /\ db w' = db sample_world) /\
  (exists w',
      insert_event_descriptor (VInt 9) (VInt 0) (Some "scan") None None sample_world =
        (Raise (Exception "header_id cannot be retrieved. Please validate scan_id"), w')
      /\ db w' = db sample_world).
Proof.
  apply (unknown_scan_id_is_rejected (VInt 9) (VInt 0) (Some "scan") None None sample_world);
    [reflexivity|].
  simpl. intros h [<-|[<-|[<-|[]]]]; simpl; discriminate.
Defined.

Lemma insert_event_descriptor_links_to_first_header_witness :
  exists e_d w',
    insert_event_descriptor (VInt 2) (VInt 1) (Some "dark") None None sample_world = (Ok e_d, w')
    /\ dict_get "header_id" e_d = Some (VOid 1)
    /\ dict_get "_id" e_d = Some (VOid (next_oid (db sample_world)))
    /\ dict_get "event_type_id" e_d = Some (VInt 1)
    /\ EventDescriptor_docs (db w') = EventDescriptor_docs (db sample_world) ++ [e_d]
    /\ Header_docs (db w') = Header_docs (db sample_world)
    /\ Event_docs (db w') = Event_docs (db sample_world)
    /\ fst (find_event_descriptor (VOid 1) (Some []) w') =
         Ok (descriptors_of (db sample_world) (VOid 1) ++ [e_d], [("header_id", VOid 1)]).
Proof.
  apply (insert_event_descriptor_links_to_first_header (VInt 2) (VInt 1) (VOid 1)
           (Some "dark") None None run_2 [run_1] [run_3] sample_world); try reflexivity.
  intros h [<-|[]]; simpl; discriminate.
Defined.

Lemma insert_event_links_to_first_descriptor_witness :
  exists event w',
    insert_event (VInt 2) (VStr "scan") None (Some "bob") (Some 3%Z) (Some [("x", VInt 7)])
      sample_world = (Ok event, w')
    /\ dict_get "event_descriptor_id" event = Some (VOid 2)
    /\ dict_get "header_id" event = Some (VOid 1)
    /\ dict_get "owner" event = Some (VStr "bob")
    /\ dict_get "data" event = Some (VDict (default [] (Some [("x", VInt 7)])))
    /\ Event_docs (db w') = Event_docs (db sample_world) ++ [event]
    /\ Header_docs (db w') = Header_docs (db sample_world)
    /\ EventDescriptor_docs (db w') = EventDescriptor_docs (db sample_world)
    /\ fst (find_event (VOid 2) (Some []) w') =
         Ok (events_of (db sample_world) (VOid 2) ++ [event],
             [("event_descriptor_id", VOid 2)]).
Proof.
  apply (insert_event_links_to_first_descriptor (VStr "scan") (VInt 2) (VOid 1) (VOid 2)
           None "bob" (Some 3%Z) (Some [("x", VInt 7)]) run_2 scan_descriptor
           [run_1] [run_3] [] [] sample_world); try reflexivity.
  - intros h [<-|[]]; simpl; discriminate.
  - intros d [].
Defined.

Lemma insert_event_without_descriptor_witness :
  exists w',
    insert_event (VInt 2) (VStr "dark") None None None None sample_world =
      (Raise (IndexError "no such item for Cursor instance"), w')
    /\ db w' = db sample_world.
Proof.
  apply (insert_event_without_descriptor (VStr "dark") (VInt 2) (VOid 1) None None None None
           run_2 [run_1] [run_3] sample_world); try reflexivity.
  - intros h [<-|[]]; simpl; discriminate.
  - simpl. intros d [<-|[]] [E _]. simpl in E. discriminate.
Defined.

Lemma save_beamline_config_with_header_witness :
  exists w',
    let beamline_cfg := [("_id", VInt 7); ("header_id", VOid 1);
                         ("config_params", VDict (default [] (Some [("slit", VInt 3)])))] in
    save_beamline_config (VInt 7) (VOid 1) (Some [("slit", VInt 3)]) sample_world =
      (Ok beamline_cfg, w')
    /\ BeamlineConfig_docs (db w') = BeamlineConfig_docs (db sample_world) ++ [beamline_cfg]
    /\ Header_docs (db w') = Header_docs (db sample_world)
    /\ EventDescriptor_docs (db w') = EventDescriptor_docs (db sample_world)
    /\ Event_docs (db w') = Event_docs (db sample_world)
    /\ next_oid (db w') = next_oid (db sample_world)
    /\ fst (find_beamline_config (VOid 1) (Some []) w') =
         Ok (filter (doc_matches [("header_id", VOid 1)])
               (BeamlineConfig_docs (db sample_world)) ++ [beamline_cfg],
             [("header_id", VOid 1)]).
Proof.
  apply (save_beamline_config_with_header (VInt 7) (VOid 1) (Some [("slit", VInt 3)]) run_2
           sample_world); try reflexivity.
  - simpl. right. now left.
  - simpl. intros c [].
Defined.

Lemma header_updates_without_header_witness :
  (exists w',
      update_header_end_time (VOid 99) (VTime 2600) sample_world =
        (Raise (IndexError "list index out of range"), w')
      /\ db w' = db sample_world) /\
  (exists w',
      update_header_status (VOid 99) (VStr "Complete") sample_world =
        (Raise (IndexError "list index out of range"), w')
      /\ db w' = db sample_world).
Proof.
  apply (header_updates_without_header (VOid 99) (VTime 2600) (VStr "Complete") sample_world);
    [reflexivity|].
  simpl. intros h [<-|[<-|[<-|[]]]]; simpl; discriminate.
Defined.

Lemma updated_header_becomes_current_witness :
  exists w1 result w2,
    update_header_end_time (VOid 0) (VTime 5000) sample_world = (Ok tt, w1)
    /\ find VNone (VStr "current") None VNone VNone VNone true w1 = (Ok result, w2)
    /\ dict_get "_id" result = Some (VOid 0)
    /\ dict_get "end_time" result = Some (VTime 5000)
    /\ descriptors_attached (db w1) true (dict_set "end_time" (VTime 5000) run_1) result.
Proof.
  apply (updated_header_becomes_current 0 5000 run_1 [] [run_2; run_3] true sample_world);
    try reflexivity.
  - intros h [].
  - simpl. intros h [<-|[<-|[]]]; eexists; (split; [reflexivity | lia]).
Defined.

Lemma find_exact_criteria_intersect_witness :
  exists result w',
    find VNone (VInt 2) None VNone (VStr "csx") VNone true sample_world = (Ok result, w')
    /\ db w' = db sample_world
    /\ holds_exactly (db sample_world) true
         (fun h => meets "_id" VNone h /\ meets "scan_id" (VInt 2) h /\
                   meets "beamline_id" (VStr "csx") h)
         result.
Proof.
  apply (find_exact_criteria_intersect VNone (VInt 2) (VStr "csx") true sample_world);
    reflexivity.
Defined.

Lemma find_time_list_is_membership_witness :
  (exists result w',
      find VNone VNone None (VList [VTime 1000; VTime 1500]) VNone VNone false sample_world
        = (Ok result, w')
      /\ db w' = db sample_world
      /\ holds_exactly (db sample_world) false
           (fun h => exists t, dict_get "start_time" h = Some (VTime t) /\
                               In (VTime t) [VTime 1000; VTime 1500])
           result) /\
  (exists result w',
      find VNone VNone None VNone VNone (VList [VTime 1000; VTime 1500]) false sample_world
        = (Ok result, w')
      /\ db w' = db sample_world
      /\ holds_exactly (db sample_world) false
           (fun h => exists t, dict_get "end_time" h = Some (VTime t) /\
                               In (VTime t) [VTime 1000; VTime 1500])
           result).
Proof.
  apply (find_time_list_is_membership [VTime 1000; VTime 1500] false sample_world);
    reflexivity.
Defined.

Lemma find_time_scalar_is_since_witness :
  (exists result w',
      find VNone VNone None (VTime 1500) VNone VNone false sample_world = (Ok result, w')
      /\ db w' = db sample_world
      /\ holds_exactly (db sample_world) false
           (fun h => exists t, dict_get "start_time" h = Some (VTime t) /\
                               (1500 <= t < utcnow (proc sample_world))%Z)
           result) /\
  (exists result w',
      find VNone VNone None VNone VNone (VTime 1500) false sample_world = (Ok result, w')
      /\ db w' = db sample_world
      /\ holds_exactly (db sample_world) false
           (fun h => exists t, dict_get "end_time" h = Some (VTime t) /\
                               (1500 <= t < utcnow (proc sample_world))%Z)
           result).
Proof.
  apply (find_time_scalar_is_since 1500 false sample_world); reflexivity.
Defined.

Lemma find_time_mapping_missing_key_witness :
  (dict_get "start" [("end", VTime 2000)] = None ->
   forall et,
     find VNone VNone None (VDict [("end", VTime 2000)]) VNone et false sample_world =
       (Raise (KeyError "start"), sample_world)) /\
  (forall a, dict_get "start" [("end", VTime 2000)] = Some a ->
             dict_get "end" [("end", VTime 2000)] = None ->
   forall et,
     find VNone VNone None (VDict [("end", VTime 2000)]) VNone et false sample_world =
       (Raise (KeyError "end"), sample_world)) /\
  (dict_get "start" [("end", VTime 2000)] = None ->
   find VNone VNone None VNone VNone (VDict [("end", VTime 2000)]) false sample_world =
     (Raise (KeyError "start"), sample_world)) /\
  (forall a, dict_get "start" [("end", VTime 2000)] = Some a ->
             dict_get "end" [("end", VTime 2000)] = None ->
   find VNone VNone None VNone VNone (VDict [("end", VTime 2000)]) false sample_world =
     (Raise (KeyError "end"), sample_world)).
Proof.
  apply (find_time_mapping_missing_key VNone VNone VNone [("end", VTime 2000)] false
           sample_world); reflexivity.
Defined.

Lemma find_current_on_empty_store_witness :
  exists w',
    find VNone (VStr "current") None VNone VNone VNone false
      (mkWorld empty_store (proc sample_world) (mdl sample_world) []) =
      (Raise (IndexError "no such item for Cursor instance"), w')
    /\ db w' = empty_store /\ mdl w' = mdl sample_world.
Proof.
  apply (find_current_on_empty_store VNone None VNone VNone VNone false
           (mkWorld empty_store (proc sample_world) (mdl sample_world) []));
    reflexivity.
Defined.

Lemma query_helper_identifier_overrides_witness :
  (exists cursor d' w',
      find_event (VOid 2) (Some [("seq_no", VInt 1); ("event_descriptor_id", VOid 9)])
        sample_world = (Ok (cursor, d'), w') /\
      forall e, In e cursor <->
                In e (Event_docs (db sample_world)) /\
                dict_get "event_descriptor_id" e = Some (VOid 2) /\
                forall k c, k <> "event_descriptor_id" ->
                            dict_get k [("seq_no", VInt 1); ("event_descriptor_id", VOid 9)]
                              = Some c ->
                            criterion_holds c (dict_get k e) = true) /\
  (exists cursor d' w',
      find_event_descriptor (VOid 2)
        (Some [("seq_no", VInt 1); ("event_descriptor_id", VOid 9)]) sample_world
        = (Ok (cursor, d'), w') /\
      forall e, In e cursor <->
                In e (EventDescriptor_docs (db sample_world)) /\
                dict_get "header_id" e = Some (VOid 2) /\
                forall k c, k <> "header_id" ->
                            dict_get k [("seq_no", VInt 1); ("event_descriptor_id", VOid 9)]
                              = Some c ->
                            criterion_holds c (dict_get k e) = true) /\
  (exists cursor d' w',
      find_beamline_config (VOid 2)
        (Some [("seq_no", VInt 1); ("event_descriptor_id", VOid 9)]) sample_world
        = (Ok (cursor, d'), w') /\
      forall e, In e cursor <->
                In e (BeamlineConfig_docs (db sample_world)) /\
                dict_get "header_id" e = Some (VOid 2) /\
                forall k c, k <> "header_id" ->
                            dict_get k [("seq_no", VInt 1); ("event_descriptor_id", VOid 9)]
                              = Some c ->
                            criterion_holds c (dict_get k e) = true).
Proof.
  apply (query_helper_identifier_overrides (VOid 2)
           [("seq_no", VInt 1); ("event_descriptor_id", VOid 9)] sample_world);
    [reflexivity|].
  unfold dict_keys. simpl. constructor; [|constructor; [|constructor]].
  - intros [E|[]]. discriminate.
  - intros [].
Defined.

(** The caller's own [event_descriptor_id] is overwritten, its [seq_no]
    criterion is kept. *)
Example find_event_with_callers_dict :
  fst (find_event (VOid 2) (Some [("seq_no", VInt 1); ("event_descriptor_id", VOid 9)])
         sample_world) =
  Ok ([scan_event 3 1 5], [("seq_no", VInt 1); ("event_descriptor_id", VOid 2)]).
Proof. reflexivity. Qed.

Example decode_cursor_two_events :
  __decode_cursor [scan_event 3 1 5; scan_event 4 2 6] =
  [("event_0", VDict (scan_event 3 1 5)); ("event_1", VDict (scan_event 4 2 6))].
Proof. reflexivity. Qed.

(** With two headers of one scan_id, the older one is the one found. *)
Example get_header_id_duplicate_scan_id :
  fst (get_header_id (VInt 1)
         (snd (save_header (VInt 1) None None None None None sample_world))) = Ok (VOid 0).
Proof. reflexivity. Qed.
